(** * lyapunov_attractors: the search-and-estimation core, embedded in Rocq

    The Python package is embedded module by module: [models],
    [attractor_system], [storage_manager], [lyapunov_calculator],
    [trajectory_simulator] and [chaotic_system_finder] below carry the
    classes of the files of the same name.

    Conventions of the embedding.
    - In these modules a Python [float] is read as a real number ([R]):
      arithmetic is exact, there is no rounding, no overflow and no
      NaN.  The one non-finite value the code builds itself,
      [float('-inf')], is kept apart in the type [efloat].  The
      statements made in this reading depend on the operations the code
      performs, their order and the comparisons of the computed values
      only.
    - Where a statement depends on rounding, overflow or underflow
      (the estimate of [calculate], the norm [normalize_point] leaves),
      the code is embedded over an explicit float arithmetic, module
      [floats]: the operations are a parameter, with the exact
      arithmetic, rounding arithmetics and IEEE 754 double precision as
      instances.
    - A Python [int] is a [Z]; [//] and [%] are [Z.div] and [Z.modulo]
      (both floor, as in Python), guarded against a zero divisor.
    - A raised exception is the [Raise] constructor of [result]; the
      exceptions modelled are the ones the arithmetic, the indexing and
      the call protocol of the code can raise.
    - [random.random()] reads the next sample of an explicit stream
      ([rng_state]); code that draws random numbers lives in [Rand]. *)

From Stdlib Require Import String.
From Stdlib Require Import Reals Lra Lia ZArith Bool List.
From Stdlib Require Import Sorting.Sorted Sorting.Permutation.
From Stdlib Require Floats.PrimFloat Floats.SpecFloat Floats.FloatOps.
Import ListNotations.
Local Open Scope R_scope.

(* ================================================================= *)
(** ** Python run-time: exceptions, numbers, sequences, randomness    *)
(* ================================================================= *)

Inductive exn : Type :=
| TypeError
| ValueError
| IndexError
| AttributeError
| ZeroDivisionError
| OverflowError
| OSError (kind : string).

Inductive result (A : Type) : Type :=
| Ok (a : A)
| Raise (e : exn).
Arguments Ok {A} a.
Arguments Raise {A} e.

Definition bind {A B : Type} (c : result A) (k : A -> result B) : result B :=
  match c with
  | Ok a => k a
  | Raise e => Raise e
  end.

Notation "x <- c ;; k" := (bind c (fun x => k))
  (at level 61, c at next level, right associativity).
Notation "' p <- c ;; k" := (bind c (fun p => k))
  (at level 61, p pattern, c at next level, right associativity).

(** Comparisons of floats, as booleans. *)
Definition Rltb (x y : R) : bool := if Rlt_dec x y then true else false.
Definition Rgtb (x y : R) : bool := Rltb y x.

(** [x / y] on floats: ZeroDivisionError on a zero divisor. *)
Definition truediv (x y : R) : result R :=
  if Req_dec_T y 0 then Raise ZeroDivisionError else Ok (x / y).

(** [math.log(x)]: ValueError (math domain error) unless [x > 0]. *)
Definition math_log (x : R) : result R :=
  if Rlt_dec 0 x then Ok (ln x) else Raise ValueError.

(** [a // b] and [a % b] on ints. *)
Definition floordiv (a b : Z) : result Z :=
  if (b =? 0)%Z then Raise ZeroDivisionError else Ok (a / b)%Z.
Definition pymod (a b : Z) : result Z :=
  if (b =? 0)%Z then Raise ZeroDivisionError else Ok (a mod b)%Z.

(** [float('-inf')] next to the finite floats; [<] on them. *)
Inductive efloat : Type :=
| NegInf
| Finite (x : R).

Definition eltb (a b : efloat) : bool :=
  match a, b with
  | NegInf, NegInf => false
  | NegInf, Finite _ => true
  | Finite _, NegInf => false
  | Finite x, Finite y => Rltb x y
  end.
Definition egtb (a b : efloat) : bool := eltb b a.

(** [sum(xs)]: left to right from the integer 0. *)
Definition py_sum (xs : list R) : R := fold_left Rplus xs 0.

(** [math.sqrt(sum(x * x for x in point))].  The argument is a sum of
    squares, hence never negative, so [math.sqrt] cannot raise here. *)
Definition magnitude_of (point : list R) : R :=
  sqrt (py_sum (map (fun x => x * x) point)).

(** [range(n)] and [range(a, b)]. *)
Definition py_range (n : Z) : list Z :=
  map Z.of_nat (seq 0 (Z.to_nat n)).
Definition py_range2 (a b : Z) : list Z :=
  map (fun k => (a + Z.of_nat k)%Z) (seq 0 (Z.to_nat (b - a))).

(** [l[i]]: a negative index counts from the end; IndexError outside. *)
Definition getitem {A : Type} (l : list A) (i : Z) : result A :=
  let n := Z.of_nat (length l) in
  let j := if (i <? 0)%Z then (i + n)%Z else i in
  if ((0 <=? j) && (j <? n))%Z then
    match nth_error l (Z.to_nat j) with
    | Some x => Ok x
    | None => Raise IndexError
    end
  else Raise IndexError.

(** [l[a:b]] for [0 <= a <= b], the only way the code slices. *)
Definition py_slice {A : Type} (l : list A) (a b : Z) : list A :=
  firstn (Z.to_nat (b - a)) (skipn (Z.to_nat a) l).

(** [min(xs)]: the first least element; ValueError on an empty sequence. *)
Fixpoint min_from (m : efloat) (xs : list efloat) : efloat :=
  match xs with
  | [] => m
  | x :: rest => min_from (if eltb x m then x else m) rest
  end.
Definition py_min (xs : list efloat) : result efloat :=
  match xs with
  | [] => Raise ValueError
  | x :: rest => Ok (min_from x rest)
  end.

(** [[f(x) for x in l]] when [f] may raise: left to right, the first
    exception wins. *)
Fixpoint list_comp {A B : Type} (f : A -> result B) (l : list A)
  : result (list B) :=
  match l with
  | [] => Ok []
  | x :: rest => y <- f x ;; ys <- list_comp f rest ;; Ok (y :: ys)
  end.

(** [for i in items: s = body(s, i)], no early exit. *)
Fixpoint for_loop {S I : Type} (body : S -> I -> result S)
  (items : list I) (s : S) : result S :=
  match items with
  | [] => Ok s
  | i :: rest => s' <- body s i ;; for_loop body rest s'
  end.

(** A loop body either falls through to the next iteration or executes
    [return]. *)
Inductive control (V S : Type) : Type :=
| Return (v : V)
| Next (s : S).
Arguments Return {V S} v.
Arguments Next {V S} s.

Fixpoint for_return {V S I : Type} (body : S -> I -> result (control V S))
  (items : list I) (s : S) : result (control V S) :=
  match items with
  | [] => Ok (Next s)
  | i :: rest =>
      c <- body s i ;;
      match c with
      | Return v => Ok (Return v)
      | Next s' => for_return body rest s'
      end
  end.

(** The call protocol: a function of [params] positional parameters, the
    last [ndefaults] of them with a default, called with [nargs]
    positional arguments ([self] not counted on either side). *)
Definition check_arity (params : list string) (ndefaults nargs : nat)
  : result unit :=
  if (length params <? nargs)%nat then Raise TypeError
  else if (nargs <? length params - ndefaults)%nat then Raise TypeError
  else Ok tt.

(** The random module: the generator's state is the stream of values
    [random.random()] is going to return, each in [[0, 1)], and a
    cursor. *)
Record rng_state : Type := {
  samples : nat -> R;
  cursor : nat
}.

Definition Rand (A : Type) : Type := rng_state -> result (A * rng_state).

Definition retR {A : Type} (a : A) : Rand A := fun s => Ok (a, s).
Definition bindR {A B : Type} (c : Rand A) (k : A -> Rand B) : Rand B :=
  fun s =>
    match c s with
    | Ok (a, s') => k a s'
    | Raise e => Raise e
    end.
Definition liftR {A : Type} (c : result A) : Rand A :=
  fun s =>
    match c with
    | Ok a => Ok (a, s)
    | Raise e => Raise e
    end.

Notation "x <~ c ;; k" := (bindR c (fun x => k))
  (at level 61, c at next level, right associativity).
Notation "' p <~ c ;; k" := (bindR c (fun p => k))
  (at level 61, p pattern, c at next level, right associativity).

Definition random : Rand R :=
  fun s => Ok (samples s (cursor s),
               {| samples := samples s; cursor := S (cursor s) |}).

(** [random.uniform(a, b)] is [a + (b - a) * random()]. *)
Definition uniform (a b : R) : Rand R :=
  u <~ random ;; retR (a + (b - a) * u).

(** [[draw() for _ in range(n)]]. *)
Fixpoint sample_list {A : Type} (n : nat) (draw : Rand A) : Rand (list A) :=
  match n with
  | O => retR []
  | S n' => x <~ draw ;; xs <~ sample_list n' draw ;; retR (x :: xs)
  end.

(* ================================================================= *)
(** ** models.py                                                      *)
(* ================================================================= *)

Module models.

Record LyapConfig : Type := {
  transient_skip_steps : Z;
  initial_distance : R;
  renorm_steps : Z;
  convergence_threshold : R;
  extreme_threshold : R;
  lyapunov_threshold : R
}.

Record DensityConstraints : Type := {
  MIN : R;
  MAX : R
}.

Record ChaoticSysFinderConfig : Type := {
  dimensions : Z;
  param_count : Z;
  iterations : Z;
  max_systems : Z;
  coefficient_limit : R;
  max_attempts : Z;
  output_path : string;
  density_constraints : DensityConstraints;
  lyap_config : LyapConfig
}.

(** A keyword argument that may be left out: [None] takes the
    namedtuple's default. *)
Definition arg {A : Type} (default : A) (given : option A) : A :=
  match given with
  | Some v => v
  | None => default
  end.

(** The three namedtuple constructors.  A namedtuple stores what it is
    given; the class bodies hold no check of any field. *)
Definition new_LyapConfig
  (transient_skip_steps_ : option Z) (initial_distance_ : option R)
  (renorm_steps_ : option Z) (convergence_threshold_ : option R)
  (extreme_threshold_ : option R) (lyapunov_threshold_ : option R)
  : result LyapConfig :=
  Ok {| transient_skip_steps := arg 100%Z transient_skip_steps_;
        initial_distance := arg 1e-8 initial_distance_;
        renorm_steps := arg 10%Z renorm_steps_;
        convergence_threshold := arg 1e-10 convergence_threshold_;
        extreme_threshold := arg 1e10 extreme_threshold_;
        lyapunov_threshold := arg 0.05 lyapunov_threshold_ |}.

Definition new_DensityConstraints (MIN_ MAX_ : option R)
  : result DensityConstraints :=
  Ok {| MIN := arg (-5) MIN_; MAX := arg 5 MAX_ |}.

Definition default_LyapConfig : LyapConfig :=
  {| transient_skip_steps := 100;
     initial_distance := 1e-8;
     renorm_steps := 10;
     convergence_threshold := 1e-10;
     extreme_threshold := 1e10;
     lyapunov_threshold := 0.05 |}.

Definition default_DensityConstraints : DensityConstraints :=
  {| MIN := -5; MAX := 5 |}.

Definition new_ChaoticSysFinderConfig
  (dimensions_ param_count_ iterations_ max_systems_ : option Z)
  (coefficient_limit_ : option R) (max_attempts_ : option Z)
  (output_path_ : option string)
  (density_constraints_ : option DensityConstraints)
  (lyap_config_ : option LyapConfig)
  : result ChaoticSysFinderConfig :=
  Ok {| dimensions := arg 3%Z dimensions_;
        param_count := arg 12%Z param_count_;
        iterations := arg 2000%Z iterations_;
        max_systems := arg 10%Z max_systems_;
        coefficient_limit := arg 2.5 coefficient_limit_;
        max_attempts := arg 9000%Z max_attempts_;
        output_path := arg "./best_attractors"%string output_path_;
        density_constraints :=
          arg default_DensityConstraints density_constraints_;
        lyap_config := arg default_LyapConfig lyap_config_ |}.

(** [ChaoticSysFinderConfig()]. *)
Definition default_config : ChaoticSysFinderConfig :=
  {| dimensions := 3;
     param_count := 12;
     iterations := 2000;
     max_systems := 10;
     coefficient_limit := 2.5;
     max_attempts := 9000;
     output_path := "./best_attractors";
     density_constraints := default_DensityConstraints;
     lyap_config := default_LyapConfig |}.

End models.

(* ================================================================= *)
(** ** attractor_system.py                                            *)
(* ================================================================= *)

Module attractor_system.

Record AttractorSystem : Type := {
  dimensions : Z;
  param_count : Z;
  iterations : Z;
  coefficients : list R;
  lyapunov : efloat;
  points : list (list R);
  timestamp : string
}.

End attractor_system.

(* ================================================================= *)
(** ** storage_manager.py                                             *)
(* ================================================================= *)

Module storage_manager.
Import attractor_system.

(** What the file system answers: [mkdir path] is the exception
    [Path(path).mkdir(exist_ok=True)] raises, if any, [load file] is
    what reading the systems file yields, and [save file systems] is
    the exception writing it raises, if any. *)
Record file_system : Type := {
  mkdir : string -> option exn;
  load : string -> result (list AttractorSystem);
  save : string -> list AttractorSystem -> option exn
}.

Record StorageManager : Type := {
  storage_path : string;
  systems_file : string
}.

(** [StorageManager(storage_path)]: one positional parameter, and the
    directory is created on the spot. *)
Definition __init__ (fs : file_system) (storage_path_ : string)
  : result StorageManager :=
  _ <- check_arity ["storage_path"%string] 0 1 ;;
  match mkdir fs storage_path_ with
  | Some e => Raise e
  | None =>
      Ok {| storage_path := storage_path_;
            systems_file := (storage_path_ ++ "/systems.json")%string |}
  end.

Definition load_systems (fs : file_system) (self : StorageManager)
  : result (list AttractorSystem) :=
  load fs (systems_file self).

Definition save_systems (fs : file_system) (self : StorageManager)
  (systems : list AttractorSystem) : result unit :=
  match save fs (systems_file self) systems with
  | Some e => Raise e
  | None => Ok tt
  end.

End storage_manager.

(* ================================================================= *)
(** ** lyapunov_calculator.py                                         *)
(* ================================================================= *)

Module lyapunov_calculator.

Record LyapunovCalculator : Type := {
  lyap_skip_steps : Z;
  lyap_norm_dist : R;
  lyap_renorm_steps : Z;
  extreme_threshold : R
}.

Definition __init__ (lyap_config : models.LyapConfig) : LyapunovCalculator :=
  {| lyap_skip_steps := models.transient_skip_steps lyap_config;
     lyap_norm_dist := models.initial_distance lyap_config;
     lyap_renorm_steps := models.renorm_steps lyap_config;
     extreme_threshold := models.extreme_threshold lyap_config |}.

(** [math.sqrt(sum((r - p) ** 2 for r, p in zip(ref_point, pert_point)))]. *)
Definition separation_of (ref_point pert_point : list R) : R :=
  sqrt (py_sum (map (fun '(r, p) => (r - p) ^ 2)
                    (combine ref_point pert_point))).

(** The two accumulators of [calculate]'s loop. *)
Record accumulators : Type := {
  lyap_sum : R;
  valid_points : Z
}.

Definition calculate_body (self : LyapunovCalculator)
  (reference_traj perturbed_traj : list (list R))
  (acc : accumulators) (i : Z) : result accumulators :=
  ref_point <- getitem reference_traj i ;;
  pert_point <- getitem perturbed_traj i ;;
  let separation := separation_of ref_point pert_point in
  if Rgtb separation 0 && Rltb separation (extreme_threshold self) then
    q <- truediv separation (lyap_norm_dist self) ;;
    l <- math_log q ;;
    Ok {| lyap_sum := lyap_sum acc + l;
          valid_points := (valid_points acc + 1)%Z |}
  else Ok acc.

Definition calculate (self : LyapunovCalculator)
  (reference_traj perturbed_traj : list (list R)) : result efloat :=
  let num_points := Z.of_nat (length reference_traj) in
  let start_idx := Z.min (lyap_skip_steps self) (num_points / 4) in
  acc <- for_loop (calculate_body self reference_traj perturbed_traj)
                  (py_range2 start_idx num_points)
                  {| lyap_sum := 0; valid_points := 0 |} ;;
  if (valid_points acc =? 0)%Z then Ok NegInf
  else
    r <- truediv (lyap_sum acc)
                 (IZR (valid_points acc * lyap_renorm_steps self)) ;;
    Ok (Finite r).

End lyapunov_calculator.

(* ================================================================= *)
(** ** trajectory_simulator.py                                        *)
(* ================================================================= *)

Module trajectory_simulator.

Record TrajectorySimulator : Type := {
  config : models.ChaoticSysFinderConfig;
  density_constraints : models.DensityConstraints;
  lyap_config : models.LyapConfig;
  dimensions : Z;
  iterations : Z;
  param_max : Z;
  min_density : R;
  max_density : R;
  convergence_threshold : R;
  extreme_threshold : R;
  lyap_norm_dist : R;
  lyap_renorm_steps : Z
}.

(** The body of [__init__(self, config)].  [param_max] is read from
    [config.max_systems]. *)
Definition __init__ (config_ : models.ChaoticSysFinderConfig)
  : TrajectorySimulator :=
  {| config := config_;
     density_constraints := models.density_constraints config_;
     lyap_config := models.lyap_config config_;
     dimensions := models.dimensions config_;
     iterations := models.iterations config_;
     param_max := models.max_systems config_;
     min_density := models.MIN (models.density_constraints config_);
     max_density := models.MAX (models.density_constraints config_);
     convergence_threshold :=
       models.convergence_threshold (models.lyap_config config_);
     extreme_threshold :=
       models.extreme_threshold (models.lyap_config config_);
     lyap_norm_dist := models.initial_distance (models.lyap_config config_);
     lyap_renorm_steps := models.renorm_steps (models.lyap_config config_) |}.

(** What a call site may pass to the class. *)
Inductive argument : Type :=
| NoneArg
| ConfigArg (c : models.ChaoticSysFinderConfig)
| CalculatorArg (c : lyapunov_calculator.LyapunovCalculator).

(** Calling the class with [args]: the arguments are bound to the single
    parameter [config] of [__init__] before its body runs; an argument
    without the configuration's attributes fails on the first attribute
    read. *)
Definition new (args : list argument) : result TrajectorySimulator :=
  _ <- check_arity ["config"%string] 0 (length args) ;;
  match args with
  | [ConfigArg c] => Ok (__init__ c)
  | _ => Raise AttributeError
  end.

Definition create_random_points (self : TrajectorySimulator)
  : Rand (list R * list R) :=
  point <~ sample_list (Z.to_nat (dimensions self))
             (uniform (min_density self / 2) (max_density self / 2)) ;;
  random_direction <~ sample_list (Z.to_nat (dimensions self))
                        (uniform (-1) 1) ;;
  let magnitude := magnitude_of random_direction in
  perturbed <~ liftR
    (list_comp (fun '(p, d) =>
                  q <- truediv (d * lyap_norm_dist self) magnitude ;;
                  Ok (p + q))
               (combine point random_direction)) ;;
  retR (point, perturbed).

Definition generate_polynomial_coefficients (self : TrajectorySimulator)
  : Rand (list R) :=
  let coeffs_per_dim :=
    (1 + dimensions self + (dimensions self * (dimensions self + 1)) / 2)%Z in
  let total_params := (coeffs_per_dim * dimensions self)%Z in
  sample_list (Z.to_nat total_params)
    (uniform (- IZR (param_max self) / 2) (IZR (param_max self) / 2)).

(** [itertools.combinations_with_replacement(items, 2)]. *)
Fixpoint combinations_with_replacement_2 (items : list Z) : list (Z * Z) :=
  match items with
  | [] => []
  | x :: rest =>
      map (pair x) (x :: rest) ++ combinations_with_replacement_2 rest
  end.

(** The two locals [compute_polynomial_terms] updates. *)
Record poly_state : Type := {
  current_idx : Z;
  poly_result : R
}.

Definition linear_body (point dim_coeffs : list R)
  (st : poly_state) (i : Z) : result poly_state :=
  if (current_idx st <? Z.of_nat (length dim_coeffs))%Z then
    c <- getitem dim_coeffs (current_idx st) ;;
    x <- getitem point i ;;
    Ok {| current_idx := (current_idx st + 1)%Z;
          poly_result := poly_result st + c * x * 0.5 |}
  else Ok st.

Definition quadratic_body (point dim_coeffs : list R)
  (st : poly_state) (ij : Z * Z) : result poly_state :=
  let '(i, j) := ij in
  if (current_idx st <? Z.of_nat (length dim_coeffs))%Z then
    c <- getitem dim_coeffs (current_idx st) ;;
    x <- getitem point i ;;
    y <- getitem point j ;;
    Ok {| current_idx := (current_idx st + 1)%Z;
          poly_result := poly_result st + c * x * y * 0.25 |}
  else Ok st.

(** The [try] block.  Nothing in it raises OverflowError (float [*] and
    [+] do not, and reals do not overflow), so the handler that returns
    [float('inf')] is never entered; an IndexError is not caught. *)
Definition compute_polynomial_terms (self : TrajectorySimulator)
  (point dim_coeffs : list R) : result R :=
  c0 <- getitem dim_coeffs 0 ;;
  let st0 := {| current_idx := 1; poly_result := 0 + c0 * 0.1 |} in
  st1 <- for_loop (linear_body point dim_coeffs)
                  (py_range (dimensions self)) st0 ;;
  st2 <- for_loop (quadratic_body point dim_coeffs)
                  (combinations_with_replacement_2
                     (py_range (dimensions self))) st1 ;;
  Ok (poly_result st2).

Definition normalize_point (self : TrajectorySimulator) (point : list R)
  : result (list R) :=
  let magnitude := magnitude_of point in
  if Rgtb magnitude (max_density self) then
    list_comp (fun x => truediv (x * max_density self) magnitude) point
  else Ok point.

Definition check_convergence (self : TrajectorySimulator) (point : list R)
  : bool :=
  let magnitude := magnitude_of point in
  Rgtb magnitude (extreme_threshold self)
  || Rltb magnitude (convergence_threshold self).

Definition calculate_new_point (self : TrajectorySimulator)
  (point coefficients : list R) : result (list R) :=
  coeffs_per_dim <-
    floordiv (Z.of_nat (length coefficients)) (dimensions self) ;;
  new_point <-
    list_comp (fun dim =>
                 let start_idx := (dim * coeffs_per_dim)%Z in
                 let dim_coeffs :=
                   py_slice coefficients start_idx
                            (start_idx + coeffs_per_dim) in
                 compute_polynomial_terms self point dim_coeffs)
              (py_range (dimensions self)) ;;
  normalize_point self new_point.

(** The locals the loop of [simulate] carries from one iteration to the
    next. *)
Record sim_state : Type := {
  point : list R;
  perturbed : list R;
  reference_traj : list (list R);
  perturbed_traj : list (list R)
}.

(** What [simulate] returns: exponent, coefficients, reference
    trajectory. *)
Definition outcome : Type := (efloat * list R * list (list R))%type.

Definition simulate_body (self : TrajectorySimulator) (coefficients : list R)
  (st : sim_state) (iteration : Z) : result (control outcome sim_state) :=
  new_point <- calculate_new_point self (point st) coefficients ;;
  if check_convergence self new_point then
    Ok (Return (NegInf, coefficients, reference_traj st))
  else
    let reference_traj' := reference_traj st ++ [new_point] in
    new_perturbed <- calculate_new_point self (perturbed st) coefficients ;;
    if check_convergence self new_perturbed then
      Ok (Return (NegInf, coefficients, reference_traj'))
    else
      m <- pymod iteration (lyap_renorm_steps self) ;;
      new_perturbed' <-
        (if (m =? 0)%Z && (iteration >? 0)%Z then
           let separation :=
             map (fun '(p, r) => p - r) (combine new_perturbed new_point) in
           let separation_dist := magnitude_of separation in
           if Rgtb separation_dist 0 then
             scale <- truediv (lyap_norm_dist self) separation_dist ;;
             Ok (map (fun '(r, s) => r + s * scale)
                     (combine new_point separation))
           else Ok new_perturbed
         else Ok new_perturbed) ;;
      Ok (Next {| point := new_point;
                  perturbed := new_perturbed';
                  reference_traj := reference_traj';
                  perturbed_traj := perturbed_traj st ++ [new_perturbed'] |}).

(** The [for] loop of [simulate], from the sampled seed pair. *)
Definition simulate_loop (self : TrajectorySimulator)
  (point_ perturbed_ coefficients : list R)
  : result (control outcome sim_state) :=
  for_return (simulate_body self coefficients)
             (py_range (iterations self))
             {| point := point_;
                perturbed := perturbed_;
                reference_traj := [];
                perturbed_traj := [] |}.

Definition simulate (self : TrajectorySimulator) : Rand outcome :=
  ' (point_, perturbed_) <~ create_random_points self ;;
  coefficients <~ generate_polynomial_coefficients self ;;
  c <~ liftR (simulate_loop self point_ perturbed_ coefficients) ;;
  match c with
  | Return v => retR v
  | Next st => retR (NegInf, coefficients, reference_traj st)
  end.

End trajectory_simulator.

(* ================================================================= *)
(** ** visualizer.py (the constructor, and plotting as a black box)    *)
(* ================================================================= *)

Module visualizer.
Import attractor_system.

Record Visualizer : Type := {
  storage_path : string
}.

(** What the plotting library answers: [render system] is the exception
    drawing and saving the figure of [system] raises, if any. *)
Record backend : Type := {
  render : AttractorSystem -> option exn
}.

Definition __init__ (storage_path_ : string) : result Visualizer :=
  _ <- check_arity ["storage_path"%string] 0 1 ;;
  Ok {| storage_path := storage_path_ |}.

Definition plot_system (gfx : backend) (self : Visualizer)
  (system : AttractorSystem) : result unit :=
  match render gfx system with
  | Some e => Raise e
  | None => Ok tt
  end.

End visualizer.

(* ================================================================= *)
(** ** chaotic_system_finder.py                                       *)
(* ================================================================= *)

Module chaotic_system_finder.
Import attractor_system.

Record ChaoticSystemFinder : Type := {
  config : models.ChaoticSysFinderConfig;
  lyap_config : models.LyapConfig;
  storage_manager_ : storage_manager.StorageManager;
  lyap_calculator : lyapunov_calculator.LyapunovCalculator;
  simulator : trajectory_simulator.TrajectorySimulator;
  visualizer_ : visualizer.Visualizer;
  best_systems : list AttractorSystem
}.

(** [__init__(self, config=None)], statement by statement.  The
    simulator is called with the argument [config] (not [self.config])
    and the calculator. *)
Definition __init__ (fs : storage_manager.file_system)
  (config_ : option models.ChaoticSysFinderConfig)
  : result ChaoticSystemFinder :=
  let self_config := models.arg models.default_config config_ in
  let self_lyap_config := models.lyap_config self_config in
  self_storage_manager <-
    storage_manager.__init__ fs (models.output_path self_config) ;;
  let self_lyap_calculator :=
    lyapunov_calculator.__init__ (models.lyap_config self_config) in
  self_simulator <-
    trajectory_simulator.new
      [ match config_ with
        | Some c => trajectory_simulator.ConfigArg c
        | None => trajectory_simulator.NoneArg
        end;
        trajectory_simulator.CalculatorArg self_lyap_calculator ] ;;
  self_visualizer <- visualizer.__init__ "./best_attractors" ;;
  self_best_systems <-
    storage_manager.load_systems fs self_storage_manager ;;
  Ok {| config := self_config;
        lyap_config := self_lyap_config;
        storage_manager_ := self_storage_manager;
        lyap_calculator := self_lyap_calculator;
        simulator := self_simulator;
        visualizer_ := self_visualizer;
        best_systems := self_best_systems |}.

Definition is_system_worthy (self : ChaoticSystemFinder) (lyapunov_ : efloat)
  : result bool :=
  if eltb lyapunov_ (Finite (models.lyapunov_threshold (lyap_config self)))
  then Ok false
  else if (Z.of_nat (length (best_systems self))
           <? models.max_systems (config self))%Z
  then Ok true
  else
    least <- py_min (map lyapunov (best_systems self)) ;;
    Ok (egtb lyapunov_ least).

(** [list.sort(key=lambda x: x.lyapunov, reverse=True)]: a stable sort,
    larger exponents first; among equal exponents the earlier element
    stays first. *)
Fixpoint insert_desc (x : AttractorSystem) (l : list AttractorSystem)
  : list AttractorSystem :=
  match l with
  | [] => [x]
  | y :: rest =>
      if eltb (lyapunov x) (lyapunov y) then y :: insert_desc x rest
      else x :: y :: rest
  end.

Definition sort_by_lyapunov_reverse (l : list AttractorSystem)
  : list AttractorSystem :=
  fold_right insert_desc [] l.

(** [self.best_systems = l]. *)
Definition set_best_systems (self : ChaoticSystemFinder)
  (l : list AttractorSystem) : ChaoticSystemFinder :=
  {| config := config self;
     lyap_config := lyap_config self;
     storage_manager_ := storage_manager_ self;
     lyap_calculator := lyap_calculator self;
     simulator := simulator self;
     visualizer_ := visualizer_ self;
     best_systems := l |}.

(** [add_system]: what the call returns or raises, and the object as
    it is afterwards.  [now] is the string
    [datetime.now().strftime(...)] returns.  The best set has its final
    value before [save_systems] and [plot_system] are called; an
    exception of theirs leaves it updated. *)
Definition add_system (fs : storage_manager.file_system)
  (gfx : visualizer.backend) (self : ChaoticSystemFinder)
  (coefficients_ : list R) (lyapunov_ : efloat) (points_ : list (list R))
  (now : string) : result unit * ChaoticSystemFinder :=
  match is_system_worthy self lyapunov_ with
  | Raise e => (Raise e, self)
  | Ok false => (Ok tt, self)
  | Ok true =>
      let new_system :=
        {| dimensions := models.dimensions (config self);
           param_count := models.param_count (config self);
           iterations := models.iterations (config self);
           coefficients := coefficients_;
           lyapunov := lyapunov_;
           points := points_;
           timestamp := now |} in
      let appended := best_systems self ++ [new_system] in
      let sorted := sort_by_lyapunov_reverse appended in
      let kept :=
        if (Z.of_nat (length sorted) >? models.max_systems (config self))%Z
        then removelast sorted
        else sorted in
      let self' := set_best_systems self kept in
      (_ <- storage_manager.save_systems fs (storage_manager_ self')
              (best_systems self') ;;
       visualizer.plot_system gfx (visualizer_ self') new_system,
       self')
  end.

(** The loop that prints the best systems after an admission.  Printing
    changes nothing, but each line formats [system.points[0]]. *)
Definition report_best_systems (systems : list AttractorSystem)
  : result unit :=
  for_loop (fun (_ : unit) system =>
              _ <- getitem (points system) 0 ;; Ok tt)
           systems tt.

(** One pass of the loop of [search]: what it leaves of the generator
    (or the exception it raises) and the object afterwards.  [now] is
    the value of the clock when [add_system] reads it. *)
Definition search_attempt (fs : storage_manager.file_system)
  (gfx : visualizer.backend) (now : string) (self : ChaoticSystemFinder)
  (s : rng_state) : result rng_state * ChaoticSystemFinder :=
  match trajectory_simulator.simulate (simulator self) s with
  | Raise e => (Raise e, self)
  | Ok ((lyapunov_, coefficients_, points_), s') =>
      if egtb lyapunov_ (Finite (models.lyapunov_threshold (lyap_config self)))
      then
        let '(outcome, self') :=
          add_system fs gfx self coefficients_ lyapunov_ points_ now in
        (_ <- outcome ;;
         _ <- report_best_systems (best_systems self') ;;
         Ok s',
         self')
      else (Ok s', self)
  end.

Fixpoint search_loop (fs : storage_manager.file_system)
  (gfx : visualizer.backend) (clock : Z -> string) (attempts : list Z)
  (self : ChaoticSystemFinder) (s : rng_state)
  : result rng_state * ChaoticSystemFinder :=
  match attempts with
  | [] => (Ok s, self)
  | attempt :: rest =>
      match search_attempt fs gfx (clock attempt) self s with
      | (Ok s', self') => search_loop fs gfx clock rest self' s'
      | (Raise e, self') => (Raise e, self')
      end
  end.

(** [search(num_attempts=None)]; [clock attempt] is the time stamp the
    clock would give during that attempt. *)
Definition search (fs : storage_manager.file_system)
  (gfx : visualizer.backend) (clock : Z -> string)
  (self : ChaoticSystemFinder) (num_attempts : option Z) (s : rng_state)
  : result rng_state * ChaoticSystemFinder :=
  search_loop fs gfx clock
    (py_range (models.arg (models.max_attempts (config self)) num_attempts))
    self s.


End chaotic_system_finder.

(* ================================================================= *)
(** ** The numeric kernels over an explicit float arithmetic           *)
(* ================================================================= *)

(** The modules above read a [float] as a real number.  That reading
    settles a statement that depends only on which operations are
    performed, in which order, and on how the computed values compare;
    it cannot settle one that depends on rounding, overflow or
    underflow.  For the two kernels whose statements do,
    [LyapunovCalculator.calculate] and
    [TrajectorySimulator.normalize_point], the code is embedded once
    more with the float operations as a parameter ([arithmetic]): the
    operations that can raise return a [result], the others a value.
    Three arithmetics are given: [exact] (the real-number reading of
    the modules above), [rounded] (every operation followed by a
    rounding of its exact result) and [binary64] (IEEE 754 double
    precision, the arithmetic of CPython's [float]). *)
Module floats.

Record arithmetic (F : Type) : Type := {
  fadd : F -> F -> F;                (* x + y *)
  fsub : F -> F -> F;                (* x - y *)
  fmul : F -> F -> F;                (* x * y *)
  fdiv : F -> F -> result F;         (* x / y: ZeroDivisionError *)
  fpow2 : F -> result F;             (* x ** 2: OverflowError *)
  fsqrt : F -> F;                    (* math.sqrt of a sum of squares *)
  flog : F -> result F;              (* math.log(x): ValueError *)
  fsum : list F -> F;                (* sum(...) of floats *)
  fltb : F -> F -> bool;             (* x < y; x > y is y < x *)
  fzero : F;                         (* 0.0, and the int 0 it equals *)
  fdiv_int : F -> Z -> result F      (* x / n for an int n *)
}.
Arguments fadd {F} a x y.
Arguments fsub {F} a x y.
Arguments fmul {F} a x y.
Arguments fdiv {F} a x y.
Arguments fpow2 {F} a x.
Arguments fsqrt {F} a x.
Arguments flog {F} a x.
Arguments fsum {F} a l.
Arguments fltb {F} a x y.
Arguments fzero {F} a.
Arguments fdiv_int {F} a x n.

(** Floats read as real numbers: the arithmetic of the modules above. *)
Definition exact : arithmetic R :=
  {| fadd := Rplus;
     fsub := Rminus;
     fmul := Rmult;
     fdiv := truediv;
     fpow2 := fun x => Ok (x ^ 2);
     fsqrt := sqrt;
     flog := math_log;
     fsum := py_sum;
     fltb := Rltb;
     fzero := 0;
     fdiv_int := fun x n => truediv x (IZR n) |}.

(** Floats read as the real numbers they denote, every operation
    returning the rounding [rnd] of its exact result, with an unbounded
    exponent range (no overflow, no underflow); [sum] adds from left to
    right. *)
Definition rounded (rnd : R -> R) : arithmetic R :=
  {| fadd := fun x y => rnd (x + y);
     fsub := fun x y => rnd (x - y);
     fmul := fun x y => rnd (x * y);
     fdiv := fun x y => q <- truediv x y ;; Ok (rnd q);
     fpow2 := fun x => Ok (rnd (x ^ 2));
     fsqrt := fun x => rnd (sqrt x);
     flog := fun x => l <- math_log x ;; Ok (rnd l);
     fsum := fun l => fold_left (fun acc x => rnd (acc + x)) l 0;
     fltb := Rltb;
     fzero := 0;
     fdiv_int := fun x n => q <- truediv x (rnd (IZR n)) ;; Ok (rnd q) |}.

Section Binary64.
Import PrimFloat.

(** [x ** 2] on a CPython float: the square, correctly rounded;
    OverflowError when a finite [x] has an infinite square; a square
    that underflows is 0.0 and raises nothing. *)
Definition binary64_pow2 (x : float) : result float :=
  let r := (x * x)%float in
  if is_finite x && is_infinity r then Raise OverflowError else Ok r.

(** [x / y]: ZeroDivisionError when [y] is 0.0 or -0.0. *)
Definition binary64_div (x y : float) : result float :=
  if (y =? 0)%float then Raise ZeroDivisionError else Ok (x / y)%float.

(** [math.log(x)]: ValueError unless [x > 0]; NaN and infinity are
    returned as they are; on the finite positive numbers the value is
    the C library's, [libm_log]. *)
Definition binary64_log (libm_log : float -> float) (x : float)
  : result float :=
  if (x <=? 0)%float then Raise ValueError
  else if is_nan x || is_infinity x then Ok x
  else Ok (libm_log x).

(** [float(n)] for an int [n], rounded to nearest-even; OverflowError
    when [n] is too large. *)
Definition binary64_of_int (n : Z) : result float :=
  let x := FloatOps.SF2Prim
             (SpecFloat.binary_normalize FloatOps.prec FloatOps.emax
                                         n 0 false) in
  if is_infinity x then Raise OverflowError else Ok x.

(** IEEE 754 double precision as CPython uses it.  [sum] adds from left
    to right, starting from 0 (CPython from 3.12 on compensates the
    rounding errors of the additions, which this arithmetic does not
    do). *)
Definition binary64 (libm_log : float -> float) : arithmetic float :=
  {| fadd := add;
     fsub := sub;
     fmul := mul;
     fdiv := binary64_div;
     fpow2 := binary64_pow2;
     fsqrt := sqrt;
     flog := binary64_log libm_log;
     fsum := fun l => fold_left add l 0%float;
     fltb := ltb;
     fzero := 0%float;
     fdiv_int := fun x n => d <- binary64_of_int n ;; binary64_div x d |}.

End Binary64.

(** What [calculate] returns: [float('-inf')] or a computed float. *)
Inductive exponent (F : Type) : Type :=
| MinusInfinity
| Value (x : F).
Arguments MinusInfinity {F}.
Arguments Value {F} x.

Record LyapunovCalculator (F : Type) : Type := {
  lyap_skip_steps : Z;
  lyap_norm_dist : F;
  lyap_renorm_steps : Z;
  extreme_threshold : F
}.
Arguments lyap_skip_steps {F} l.
Arguments lyap_norm_dist {F} l.
Arguments lyap_renorm_steps {F} l.
Arguments extreme_threshold {F} l.

Record accumulators (F : Type) : Type := {
  lyap_sum : F;
  valid_points : Z
}.
Arguments lyap_sum {F} a.
Arguments valid_points {F} a.

Section Kernels.
Context {F : Type} (a : arithmetic F).

(** [math.sqrt(sum((r - p) ** 2 for r, p in zip(ref_point, pert_point)))]. *)
Definition separation_of (ref_point pert_point : list F) : result F :=
  squares <- list_comp (fun '(r, p) => fpow2 a (fsub a r p))
                       (combine ref_point pert_point) ;;
  Ok (fsqrt a (fsum a squares)).

Definition calculate_body (self : LyapunovCalculator F)
  (reference_traj perturbed_traj : list (list F))
  (acc : accumulators F) (i : Z) : result (accumulators F) :=
  ref_point <- getitem reference_traj i ;;
  pert_point <- getitem perturbed_traj i ;;
  separation <- separation_of ref_point pert_point ;;
  if fltb a (fzero a) separation
     && fltb a separation (extreme_threshold self) then
    q <- fdiv a separation (lyap_norm_dist self) ;;
    l <- flog a q ;;
    Ok {| lyap_sum := fadd a (lyap_sum acc) l;
          valid_points := (valid_points acc + 1)%Z |}
  else Ok acc.

Definition calculate (self : LyapunovCalculator F)
  (reference_traj perturbed_traj : list (list F)) : result (exponent F) :=
  let num_points := Z.of_nat (length reference_traj) in
  let start_idx := Z.min (lyap_skip_steps self) (num_points / 4) in
  acc <- for_loop (calculate_body self reference_traj perturbed_traj)
                  (py_range2 start_idx num_points)
                  {| lyap_sum := fzero a; valid_points := 0 |} ;;
  if (valid_points acc =? 0)%Z then Ok MinusInfinity
  else
    r <- fdiv_int a (lyap_sum acc)
                  (valid_points acc * lyap_renorm_steps self) ;;
    Ok (Value r).

(** [math.sqrt(sum(x * x for x in point))]. *)
Definition magnitude_of (point : list F) : F :=
  fsqrt a (fsum a (map (fun x => fmul a x x) point)).

(** [normalize_point], with [self.max_density] as an argument. *)
Definition normalize_point (max_density : F) (point : list F)
  : result (list F) :=
  let magnitude := magnitude_of point in
  if fltb a max_density magnitude then
    list_comp (fun x => fdiv a (fmul a x max_density) magnitude) point
  else Ok point.

End Kernels.

End floats.

(* ================================================================= *)
(** ** Predicates of the specification                                *)
(* ================================================================= *)

(** The configurations section 3 of the specification calls valid. *)
Record valid_LyapConfig (c : models.LyapConfig) : Prop := {
  valid_skip : (0 <= models.transient_skip_steps c)%Z;
  valid_distance : 0 < models.initial_distance c;
  valid_renorm : (1 <= models.renorm_steps c)%Z;
  valid_convergence : 0 <= models.convergence_threshold c;
  valid_extreme : models.convergence_threshold c < models.extreme_threshold c
}.

Record valid_config (c : models.ChaoticSysFinderConfig) : Prop := {
  valid_dimensions : (1 <= models.dimensions c)%Z;
  valid_iterations : (1 <= models.iterations c)%Z;
  valid_max_systems : (1 <= models.max_systems c)%Z;
  valid_coefficient_limit : 0 < models.coefficient_limit c;
  valid_max_attempts : (1 <= models.max_attempts c)%Z;
  valid_density :
    models.MIN (models.density_constraints c)
    < models.MAX (models.density_constraints c);
  valid_lyap : valid_LyapConfig (models.lyap_config c)
}.

(** What section 7 of the specification calls an invalid configuration:
    non-positive dimensions or iterations, a density bound with
    [min >= max], a non-positive threshold. *)
Definition invalid_config (c : models.ChaoticSysFinderConfig) : Prop :=
  (models.dimensions c <= 0)%Z \/
  (models.iterations c <= 0)%Z \/
  models.MAX (models.density_constraints c)
  <= models.MIN (models.density_constraints c) \/
  models.convergence_threshold (models.lyap_config c) <= 0 \/
  models.extreme_threshold (models.lyap_config c) <= 0.

(* ================================================================= *)
(** ** Vocabulary of the statements and concrete inputs               *)
(* ================================================================= *)

(** A file system in which every directory can be created and no
    systems file exists yet. *)
Definition fresh_file_system : storage_manager.file_system :=
  {| storage_manager.mkdir := fun _ => None;
     storage_manager.load := fun _ => Ok [];
     storage_manager.save := fun _ _ => None |}.

(** A file system that is mounted read-only: [mkdir] and writing raise
    PermissionError. *)
Definition read_only_file_system : storage_manager.file_system :=
  {| storage_manager.mkdir := fun _ => Some (OSError "PermissionError");
     storage_manager.load := fun _ => Ok [];
     storage_manager.save := fun _ _ => Some (OSError "PermissionError") |}.

(** A plotting library that draws every figure. *)
Definition drawing_backend : visualizer.backend :=
  {| visualizer.render := fun _ => None |}.

(** A configuration with thresholds that points of small integer
    coordinates reach exactly: convergence threshold 5, extreme
    threshold 10. *)
Definition boundary_config : models.ChaoticSysFinderConfig :=
  {| models.dimensions := 2;
     models.param_count := 12;
     models.iterations := 2000;
     models.max_systems := 10;
     models.coefficient_limit := 2.5;
     models.max_attempts := 9000;
     models.output_path := "./best_attractors";
     models.density_constraints := models.default_DensityConstraints;
     models.lyap_config :=
       {| models.transient_skip_steps := 100;
          models.initial_distance := 1e-8;
          models.renorm_steps := 10;
          models.convergence_threshold := 5;
          models.extreme_threshold := 10;
          models.lyapunov_threshold := 0.05 |} |}.

(** The order of exponents as propositions: [elt] is [<], [ele] is
    [<=], with [float('-inf')] below every finite value. *)
Definition elt (a b : efloat) : Prop :=
  match a, b with
  | NegInf, Finite _ => True
  | Finite x, Finite y => x < y
  | _, NegInf => False
  end.

Definition ele (a b : efloat) : Prop :=
  match a, b with
  | NegInf, _ => True
  | Finite x, Finite y => x <= y
  | Finite _, NegInf => False
  end.

(** [a] is ranked no lower than [b]. *)
Definition ranked_desc (a b : attractor_system.AttractorSystem) : Prop :=
  ele (attractor_system.lyapunov b) (attractor_system.lyapunov a).

(** [m] is the least exponent among the systems of [l]. *)
Definition least_exponent (m : efloat)
  (l : list attractor_system.AttractorSystem) : Prop :=
  In m (map attractor_system.lyapunov l) /\
  Forall (fun s => ele m (attractor_system.lyapunov s)) l.

(** The invariant of the best set: at most [max_systems] members,
    ranked by exponent in descending order, every exponent at least the
    admission threshold. *)
Definition best_set_invariant
  (self : chaotic_system_finder.ChaoticSystemFinder) : Prop :=
  (Z.of_nat (length (chaotic_system_finder.best_systems self))
   <= models.max_systems (chaotic_system_finder.config self))%Z /\
  StronglySorted ranked_desc (chaotic_system_finder.best_systems self) /\
  Forall (fun s =>
            ele (Finite (models.lyapunov_threshold
                           (chaotic_system_finder.lyap_config self)))
                (attractor_system.lyapunov s))
         (chaotic_system_finder.best_systems self).

(** A system with a given exponent, and a finder over a configuration
    and a best set, as the constructor is written to assemble it. *)
Definition system_with (e : R) (stamp : string)
  : attractor_system.AttractorSystem :=
  {| attractor_system.dimensions := 3;
     attractor_system.param_count := 12;
     attractor_system.iterations := 2000;
     attractor_system.coefficients := [];
     attractor_system.lyapunov := Finite e;
     attractor_system.points := [];
     attractor_system.timestamp := stamp |}.

Definition finder_with (c : models.ChaoticSysFinderConfig)
  (best : list attractor_system.AttractorSystem)
  : chaotic_system_finder.ChaoticSystemFinder :=
  {| chaotic_system_finder.config := c;
     chaotic_system_finder.lyap_config := models.lyap_config c;
     chaotic_system_finder.storage_manager_ :=
       {| storage_manager.storage_path := models.output_path c;
          storage_manager.systems_file :=
            (models.output_path c ++ "/systems.json")%string |};
     chaotic_system_finder.lyap_calculator :=
       lyapunov_calculator.__init__ (models.lyap_config c);
     chaotic_system_finder.simulator := trajectory_simulator.__init__ c;
     chaotic_system_finder.visualizer_ :=
       {| visualizer.storage_path := "./best_attractors" |};
     chaotic_system_finder.best_systems := best |}.

(** The admission scenario of the specification: at most two systems,
    threshold 0.05, current exponents 0.5 and 0.3. *)
Definition two_systems_config : models.ChaoticSysFinderConfig :=
  {| models.dimensions := 3;
     models.param_count := 12;
     models.iterations := 2000;
     models.max_systems := 2;
     models.coefficient_limit := 2.5;
     models.max_attempts := 9000;
     models.output_path := "./best_attractors";
     models.density_constraints := models.default_DensityConstraints;
     models.lyap_config := models.default_LyapConfig |}.

Definition full_finder : chaotic_system_finder.ChaoticSystemFinder :=
  finder_with two_systems_config
              [system_with 0.5 "20250101_000000";
               system_with 0.3 "20250101_000001"].

(** The system [add_system] builds from its arguments. *)
Definition candidate (self : chaotic_system_finder.ChaoticSystemFinder)
  (coefficients : list R) (e : efloat) (points : list (list R))
  (now : string) : attractor_system.AttractorSystem :=
  {| attractor_system.dimensions :=
       models.dimensions (chaotic_system_finder.config self);
     attractor_system.param_count :=
       models.param_count (chaotic_system_finder.config self);
     attractor_system.iterations :=
       models.iterations (chaotic_system_finder.config self);
     attractor_system.coefficients := coefficients;
     attractor_system.lyapunov := e;
     attractor_system.points := points;
     attractor_system.timestamp := now |}.

(** Vocabulary of the loop of [lyapunov_calculator.calculate], in the
    real-number reading: the separation of the two trajectories at an
    index, the indices that qualify (those from [skip] on whose
    separation lies strictly between 0 and the extreme threshold) and
    the sum of the log-ratios over a list of indices. *)
Definition separation_at (reference_traj perturbed_traj : list (list R))
  (i : nat) : R :=
  lyapunov_calculator.separation_of (nth i reference_traj [])
                                    (nth i perturbed_traj []).

Definition qualifying_indices (self : lyapunov_calculator.LyapunovCalculator)
  (reference_traj perturbed_traj : list (list R)) : list nat :=
  let n := length reference_traj in
  let skip := Z.min (lyapunov_calculator.lyap_skip_steps self)
                    (Z.of_nat n / 4) in
  filter (fun i =>
            (skip <=? Z.of_nat i)%Z
            && (Rltb 0 (separation_at reference_traj perturbed_traj i)
                && Rltb (separation_at reference_traj perturbed_traj i)
                        (lyapunov_calculator.extreme_threshold self)))
         (seq 0 n).

Definition log_ratio_sum (self : lyapunov_calculator.LyapunovCalculator)
  (reference_traj perturbed_traj : list (list R)) (indices : list nat) : R :=
  fold_right
    (fun i total =>
       ln (separation_at reference_traj perturbed_traj i
           / lyapunov_calculator.lyap_norm_dist self) + total)
    0 indices.

(** A calculator with the default settings and two one-point
    trajectories whose separation is twice the initial distance. *)
Definition default_calculator : lyapunov_calculator.LyapunovCalculator :=
  lyapunov_calculator.__init__ models.default_LyapConfig.

Definition demo_reference : list (list R) := [[0.4]].
Definition demo_perturbed : list (list R) := [[0.4 + 2e-8]].

(** The simulator of the default configuration, and one whose density
    bounds are (-5, -1): still [MIN < MAX], but the ceiling is
    negative. *)
Definition default_simulator : trajectory_simulator.TrajectorySimulator :=
  trajectory_simulator.__init__ models.default_config.

Definition negative_bound_config : models.ChaoticSysFinderConfig :=
  {| models.dimensions := 1;
     models.param_count := 12;
     models.iterations := 2000;
     models.max_systems := 10;
     models.coefficient_limit := 2.5;
     models.max_attempts := 9000;
     models.output_path := "./best_attractors";
     models.density_constraints := {| models.MIN := -5; models.MAX := -1 |};
     models.lyap_config := models.default_LyapConfig |}.

Definition negative_bound_simulator
  : trajectory_simulator.TrajectorySimulator :=
  trajectory_simulator.__init__ negative_bound_config.

(** [k * p], coordinate by coordinate. *)
Definition scale_point (k : R) (p : list R) : list R :=
  map (fun x => x * k) p.

(** Generators whose next samples are all 0, and all 1/2. *)
Definition zero_rng : rng_state := {| samples := fun _ => 0; cursor := 0 |}.
Definition half_rng : rng_state := {| samples := fun _ => 0.5; cursor := 0 |}.

(** Every sample of the stream is a value of [random.random()]. *)
Definition unit_samples (s : rng_state) : Prop :=
  forall k : nat, 0 <= samples s k < 1.

(** The generator after [n] more calls of [random.random()]. *)
Definition advance (s : rng_state) (n : nat) : rng_state :=
  {| samples := samples s; cursor := cursor s + n |}.

(** The values [n] calls of [random.uniform(a, b)] return, from the
    state [s] on. *)
Definition uniform_draws (a b : R) (s : rng_state) (n : nat) : list R :=
  map (fun k => a + (b - a) * samples s (cursor s + k)) (seq 0 n).

(** The difference [q - p] of two points, coordinate by coordinate. *)
Definition difference (q p : list R) : list R :=
  map (fun '(x, y) => x - y) (combine q p).

(** A one-dimensional, one-iteration configuration (everything else as
    in the default), its simulator, and a generator whose first five
    samples are 0.5, 0.75, 0.9, 0.9, 0.5: the seed point (0), the
    direction (0.5) and the coefficients 4, 4, 0. *)
Definition demo_config : models.ChaoticSysFinderConfig :=
  {| models.dimensions := 1;
     models.param_count := 12;
     models.iterations := 1;
     models.max_systems := 10;
     models.coefficient_limit := 2.5;
     models.max_attempts := 9000;
     models.output_path := "./best_attractors";
     models.density_constraints := models.default_DensityConstraints;
     models.lyap_config := models.default_LyapConfig |}.

Definition demo_simulator : trajectory_simulator.TrajectorySimulator :=
  trajectory_simulator.__init__ demo_config.

Definition demo_samples (k : nat) : R :=
  match k with
  | 0%nat => 0.5
  | 1%nat => 0.75
  | 2%nat => 0.9
  | 3%nat => 0.9
  | _ => 0.5
  end.

Definition demo_rng : rng_state := {| samples := demo_samples; cursor := 0 |}.

(** The state of the loop of [simulate] after the single iteration of
    the demonstration run. *)
Definition demo_final_state : trajectory_simulator.sim_state :=
  {| trajectory_simulator.point := [0.4];
     trajectory_simulator.perturbed := [0.4 + 2e-8];
     trajectory_simulator.reference_traj := demo_reference;
     trajectory_simulator.perturbed_traj := demo_perturbed |}.

(** The monomials [compute_polynomial_terms] pairs with the coefficients
    of one output coordinate, in the order it reads them: the constant
    0.1, then [0.5 * x_i] for each axis, then [0.25 * x_i * x_j] for each
    pair of axes [i <= j]; and the pairing itself, which stops at the
    shorter of the two lists. *)
Definition coordinate (point : list R) (i : Z) : R :=
  nth (Z.to_nat i) point 0.

Definition monomials (dims : Z) (point : list R) : list R :=
  0.1
  :: map (fun i => coordinate point i * 0.5) (py_range dims)
  ++ map (fun '(i, j) => coordinate point i * coordinate point j * 0.25)
         (trajectory_simulator.combinations_with_replacement_2
            (py_range dims)).




(** The estimate as section 4.4 of the specification words it, over a
    float arithmetic [a], to be compared with [floats.calculate].  The
    Euclidean separation of two points is the square root of the sum,
    over the coordinates, of the squared differences.  The estimate
    drops the first [skip] pairs of points, takes the separation of
    each remaining pair, keeps the separations strictly between 0 and
    the extreme threshold, and adds up the logarithms of their ratios
    to the initial distance, left to right; without a separation kept
    it is the sentinel, otherwise the sum divided by their number times
    the renormalisation interval.  An operation of the arithmetic that
    raises leaves the estimate undefined. *)
Fixpoint squared_differences {F : Type} (a : floats.arithmetic F)
  (x y : list F) : result (list F) :=
  match x, y with
  | xi :: x', yi :: y' =>
      d <- floats.fpow2 a (floats.fsub a xi yi) ;;
      rest <- squared_differences a x' y' ;;
      Ok (d :: rest)
  | _, _ => Ok []
  end.

Definition euclidean_separation {F : Type} (a : floats.arithmetic F)
  (x y : list F) : result F :=
  squares <- squared_differences a x y ;;
  Ok (floats.fsqrt a (floats.fsum a squares)).

Definition in_range {F : Type} (a : floats.arithmetic F)
  (self : floats.LyapunovCalculator F) (s : F) : bool :=
  floats.fltb a (floats.fzero a) s
  && floats.fltb a s (floats.extreme_threshold self).

Definition log_ratio {F : Type} (a : floats.arithmetic F)
  (self : floats.LyapunovCalculator F) (s : F) : result F :=
  q <- floats.fdiv a s (floats.lyap_norm_dist self) ;;
  floats.flog a q.

Definition spec_estimate {F : Type} (a : floats.arithmetic F)
  (self : floats.LyapunovCalculator F)
  (reference_traj perturbed_traj : list (list F))
  : result (floats.exponent F) :=
  let skip := Z.min (floats.lyap_skip_steps self)
                    (Z.of_nat (length reference_traj) / 4) in
  separations <-
    list_comp (fun '(r, p) => euclidean_separation a r p)
              (skipn (Z.to_nat skip)
                     (combine reference_traj perturbed_traj)) ;;
  let valid := filter (in_range a self) separations in
  logs <- list_comp (log_ratio a self) valid ;;
  match valid with
  | [] => Ok floats.MinusInfinity
  | _ :: _ =>
      r <- floats.fdiv_int a
             (fold_left (floats.fadd a) logs (floats.fzero a))
             (Z.of_nat (length valid) * floats.lyap_renorm_steps self) ;;
      Ok (floats.Value r)
  end.

(** The records of the real-number reading, as records of the [exact]
    arithmetic. *)
Definition calculator_of (self : lyapunov_calculator.LyapunovCalculator)
  : floats.LyapunovCalculator R :=
  {| floats.lyap_skip_steps := lyapunov_calculator.lyap_skip_steps self;
     floats.lyap_norm_dist := lyapunov_calculator.lyap_norm_dist self;
     floats.lyap_renorm_steps := lyapunov_calculator.lyap_renorm_steps self;
     floats.extreme_threshold := lyapunov_calculator.extreme_threshold self |}.

Definition exponent_of (e : efloat) : floats.exponent R :=
  match e with
  | NegInf => floats.MinusInfinity
  | Finite x => floats.Value x
  end.

Definition accumulators_of (acc : lyapunov_calculator.accumulators)
  : floats.accumulators R :=
  {| floats.lyap_sum := lyapunov_calculator.lyap_sum acc;
     floats.valid_points := lyapunov_calculator.valid_points acc |}.

(** Rounding.  [computed] is [close] to [exact] when it differs from it
    by at most the fraction [u] of it.  An arithmetic on the reals is
    one of floats when it compares as the reals do and divides by
    everything but zero.  [rounds_within u a M point]: every operation
    [normalize_point] performs on [point] under the bound [M] returns a
    value within relative error [u] of its exact result (for the sum of
    the [n] squares: within the error [n] roundings can add up to).
    IEEE 754 arithmetic meets this with [u = 2^-53] whenever none of
    these operations overflows or underflows. *)
Definition close (u exact computed : R) : Prop :=
  Rabs (computed - exact) <= u * Rabs exact.

Definition real_floats (a : floats.arithmetic R) : Prop :=
  (forall x y, floats.fltb a x y = Rltb x y) /\
  (forall x y, y <> 0 -> exists q, floats.fdiv a x y = Ok q).

Definition rounds_within (u : R) (a : floats.arithmetic R) (M : R)
  (point : list R) : Prop :=
  let squares := map (fun x => floats.fmul a x x) point in
  let total := floats.fsum a squares in
  let magnitude := floats.fsqrt a total in
  Forall (fun x => close u (x * x) (floats.fmul a x x)) point /\
  (1 - u) ^ length point * py_sum squares <= total
  <= (1 + u) ^ length point * py_sum squares /\
  close u (sqrt total) magnitude /\
  Forall (fun x =>
            close u (x * M) (floats.fmul a x M) /\
            forall q,
              floats.fdiv a (floats.fmul a x M) magnitude = Ok q ->
              close u (floats.fmul a x M / magnitude) q)
         point.

(** The factors by which rounding can move the norm of a clamped point
    of [n] coordinates above and below the bound. *)
Definition tolerance_above (u : R) (n : nat) : R :=
  (1 + u) ^ 2 / (1 - u) ^ (n + 2).
Definition tolerance_below (u : R) (n : nat) : R :=
  (1 - u) ^ 2 / (1 + u) ^ (n + 2).

Section Binary64Inputs.
Import PrimFloat.

(** The default calculator in double precision: [initial_distance] is
    the double nearest to 1e-8, [extreme_threshold] is 1e10. *)
Definition binary64_calculator : floats.LyapunovCalculator float :=
  {| floats.lyap_skip_steps := 100;
     floats.lyap_norm_dist := 0x1.5798ee2308c3ap-27%float;
     floats.lyap_renorm_steps := 10;
     floats.extreme_threshold := 10000000000%float |}.

(** One-point trajectories: the origin, the double nearest to 1e-200
    and the double nearest to 1e200. *)
Definition binary64_origin : list (list float) := [[0%float]].
Definition binary64_tiny : list (list float) :=
  [[0x1.87e92154ef7acp-665%float]].
Definition binary64_huge : list (list float) :=
  [[0x1.4e718d7d7625ap+664%float]].

(** The point (1, 5), the bound 5, and the double next above 5, which
    prints as 5.000000000000001. *)
Definition binary64_point : list float := [1%float; 5%float].
Definition binary64_bound : float := 5%float.
Definition binary64_above_bound : float := 0x1.4000000000001p+2%float.

End Binary64Inputs.


(* ================================================================= *)
(** ** Facts about the run-time                                       *)
(* ================================================================= *)

Lemma Rltb_lt (x y : R) : Rltb x y = true <-> x < y.
Proof.
  unfold Rltb. destruct (Rlt_dec x y) as [H | H]; split; intro K;
    try reflexivity; try assumption; try discriminate; contradiction.
Qed.

Lemma Rltb_ge (x y : R) : Rltb x y = false <-> y <= x.
Proof.
  unfold Rltb. destruct (Rlt_dec x y) as [H | H]; split; intro K;
    try reflexivity; try discriminate; lra.
Qed.

Lemma Rgtb_gt (x y : R) : Rgtb x y = true <-> x > y.
Proof. unfold Rgtb. rewrite Rltb_lt. unfold Rgt. tauto. Qed.

Lemma Rgtb_le (x y : R) : Rgtb x y = false <-> x <= y.
Proof. unfold Rgtb. apply Rltb_ge. Qed.

Lemma truediv_nonzero (x y : R) : y <> 0 -> truediv x y = Ok (x / y).
Proof.
  intro H. unfold truediv. destruct (Req_dec_T y 0); [contradiction | reflexivity].
Qed.

Lemma truediv_zero (x y : R) : y = 0 -> truediv x y = Raise ZeroDivisionError.
Proof.
  intro H. unfold truediv. destruct (Req_dec_T y 0); [reflexivity | contradiction].
Qed.

Lemma math_log_pos (x : R) : 0 < x -> math_log x = Ok (ln x).
Proof.
  intro H. unfold math_log. destruct (Rlt_dec 0 x); [reflexivity | contradiction].
Qed.

(** [sum] from any start value: the start value comes out in front. *)
Lemma fold_left_Rplus_start (xs : list R) (a : R) :
  fold_left Rplus xs a = a + fold_left Rplus xs 0.
Proof.
  revert a. induction xs as [| x xs IH]; intro a; simpl.
  - lra.
  - rewrite (IH (a + x)), (IH (0 + x)). lra.
Qed.

Lemma py_sum_cons (x : R) (xs : list R) : py_sum (x :: xs) = x + py_sum xs.
Proof.
  unfold py_sum. simpl. rewrite fold_left_Rplus_start. lra.
Qed.

Lemma py_sum_nil : py_sum [] = 0.
Proof. reflexivity. Qed.

Lemma sum_squares_nonneg (point : list R) :
  0 <= py_sum (map (fun x => x * x) point).
Proof.
  induction point as [| x xs IH]; simpl.
  - rewrite py_sum_nil. lra.
  - rewrite py_sum_cons. nra.
Qed.

Lemma magnitude_nonneg (point : list R) : 0 <= magnitude_of point.
Proof. unfold magnitude_of. apply sqrt_pos. Qed.

Lemma magnitude_pair (x y m : R) :
  0 <= m -> x * x + y * y = m * m -> magnitude_of [x; y] = m.
Proof.
  intros Hm H. unfold magnitude_of. simpl.
  rewrite !py_sum_cons, py_sum_nil.
  replace (x * x + (y * y + 0)) with (m * m) by lra.
  apply sqrt_square. exact Hm.
Qed.

Lemma magnitude_single (x : R) : magnitude_of [x] = Rabs x.
Proof.
  unfold magnitude_of. simpl. rewrite py_sum_cons, py_sum_nil.
  replace (x * x + 0) with (Rsqr x) by (unfold Rsqr; lra).
  apply sqrt_Rsqr_abs.
Qed.

(* ================================================================= *)
(** ** Configuration values (models.py)                               *)
(* ================================================================= *)

(** C4, the claim at a concrete input: a configuration asked for with
    [dimensions=0], [iterations=-5], density bounds [(1, 1)] and zero
    thresholds is invalid, and its construction raises nothing: the
    constructors return it as given. *)
Lemma invalid_configuration_is_accepted :
  exists lc dc c,
    models.new_LyapConfig None None None (Some 0) (Some 0) None = Ok lc /\
    models.new_DensityConstraints (Some 1) (Some 1) = Ok dc /\
    models.new_ChaoticSysFinderConfig
      (Some 0%Z) None (Some (-5)%Z) None None None None (Some dc) (Some lc)
      = Ok c /\
    invalid_config c /\
    models.dimensions c = 0%Z /\
    models.iterations c = (-5)%Z.
Proof.
  do 3 eexists. repeat split; try reflexivity.
  left. simpl. lia.
Qed.

(** C4, amended: constructing a configuration validates nothing.  For
    every combination of field values, valid or not, each of the three
    constructors returns a value (it never raises), and that value holds
    the given fields unchanged. *)
Theorem configuration_construction_stores_fields :
  forall (d pc it ms ma sk rn : Z) (cl dmin dmax dist cv ex lt : R)
         (op : string),
  exists lc dc c,
    models.new_LyapConfig (Some sk) (Some dist) (Some rn) (Some cv)
                          (Some ex) (Some lt) = Ok lc /\
    models.new_DensityConstraints (Some dmin) (Some dmax) = Ok dc /\
    models.new_ChaoticSysFinderConfig
      (Some d) (Some pc) (Some it) (Some ms) (Some cl) (Some ma) (Some op)
      (Some dc) (Some lc) = Ok c /\
    models.dimensions c = d /\ models.param_count c = pc /\
    models.iterations c = it /\ models.max_systems c = ms /\
    models.coefficient_limit c = cl /\ models.max_attempts c = ma /\
    models.output_path c = op /\
    models.MIN (models.density_constraints c) = dmin /\
    models.MAX (models.density_constraints c) = dmax /\
    models.transient_skip_steps (models.lyap_config c) = sk /\
    models.initial_distance (models.lyap_config c) = dist /\
    models.renorm_steps (models.lyap_config c) = rn /\
    models.convergence_threshold (models.lyap_config c) = cv /\
    models.extreme_threshold (models.lyap_config c) = ex /\
    models.lyapunov_threshold (models.lyap_config c) = lt.
Proof.
  intros. do 3 eexists. repeat split; reflexivity.
Qed.

(** Left-out keywords take the documented defaults. *)
Lemma default_configuration :
  models.new_ChaoticSysFinderConfig None None None None None None None
                                    None None
  = Ok models.default_config.
Proof. reflexivity. Qed.

Lemma default_configuration_valid : valid_config models.default_config.
Proof.
  constructor; simpl; try lia; try lra.
  constructor; simpl; try lia; lra.
Qed.

(* ================================================================= *)
(** ** Constructing the finder (chaotic_system_finder.py)             *)
(* ================================================================= *)

(** The simulator's constructor takes one argument; two are too many,
    whatever they are. *)
Lemma simulator_rejects_two_arguments (a b : trajectory_simulator.argument) :
  trajectory_simulator.new [a; b] = Raise TypeError.
Proof. reflexivity. Qed.

Lemma simulator_accepts_configuration (c : models.ChaoticSysFinderConfig) :
  trajectory_simulator.new [trajectory_simulator.ConfigArg c]
  = Ok (trajectory_simulator.__init__ c).
Proof. reflexivity. Qed.

(** C2, the claim at a concrete input: when the output directory cannot
    be created, the constructor raises that error, not a TypeError. *)
Lemma finder_construction_mkdir_error :
  chaotic_system_finder.__init__ read_only_file_system
    (Some models.default_config)
  = Raise (OSError "PermissionError")
  /\ OSError "PermissionError" <> TypeError.
Proof. split; [reflexivity | discriminate]. Qed.

(** C2, amended: for every configuration value (and for no argument at
    all) the constructor of ChaoticSystemFinder never returns an
    instance.  It raises the error of the storage manager's [mkdir] when
    that fails, and otherwise a TypeError at the call of
    TrajectorySimulator with two positional arguments. *)
Theorem finder_construction_always_raises :
  forall (fs : storage_manager.file_system)
         (config : option models.ChaoticSysFinderConfig),
    chaotic_system_finder.__init__ fs config =
    match storage_manager.mkdir fs
            (models.output_path (models.arg models.default_config config))
    with
    | Some e => Raise e
    | None => Raise TypeError
    end.
Proof.
  intros fs config. unfold chaotic_system_finder.__init__.
  unfold storage_manager.__init__. simpl.
  destruct (storage_manager.mkdir fs _) as [e |]; simpl.
  - reflexivity.
  - reflexivity.
Qed.

Lemma finder_construction_type_error :
  chaotic_system_finder.__init__ fresh_file_system (Some models.default_config)
  = Raise TypeError.
Proof. reflexivity. Qed.

(* ================================================================= *)
(** ** Divergence and collapse (check_convergence)                    *)
(* ================================================================= *)

(** C5, the claim at concrete inputs: with convergence threshold 5 and
    extreme threshold 10, the point (6, 8) has norm exactly 10 and the
    point (3, 4) has norm exactly 5, and neither is terminal. *)
Lemma check_convergence_on_the_thresholds :
  let self := trajectory_simulator.__init__ boundary_config in
  (magnitude_of [6; 8] = trajectory_simulator.extreme_threshold self /\
   trajectory_simulator.check_convergence self [6; 8] = false) /\
  (magnitude_of [3; 4] = trajectory_simulator.convergence_threshold self /\
   trajectory_simulator.check_convergence self [3; 4] = false).
Proof.
  assert (H10 : magnitude_of [6; 8] = 10) by (apply magnitude_pair; lra).
  assert (H5 : magnitude_of [3; 4] = 5) by (apply magnitude_pair; lra).
  simpl. unfold trajectory_simulator.check_convergence. simpl.
  rewrite H10, H5. repeat split.
  - apply orb_false_iff. split; [apply Rgtb_le | apply Rltb_ge]; lra.
  - apply orb_false_iff. split; [apply Rgtb_le | apply Rltb_ge]; lra.
Qed.

(** C5, amended: [check_convergence] returns true exactly when the norm
    is strictly above the extreme threshold or strictly below the
    convergence threshold.  Hence, when the convergence threshold does
    not exceed the extreme one, a norm equal to either threshold is not
    terminal, and neither is a norm strictly between the two. *)
Theorem check_convergence_strict :
  forall (self : trajectory_simulator.TrajectorySimulator) (point : list R),
    let lo := trajectory_simulator.convergence_threshold self in
    let hi := trajectory_simulator.extreme_threshold self in
    (trajectory_simulator.check_convergence self point = true <->
     magnitude_of point > hi \/ magnitude_of point < lo) /\
    (lo <= hi -> magnitude_of point = hi ->
     trajectory_simulator.check_convergence self point = false) /\
    (lo <= hi -> magnitude_of point = lo ->
     trajectory_simulator.check_convergence self point = false) /\
    (lo < magnitude_of point < hi ->
     trajectory_simulator.check_convergence self point = false).
Proof.
  intros self point lo hi.
  unfold trajectory_simulator.check_convergence. fold lo. fold hi.
  repeat split.
  - intro H. apply orb_true_iff in H. destruct H as [H | H].
    + left. apply Rgtb_gt. exact H.
    + right. apply Rltb_lt. exact H.
  - intros [H | H]; apply orb_true_iff.
    + left. apply Rgtb_gt. exact H.
    + right. apply Rltb_lt. exact H.
  - intros Hle Heq. apply orb_false_iff.
    split; [apply Rgtb_le | apply Rltb_ge]; lra.
  - intros Hle Heq. apply orb_false_iff.
    split; [apply Rgtb_le | apply Rltb_ge]; lra.
  - intros [H1 H2]. apply orb_false_iff.
    split; [apply Rgtb_le | apply Rltb_ge]; lra.
Qed.

(* ================================================================= *)
(** ** The order of exponents                                         *)
(* ================================================================= *)

Lemma eltb_elt (a b : efloat) : eltb a b = true <-> elt a b.
Proof.
  destruct a as [| x], b as [| y]; simpl; try (split; [discriminate | tauto]);
    try tauto.
  apply Rltb_lt.
Qed.

Lemma eltb_ele (a b : efloat) : eltb a b = false <-> ele b a.
Proof.
  destruct a as [| x], b as [| y]; simpl; try tauto;
    try (split; [discriminate | tauto]).
  apply Rltb_ge.
Qed.

Lemma ele_refl (a : efloat) : ele a a.
Proof. destruct a; simpl; [exact I | lra]. Qed.

Lemma ele_trans (a b c : efloat) : ele a b -> ele b c -> ele a c.
Proof.
  destruct a, b, c; simpl; try tauto. lra.
Qed.

Lemma ele_antisym (a b : efloat) : ele a b -> ele b a -> a = b.
Proof.
  destruct a as [| x], b as [| y]; simpl; try tauto.
  intros H1 H2. f_equal. lra.
Qed.

Lemma elt_ele (a b : efloat) : elt a b -> ele a b.
Proof. destruct a, b; simpl; try tauto. lra. Qed.

Lemma elt_not_ele (a b : efloat) : elt a b -> ele b a -> False.
Proof. destruct a, b; simpl; try tauto. lra. Qed.

(** [min]: the running minimum is a member and a lower bound. *)
Lemma min_from_member (m : efloat) (xs : list efloat) :
  In (min_from m xs) (m :: xs).
Proof.
  revert m. induction xs as [| x xs IH]; intro m; simpl.
  - left. reflexivity.
  - destruct (IH (if eltb x m then x else m)) as [H | H].
    + destruct (eltb x m); [right; left | left]; exact H.
    + right. right. exact H.
Qed.

Lemma min_from_lower_bound (m : efloat) (xs : list efloat) :
  ele (min_from m xs) m /\ Forall (ele (min_from m xs)) xs.
Proof.
  revert m. induction xs as [| x xs IH]; intro m; simpl.
  - split; [apply ele_refl | constructor].
  - destruct (IH (if eltb x m then x else m)) as [H1 H2].
    destruct (eltb x m) eqn:E.
    + apply eltb_elt in E. split.
      * eapply ele_trans; [exact H1 | apply elt_ele; exact E].
      * constructor; assumption.
    + apply eltb_ele in E. split.
      * exact H1.
      * constructor; [eapply ele_trans; eassumption | assumption].
Qed.

Lemma py_min_least (l : list attractor_system.AttractorSystem) :
  l <> [] ->
  exists least,
    py_min (map attractor_system.lyapunov l) = Ok least /\
    least_exponent least l.
Proof.
  intro Hne. destruct l as [| s rest]; [contradiction |].
  simpl. eexists. split; [reflexivity |].
  split.
  - apply (min_from_member (attractor_system.lyapunov s)
             (map attractor_system.lyapunov rest)).
  - destruct (min_from_lower_bound (attractor_system.lyapunov s)
                (map attractor_system.lyapunov rest)) as [H1 H2].
    constructor; [exact H1 |].
    rewrite Forall_map in H2. exact H2.
Qed.

(* ================================================================= *)
(** ** Admission (is_system_worthy)                                   *)
(* ================================================================= *)

(** C7: with at least one slot ([max_systems >= 1]), [is_system_worthy]
    returns false for an exponent strictly below the threshold; for an
    exponent at or above the threshold it returns true while the set
    holds fewer than [max_systems] systems, and at capacity it returns
    true exactly when the exponent is strictly greater than the least
    exponent of the set, so that a tie with that least exponent is
    rejected. *)
Theorem is_system_worthy_rule :
  forall (self : chaotic_system_finder.ChaoticSystemFinder) (e : efloat),
    (1 <= models.max_systems (chaotic_system_finder.config self))%Z ->
    let threshold :=
      Finite (models.lyapunov_threshold
                (chaotic_system_finder.lyap_config self)) in
    let size :=
      Z.of_nat (length (chaotic_system_finder.best_systems self)) in
    let capacity := models.max_systems (chaotic_system_finder.config self) in
    (elt e threshold ->
     chaotic_system_finder.is_system_worthy self e = Ok false) /\
    (ele threshold e -> (size < capacity)%Z ->
     chaotic_system_finder.is_system_worthy self e = Ok true) /\
    (ele threshold e -> (capacity <= size)%Z ->
     exists least,
       least_exponent least (chaotic_system_finder.best_systems self) /\
       chaotic_system_finder.is_system_worthy self e = Ok (egtb e least) /\
       (chaotic_system_finder.is_system_worthy self e = Ok true
        <-> elt least e) /\
       (e = least ->
        chaotic_system_finder.is_system_worthy self e = Ok false)).
Proof.
  intros self e Hcap threshold size capacity.
  unfold chaotic_system_finder.is_system_worthy.
  fold threshold. fold size. fold capacity.
  repeat split.
  - intro H. apply eltb_elt in H. rewrite H. reflexivity.
  - intros H Hsize. apply eltb_ele in H. rewrite H.
    apply Z.ltb_lt in Hsize. rewrite Hsize. reflexivity.
  - intros H Hsize. apply eltb_ele in H. rewrite H.
    apply Z.ltb_ge in Hsize. rewrite Hsize.
    destruct (py_min_least (chaotic_system_finder.best_systems self))
      as [least [Hmin Hleast]].
    { intro Hnil. subst size capacity. rewrite Hnil in Hsize.
      simpl in Hsize. apply Z.ltb_ge in Hsize. lia. }
    exists least. rewrite Hmin. simpl.
    split; [exact Hleast |].
    split; [reflexivity |].
    split.
    + unfold egtb. split.
      * intro K. injection K as K. apply eltb_elt. exact K.
      * intro K. apply eltb_elt in K. rewrite K. reflexivity.
    + intro Heq. subst e. unfold egtb.
      replace (eltb least least) with false; [reflexivity |].
      symmetry. apply eltb_ele. apply ele_refl.
Qed.

(** Deciding a comparison of two concrete floats. *)
Ltac decide_Rltb :=
  repeat match goal with
         | |- context [Rltb ?a ?b] =>
             first [ replace (Rltb a b) with true
                       by (symmetry; apply Rltb_lt; lra)
                   | replace (Rltb a b) with false
                       by (symmetry; apply Rltb_ge; lra) ]
         end.

(** The admission scenario of the specification, on the full set with
    exponents 0.5 and 0.3: 0.2 is rejected, a tie with 0.3 is rejected,
    0.4 is worthy; on an empty set an exponent equal to the threshold
    0.05 is worthy. *)
Example worthy_scenario :
  chaotic_system_finder.is_system_worthy full_finder (Finite 0.2) = Ok false /\
  chaotic_system_finder.is_system_worthy full_finder (Finite 0.3) = Ok false /\
  chaotic_system_finder.is_system_worthy full_finder (Finite 0.4) = Ok true /\
  chaotic_system_finder.is_system_worthy
    (finder_with two_systems_config []) (Finite 0.05) = Ok true /\
  chaotic_system_finder.is_system_worthy full_finder NegInf = Ok false.
Proof.
  unfold chaotic_system_finder.is_system_worthy, egtb. simpl.
  decide_Rltb. simpl. decide_Rltb. repeat split; reflexivity.
Qed.

(** C7 at a concrete input: the full set of the scenario and the
    exponent 0.4, above the least exponent 0.3. *)
Lemma is_system_worthy_rule_witness :
  (1 <= models.max_systems (chaotic_system_finder.config full_finder))%Z /\
  chaotic_system_finder.is_system_worthy full_finder (Finite 0.4) = Ok true.
Proof.
  split; [simpl; lia |].
  destruct (is_system_worthy_rule full_finder (Finite 0.4)) as [_ [_ H]];
    [simpl; lia |].
  destruct H as [least [[Hin Hall] [_ [Hiff _]]]];
    [simpl; lra | simpl; lia |].
  apply Hiff. simpl in Hin.
  destruct Hin as [Hin | [Hin | []]]; subst least.
  - inversion Hall as [| ? ? _ Hrest]; subst.
    inversion Hrest as [| ? ? Hbad _]; subst. simpl in Hbad. lra.
  - simpl. lra.
Defined.

(* ================================================================= *)
(** ** The best set (add_system)                                      *)
(* ================================================================= *)

Section Ranking.
Import attractor_system chaotic_system_finder.

Lemma insert_desc_permutation (x : AttractorSystem) (l : list AttractorSystem) :
  Permutation (insert_desc x l) (x :: l).
Proof.
  induction l as [| y rest IH]; simpl.
  - apply Permutation_refl.
  - destruct (eltb (lyapunov x) (lyapunov y)).
    + eapply Permutation_trans; [apply perm_skip; exact IH | apply perm_swap].
    + apply Permutation_refl.
Qed.

Lemma sort_permutation (l : list AttractorSystem) :
  Permutation (sort_by_lyapunov_reverse l) l.
Proof.
  induction l as [| x rest IH]; simpl.
  - apply perm_nil.
  - eapply Permutation_trans; [apply insert_desc_permutation |].
    apply perm_skip. exact IH.
Qed.

Lemma insert_desc_sorted (x : AttractorSystem) (l : list AttractorSystem) :
  StronglySorted ranked_desc l -> StronglySorted ranked_desc (insert_desc x l).
Proof.
  induction l as [| y rest IH]; intro Hs; simpl.
  - constructor; constructor.
  - inversion Hs as [| ? ? Hrest Hy]; subst.
    destruct (eltb (lyapunov x) (lyapunov y)) eqn:E.
    + constructor; [apply IH; exact Hrest |].
      apply (Permutation_Forall
               (Permutation_sym (insert_desc_permutation x rest))).
      constructor; [| exact Hy].
      unfold ranked_desc. apply elt_ele, eltb_elt. exact E.
    + apply eltb_ele in E. constructor; [exact Hs |].
      constructor; [exact E |].
      eapply Forall_impl; [| exact Hy].
      intros z Hz. unfold ranked_desc in *.
      eapply ele_trans; eassumption.
Qed.

Lemma sort_sorted (l : list AttractorSystem) :
  StronglySorted ranked_desc (sort_by_lyapunov_reverse l).
Proof.
  induction l as [| x rest IH]; simpl.
  - constructor.
  - apply insert_desc_sorted. exact IH.
Qed.

Lemma sort_length (l : list AttractorSystem) :
  length (sort_by_lyapunov_reverse l) = length l.
Proof. apply Permutation_length, sort_permutation. Qed.

(** A list that ends in [x], ranked in descending order: [x] is lowest
    and the front part is ranked too. *)
Lemma sorted_snoc (front : list AttractorSystem) (x : AttractorSystem) :
  StronglySorted ranked_desc (front ++ [x]) ->
  StronglySorted ranked_desc front /\
  Forall (fun s => ele (lyapunov x) (lyapunov s)) front.
Proof.
  induction front as [| y rest IH]; simpl; intro Hs.
  - split; constructor.
  - inversion Hs as [| ? ? Hrest Hy]; subst.
    destruct (IH Hrest) as [H1 H2].
    apply Forall_app in Hy. destruct Hy as [Hy1 Hy2].
    split.
    + constructor; assumption.
    + constructor; [| exact H2].
      inversion Hy2; subst. assumption.
Qed.

Lemma split_last (l : list AttractorSystem) (d : AttractorSystem) :
  l <> [] -> l = removelast l ++ [last l d].
Proof. apply app_removelast_last. Qed.

Lemma removelast_length (l : list AttractorSystem) :
  l <> [] -> S (length (removelast l)) = length l.
Proof.
  intro H. rewrite (split_last l (system_with 0 "") H) at 2.
  rewrite length_app. simpl. lia.
Qed.

End Ranking.

Section Admission.
Import attractor_system chaotic_system_finder.

Variable fs : storage_manager.file_system.
Variable gfx : visualizer.backend.
Variable self : ChaoticSystemFinder.
Variable e : efloat.

Let threshold : efloat := Finite (models.lyapunov_threshold (lyap_config self)).
Let size : Z := Z.of_nat (length (best_systems self)).
Let capacity : Z := models.max_systems (config self).

(** With at least one slot [is_system_worthy] returns. *)
Lemma worthy_returns :
  (1 <= capacity)%Z -> exists verdict, is_system_worthy self e = Ok verdict.
Proof.
  intro Hslot. unfold is_system_worthy. fold threshold. fold size.
  fold capacity.
  destruct (eltb e threshold); [eexists; reflexivity |].
  destruct (size <? capacity)%Z eqn:E2; [eexists; reflexivity |].
  apply Z.ltb_ge in E2.
  destruct (py_min_least (best_systems self)) as [least [Hmin _]].
  { intro Hnil. subst size capacity. rewrite Hnil in E2. simpl in E2. lia. }
  rewrite Hmin. eexists. reflexivity.
Qed.

(** What a positive verdict tells. *)
Lemma worthy_true :
  is_system_worthy self e = Ok true ->
  ele threshold e /\
  ((size < capacity)%Z \/
   ((capacity <= size)%Z /\
    exists least, least_exponent least (best_systems self) /\ elt least e)).
Proof.
  unfold is_system_worthy. fold threshold. fold size. fold capacity.
  destruct (eltb e threshold) eqn:E1; [discriminate |].
  apply eltb_ele in E1.
  destruct (size <? capacity)%Z eqn:E2.
  - intros _. apply Z.ltb_lt in E2. auto.
  - apply Z.ltb_ge in E2.
    destruct (best_systems self) as [| first rest] eqn:Hbest;
      [discriminate |].
    destruct (py_min_least (first :: rest)) as [least [Hmin Hleast]];
      [discriminate |].
    rewrite Hmin. cbn [bind]. unfold egtb. intro H. injection H as H.
    apply eltb_elt in H. split; [exact E1 |].
    right. split; [exact E2 |]. exists least. auto.
Qed.

Variables (coefficients : list R) (points : list (list R)) (now : string).

Let fresh : AttractorSystem := candidate self coefficients e points now.
Let ranked : list AttractorSystem :=
  sort_by_lyapunov_reverse (best_systems self ++ [fresh]).
Let kept : list AttractorSystem :=
  if (Z.of_nat (length ranked) >? capacity)%Z then removelast ranked
  else ranked.

Lemma ranked_nonempty : ranked <> [].
Proof.
  intro H. apply (f_equal (@length _)) in H.
  unfold ranked in H. rewrite sort_length, length_app in H. simpl in H. lia.
Qed.

Lemma ranked_length : length ranked = S (length (best_systems self)).
Proof.
  unfold ranked. rewrite sort_length, length_app. simpl. lia.
Qed.

Lemma ranked_above_threshold :
  best_set_invariant self -> ele threshold e ->
  Forall (fun s => ele threshold (lyapunov s)) ranked.
Proof.
  intros [_ [_ Hall]] He.
  apply (Permutation_Forall (Permutation_sym (sort_permutation _))).
  apply Forall_app. split; [exact Hall |].
  constructor; [exact He | constructor].
Qed.

(** The object [add_system] leaves behind. *)
Lemma add_system_state :
  snd (add_system fs gfx self coefficients e points now) =
  match is_system_worthy self e with
  | Ok true => set_best_systems self kept
  | _ => self
  end.
Proof.
  unfold add_system.
  destruct (is_system_worthy self e) as [[|] | err]; reflexivity.
Qed.

(** What [add_system] returns or raises. *)
Lemma add_system_outcome :
  fst (add_system fs gfx self coefficients e points now) =
  match is_system_worthy self e with
  | Ok true =>
      _ <- storage_manager.save_systems fs (storage_manager_ self) kept ;;
      visualizer.plot_system gfx (visualizer_ self) fresh
  | Ok false => Ok tt
  | Raise err => Raise err
  end.
Proof.
  unfold add_system.
  destruct (is_system_worthy self e) as [[|] | err]; reflexivity.
Qed.

(** At capacity the last of the ranking is an old member with the least
    exponent, and the new system is not the one that goes. *)
Lemma dropped_is_least :
  (exists least, least_exponent least (best_systems self) /\ elt least e) ->
  let dropped := last ranked fresh in
  ranked = removelast ranked ++ [dropped] /\
  Forall (fun s => ele (lyapunov dropped) (lyapunov s)) (removelast ranked) /\
  least_exponent (lyapunov dropped) (best_systems self) /\
  In fresh (removelast ranked).
Proof.
  intros [least [[Hin Hlow] Hlt]] dropped.
  pose proof (split_last ranked fresh ranked_nonempty) as Hsplit.
  fold dropped in Hsplit.
  pose proof (sort_sorted (best_systems self ++ [fresh])) as Hsorted.
  fold ranked in Hsorted. rewrite Hsplit in Hsorted.
  destruct (sorted_snoc _ _ Hsorted) as [_ Hfront].
  assert (Hall : Forall (fun s => ele (lyapunov dropped) (lyapunov s))
                        (best_systems self ++ [fresh])).
  { apply (Permutation_Forall (sort_permutation _)). fold ranked.
    rewrite Hsplit. apply Forall_app. split; [exact Hfront |].
    constructor; [apply ele_refl | constructor]. }
  apply Forall_app in Hall. destruct Hall as [Hold Hnew].
  assert (Hmem : In dropped (best_systems self ++ [fresh])).
  { apply (Permutation_in _ (sort_permutation _)). fold ranked.
    rewrite Hsplit. apply in_or_app. right. left. reflexivity. }
  assert (Hleast_dropped : ele (lyapunov dropped) least).
  { apply in_map_iff in Hin. destruct Hin as [s [Hs Hins]]. subst least.
    rewrite Forall_forall in Hold. apply Hold. exact Hins. }
  assert (Hnot_fresh : lyapunov dropped <> e).
  { intro Heq. rewrite Heq in Hleast_dropped.
    exact (elt_not_ele _ _ Hlt Hleast_dropped). }
  repeat split.
  - exact Hsplit.
  - exact Hfront.
  - apply in_app_or in Hmem. destruct Hmem as [Hm | [Hm | []]].
    + apply in_map. exact Hm.
    + exfalso. apply Hnot_fresh. rewrite <- Hm. reflexivity.
  - exact Hold.
  - assert (Hf : In fresh ranked).
    { apply (Permutation_in _ (Permutation_sym (sort_permutation _))).
      apply in_or_app. right. left. reflexivity. }
    rewrite Hsplit in Hf. apply in_app_or in Hf.
    destruct Hf as [Hf | [Hf | []]]; [exact Hf |].
    exfalso. apply Hnot_fresh. rewrite Hf. reflexivity.
Qed.

End Admission.

(** C8: [add_system], called on a best set that satisfies the invariant
    (size at most [max_systems], ranked by exponent in descending order,
    every exponent at least the threshold), leaves a best set that
    satisfies it again, whether the call returns or raises.  Unless the
    system is found worthy nothing changes.  A worthy system is ranked
    into the set; when the set was full, exactly one member is dropped:
    the last of the ranking, an old member with the least exponent,
    while the new system stays.  With at least one slot, and when
    saving and plotting succeed, the call returns. *)
Theorem add_system_preserves_invariant :
  forall (fs : storage_manager.file_system) (gfx : visualizer.backend)
         (self : chaotic_system_finder.ChaoticSystemFinder)
         (coefficients : list R) (e : efloat) (points : list (list R))
         (now : string),
    best_set_invariant self ->
    let call :=
      chaotic_system_finder.add_system fs gfx self coefficients e points now in
    let after := snd call in
    let fresh := candidate self coefficients e points now in
    let ranked :=
      chaotic_system_finder.sort_by_lyapunov_reverse
        (chaotic_system_finder.best_systems self ++ [fresh]) in
    let size := Z.of_nat (length (chaotic_system_finder.best_systems self)) in
    let capacity := models.max_systems (chaotic_system_finder.config self) in
    best_set_invariant after /\
    chaotic_system_finder.config after = chaotic_system_finder.config self /\
    chaotic_system_finder.lyap_config after
    = chaotic_system_finder.lyap_config self /\
    (chaotic_system_finder.is_system_worthy self e <> Ok true ->
     after = self) /\
    (chaotic_system_finder.is_system_worthy self e = Ok true ->
     ((size < capacity)%Z ->
      chaotic_system_finder.best_systems after = ranked) /\
     (size = capacity ->
      length (chaotic_system_finder.best_systems after)
      = length (chaotic_system_finder.best_systems self) /\
      In fresh (chaotic_system_finder.best_systems after) /\
      exists dropped,
        ranked = chaotic_system_finder.best_systems after ++ [dropped] /\
        Forall (fun s => ele (attractor_system.lyapunov dropped)
                             (attractor_system.lyapunov s))
               (chaotic_system_finder.best_systems after) /\
        least_exponent (attractor_system.lyapunov dropped)
                       (chaotic_system_finder.best_systems self))) /\
    ((1 <= capacity)%Z ->
     (forall file systems, storage_manager.save fs file systems = None) ->
     (forall system, visualizer.render gfx system = None) ->
     fst call = Ok tt).
Proof.
  intros fs gfx self coefficients e points now Hinv
         call after fresh ranked size capacity.
  assert (Hstate := add_system_state fs gfx self e coefficients points now).
  assert (Houtcome := add_system_outcome fs gfx self e coefficients points now).
  fold call in Hstate, Houtcome. fold after in Hstate.
  fold fresh in Hstate, Houtcome. fold ranked in Hstate, Houtcome.
  fold capacity in Hstate, Houtcome.
  assert (Hreturns :
    (1 <= capacity)%Z ->
    (forall file systems, storage_manager.save fs file systems = None) ->
    (forall system, visualizer.render gfx system = None) ->
    fst call = Ok tt).
  { intros Hslot Hsave Hrender. rewrite Houtcome.
    destruct (worthy_returns self e Hslot) as [verdict Hverdict].
    rewrite Hverdict. destruct verdict; [| reflexivity].
    unfold storage_manager.save_systems, visualizer.plot_system.
    rewrite Hsave. cbn [bind]. rewrite Hrender. reflexivity. }
  destruct (chaotic_system_finder.is_system_worthy self e)
    as [[|] | err] eqn:Hworthy.
  - (* worthy *)
    destruct (worthy_true self e Hworthy) as [Hthr Hroom].
    pose proof (ranked_length self e coefficients points now) as Hlen.
    pose proof (ranked_nonempty self e coefficients points now) as Hne.
    pose proof (ranked_above_threshold self e coefficients points now
                  Hinv Hthr) as Habove.
    pose proof (sort_sorted
                  (chaotic_system_finder.best_systems self ++ [fresh]))
      as Hsorted.
    fold fresh in Hlen, Hne, Habove. fold ranked in Hlen, Hne, Habove, Hsorted.
    destruct Hinv as [Hsize [_ _]]. fold size capacity in Hsize.
    rewrite Z.gtb_ltb in Hstate.
    destruct (Z.ltb_spec capacity (Z.of_nat (length ranked)))
      as [Hover | Hfits].
    + (* the set was full: the last of the ranking goes *)
      destruct Hroom as [Hroom | [Hcap Hleast]]; [fold size capacity in Hroom; lia |].
      destruct (dropped_is_least self e coefficients points now Hleast)
        as [Hsplit [Hfront [Hdropped Hkept]]].
      fold fresh in Hsplit, Hfront, Hdropped, Hkept.
      fold ranked in Hsplit, Hfront, Hdropped, Hkept.
      pose proof (removelast_length ranked Hne) as Hrl.
      rewrite Hstate.
      split.
      { unfold best_set_invariant. simpl. fold capacity.
        split; [lia |]. split.
        - rewrite Hsplit in Hsorted.
          destruct (sorted_snoc _ _ Hsorted) as [Hsorted' _]. exact Hsorted'.
        - rewrite Hsplit in Habove. apply Forall_app in Habove. tauto. }
      do 2 (split; [reflexivity |]).
      split; [intro K; contradiction K; reflexivity |].
      split; [| exact Hreturns].
      intros _. simpl. split; [intro; lia |].
      intros _. split; [lia |]. split; [exact Hkept |].
      exists (last ranked fresh). tauto.
    + (* there was room *)
      rewrite Hstate.
      split.
      { unfold best_set_invariant. simpl. fold capacity.
        split; [exact Hfits |]. split; [exact Hsorted | exact Habove]. }
      do 2 (split; [reflexivity |]).
      split; [intro K; contradiction K; reflexivity |].
      split; [| exact Hreturns].
      intros _. simpl. split; [intros _; reflexivity |].
      intro Heq. exfalso. lia.
  - (* not worthy: nothing changes *)
    rewrite Hstate.
    split; [exact Hinv |]. do 2 (split; [reflexivity |]).
    split; [intros _; reflexivity |].
    split; [discriminate | exact Hreturns].
  - (* the verdict raised: nothing changes *)
    rewrite Hstate.
    split; [exact Hinv |]. do 2 (split; [reflexivity |]).
    split; [intros _; reflexivity |].
    split; [discriminate | exact Hreturns].
Qed.

(** The full set of the scenario satisfies the invariant. *)
Lemma full_finder_invariant : best_set_invariant full_finder.
Proof.
  unfold best_set_invariant. simpl. split; [lia |]. split.
  - repeat constructor. unfold ranked_desc. simpl. lra.
  - repeat constructor; simpl; lra.
Defined.

(** C8 at a concrete input: the full set of the scenario, which
    satisfies the invariant, and the exponent 0.4. *)
Lemma add_system_preserves_invariant_witness :
  best_set_invariant full_finder /\
  best_set_invariant
    (snd (chaotic_system_finder.add_system fresh_file_system drawing_backend
            full_finder [] (Finite 0.4) [] "20250101_000002")) /\
  fst (chaotic_system_finder.add_system fresh_file_system drawing_backend
         full_finder [] (Finite 0.4) [] "20250101_000002") = Ok tt.
Proof.
  split; [exact full_finder_invariant |].
  destruct (add_system_preserves_invariant fresh_file_system drawing_backend
              full_finder [] (Finite 0.4) [] "20250101_000002"
              full_finder_invariant)
    as [Hinv [_ [_ [_ [_ Hreturns]]]]].
  split; [exact Hinv |].
  apply Hreturns.
  - simpl. lia.
  - intros file systems. reflexivity.
  - intro system. reflexivity.
Defined.

(** The admission scenario of the specification, continued: 0.4 is
    ranked between 0.5 and 0.3 and 0.3 is dropped; 0.2 changes nothing;
    and when the systems file cannot be written the call raises with
    the best set already updated. *)
Example add_system_scenario :
  map attractor_system.lyapunov
      (chaotic_system_finder.best_systems
         (snd (chaotic_system_finder.add_system fresh_file_system
                 drawing_backend full_finder [] (Finite 0.4) []
                 "20250101_000002")))
  = [Finite 0.5; Finite 0.4] /\
  chaotic_system_finder.add_system fresh_file_system drawing_backend
    full_finder [] (Finite 0.2) [] "20250101_000002" = (Ok tt, full_finder) /\
  fst (chaotic_system_finder.add_system read_only_file_system
         drawing_backend full_finder [] (Finite 0.4) [] "20250101_000002")
  = Raise (OSError "PermissionError") /\
  map attractor_system.lyapunov
      (chaotic_system_finder.best_systems
         (snd (chaotic_system_finder.add_system read_only_file_system
                 drawing_backend full_finder [] (Finite 0.4) []
                 "20250101_000002")))
  = [Finite 0.5; Finite 0.4].
Proof.
  assert (Hyes : chaotic_system_finder.is_system_worthy full_finder
                   (Finite 0.4) = Ok true).
  { unfold chaotic_system_finder.is_system_worthy, egtb. simpl.
    decide_Rltb. simpl. decide_Rltb. reflexivity. }
  assert (Hno : chaotic_system_finder.is_system_worthy full_finder
                  (Finite 0.2) = Ok false).
  { unfold chaotic_system_finder.is_system_worthy, egtb. simpl.
    decide_Rltb. simpl. decide_Rltb. reflexivity. }
  unfold chaotic_system_finder.add_system. rewrite Hyes, Hno.
  simpl. decide_Rltb. simpl. decide_Rltb. simpl.
  repeat split; reflexivity.
Qed.

(* ================================================================= *)
(** ** The estimator (LyapunovCalculator.calculate)                   *)
(* ================================================================= *)

Lemma getitem_nat {A : Type} (l : list A) (i : nat) (d : A) :
  (i < length l)%nat -> getitem l (Z.of_nat i) = Ok (nth i l d).
Proof.
  intro H. unfold getitem.
  replace (Z.of_nat i <? 0)%Z with false by (symmetry; apply Z.ltb_ge; lia).
  replace (0 <=? Z.of_nat i)%Z with true by (symmetry; apply Z.leb_le; lia).
  replace (Z.of_nat i <? Z.of_nat (length l))%Z with true
    by (symmetry; apply Z.ltb_lt; lia).
  simpl. rewrite Nat2Z.id. rewrite (nth_error_nth' l d H). reflexivity.
Qed.

Lemma seq_from (a m : nat) : seq a m = map (fun k => (a + k)%nat) (seq 0 m).
Proof.
  revert a. induction m as [| m IH]; intro a; simpl.
  - reflexivity.
  - f_equal; [lia |]. rewrite <- (seq_shift m 0), map_map. rewrite (IH (S a)).
    apply map_ext. intro k. lia.
Qed.

Lemma py_range2_nat (a b : nat) :
  py_range2 (Z.of_nat a) (Z.of_nat b) = map Z.of_nat (seq a (b - a)).
Proof.
  unfold py_range2.
  replace (Z.to_nat (Z.of_nat b - Z.of_nat a)) with (b - a)%nat by lia.
  rewrite (seq_from a), map_map. apply map_ext. intro k. lia.
Qed.

Lemma filter_from (q : nat -> bool) (s n : nat) :
  (s <= n)%nat ->
  filter (fun i => (Z.of_nat s <=? Z.of_nat i)%Z && q i) (seq 0 n)
  = filter q (seq s (n - s)).
Proof.
  intro H. replace n with (s + (n - s))%nat at 1 by lia.
  rewrite seq_app, filter_app. simpl.
  replace (filter _ (seq 0 s)) with (@nil nat).
  - simpl. apply filter_ext_in. intros i Hi. apply in_seq in Hi.
    replace (Z.of_nat s <=? Z.of_nat i)%Z with true
      by (symmetry; apply Z.leb_le; lia).
    reflexivity.
  - symmetry. erewrite filter_ext_in; [apply filter_false |].
    intros i Hi. apply in_seq in Hi. simpl.
    replace (Z.of_nat s <=? Z.of_nat i)%Z with false
      by (symmetry; apply Z.leb_gt; lia).
    reflexivity.
Qed.

Section Estimate.
Import lyapunov_calculator.

Variable self : LyapunovCalculator.
Variables reference_traj perturbed_traj : list (list R).
Hypothesis positive_distance : 0 < lyap_norm_dist self.
Hypothesis same_length : length perturbed_traj = length reference_traj.

Let qualifies (i : nat) : bool :=
  Rltb 0 (separation_at reference_traj perturbed_traj i)
  && Rltb (separation_at reference_traj perturbed_traj i)
          (extreme_threshold self).

(** One pass of the loop body at a valid index. *)
Lemma calculate_body_at (acc : accumulators) (i : nat) :
  (i < length reference_traj)%nat ->
  calculate_body self reference_traj perturbed_traj acc (Z.of_nat i)
  = Ok (if qualifies i
        then {| lyap_sum :=
                  lyap_sum acc
                  + ln (separation_at reference_traj perturbed_traj i
                        / lyap_norm_dist self);
                valid_points := (valid_points acc + 1)%Z |}
        else acc).
Proof.
  intro Hi. unfold calculate_body.
  rewrite (getitem_nat reference_traj i [] Hi).
  rewrite (getitem_nat perturbed_traj i []) by (rewrite same_length; exact Hi).
  simpl. unfold Rgtb, qualifies, separation_at.
  set (s := separation_of (nth i reference_traj []) (nth i perturbed_traj [])).
  destruct (Rltb 0 s) eqn:E1; simpl; [| reflexivity].
  destruct (Rltb s (extreme_threshold self)); [| reflexivity].
  apply Rltb_lt in E1.
  rewrite truediv_nonzero by lra. simpl.
  rewrite math_log_pos; [reflexivity |].
  apply Rdiv_lt_0_compat; assumption.
Qed.

(** The loop over a run of valid indices adds the log-ratios of the
    qualifying ones and counts them. *)
Lemma calculate_loop (indices : list nat) (acc : accumulators) :
  Forall (fun i => (i < length reference_traj)%nat) indices ->
  for_loop (calculate_body self reference_traj perturbed_traj)
           (map Z.of_nat indices) acc
  = Ok {| lyap_sum :=
            lyap_sum acc
            + log_ratio_sum self reference_traj perturbed_traj
                            (filter qualifies indices);
          valid_points :=
            (valid_points acc
             + Z.of_nat (length (filter qualifies indices)))%Z |}.
Proof.
  revert acc. induction indices as [| i rest IH]; intros acc Hall.
  - simpl. destruct acc as [s v]. simpl. f_equal. f_equal; [lra | lia].
  - inversion Hall as [| ? ? Hi Hrest]; subst.
    simpl map. simpl for_loop. rewrite (calculate_body_at acc i Hi). simpl bind.
    rewrite IH by exact Hrest. simpl filter.
    destruct (qualifies i); simpl.
    + f_equal. f_equal; [lra | lia].
    + reflexivity.
Qed.

End Estimate.

Lemma separation_single (a b : R) :
  lyapunov_calculator.separation_of [a] [b] = Rabs (a - b).
Proof.
  unfold lyapunov_calculator.separation_of. simpl.
  rewrite py_sum_cons, py_sum_nil.
  replace ((a - b) * ((a - b) * 1) + 0) with (Rsqr (a - b))
    by (unfold Rsqr; lra).
  apply sqrt_Rsqr_abs.
Qed.

Lemma separation_same (p : list R) : lyapunov_calculator.separation_of p p = 0.
Proof.
  unfold lyapunov_calculator.separation_of.
  replace (py_sum _) with 0; [apply sqrt_0 |].
  induction p as [| x xs IH]; cbn [combine map].
  - reflexivity.
  - rewrite py_sum_cons, <- IH. simpl. lra.
Qed.

Lemma demo_separation :
  separation_at demo_reference demo_perturbed 0 = 2e-8.
Proof.
  unfold separation_at, demo_reference, demo_perturbed. simpl nth.
  rewrite separation_single.
  unfold Rabs. destruct (Rcase_abs _); lra.
Qed.

Example demo_calculate :
  lyapunov_calculator.calculate default_calculator
    demo_reference demo_perturbed
  = Ok (Finite (ln 2 / 10)).
Proof.
  assert (Hdist : 0 < lyapunov_calculator.lyap_norm_dist default_calculator)
    by (simpl; lra).
  unfold lyapunov_calculator.calculate.
  change (py_range2 _ _) with [Z.of_nat 0]. cbn [for_loop].
  rewrite (calculate_body_at default_calculator demo_reference demo_perturbed
             Hdist eq_refl) by (simpl; lia).
  rewrite demo_separation.
  replace (Rltb 0 2e-8) with true by (symmetry; apply Rltb_lt; lra).
  replace (Rltb 2e-8 (lyapunov_calculator.extreme_threshold default_calculator))
    with true by (symmetry; apply Rltb_lt; simpl; lra).
  cbn [andb bind lyapunov_calculator.valid_points
       lyapunov_calculator.lyap_sum].
  change (0 + 1 =? 0)%Z with false. cbv iota.
  change ((0 + 1) * lyapunov_calculator.lyap_renorm_steps default_calculator)%Z
    with 10%Z.
  rewrite truediv_nonzero by lra. cbn [bind]. f_equal. f_equal.
  simpl. replace (2e-8 / 1e-8) with 2 by lra. lra.
Qed.

(** X8.  Two identical trajectories have separation zero at every
    index: nothing qualifies and [calculate] returns the sentinel
    [float('-inf')], whatever the length of the trajectory. *)
Lemma identical_trajectories_sentinel
  (self : lyapunov_calculator.LyapunovCalculator) (traj : list (list R)) :
  (0 <= lyapunov_calculator.lyap_skip_steps self)%Z ->
  0 < lyapunov_calculator.lyap_norm_dist self ->
  (1 <= lyapunov_calculator.lyap_renorm_steps self)%Z ->
  lyapunov_calculator.calculate self traj traj = Ok NegInf.
Proof.
  intros H1 H2 H3.
  assert (Hnone : qualifying_indices self traj traj = []).
  { unfold qualifying_indices.
    erewrite filter_ext; [apply filter_false |].
    intro i. unfold separation_at. rewrite separation_same.
    replace (Rltb 0 0) with false by (symmetry; apply Rltb_ge; lra).
    simpl. apply andb_false_r. }
  assert (Hcalc := calculate_loop self traj traj H2 eq_refl).
  unfold lyapunov_calculator.calculate.
  assert (Hquarter : (0 <= Z.of_nat (length traj) / 4 <= Z.of_nat (length traj))%Z).
  { split; [apply Z.div_pos; lia | apply Z.div_le_upper_bound; lia]. }
  remember (Z.min (lyapunov_calculator.lyap_skip_steps self)
                  (Z.of_nat (length traj) / 4)) as start eqn:Hstart.
  assert (Hs : start = Z.of_nat (Z.to_nat start)) by lia.
  assert (Hsn : (Z.to_nat start <= length traj)%nat) by lia.
  rewrite Hs, py_range2_nat, Hcalc.
  2:{ apply Forall_forall. intros i Hi. apply in_seq in Hi. lia. }
  unfold qualifying_indices in Hnone. rewrite <- Hstart, Hs in Hnone.
  rewrite (filter_from
             (fun i => Rltb 0 (separation_at traj traj i)
                       && Rltb (separation_at traj traj i)
                               (lyapunov_calculator.extreme_threshold self))
             (Z.to_nat start) (length traj) Hsn) in Hnone.
  rewrite Hnone. reflexivity.
Qed.

(* ================================================================= *)
(** ** The clamp (normalize_point)                                    *)
(* ================================================================= *)

Lemma sum_squares_scale (k : R) (p : list R) :
  py_sum (map (fun x => x * x) (scale_point k p))
  = (k * k) * py_sum (map (fun x => x * x) p).
Proof.
  unfold scale_point. induction p as [| x xs IH]; cbn [map].
  - rewrite py_sum_nil. lra.
  - rewrite !py_sum_cons, IH. lra.
Qed.

Lemma magnitude_scale (k : R) (p : list R) :
  magnitude_of (scale_point k p) = Rabs k * magnitude_of p.
Proof.
  unfold magnitude_of. rewrite sum_squares_scale.
  rewrite sqrt_mult; [| nra | apply sum_squares_nonneg].
  f_equal. change (k * k) with (Rsqr k). apply sqrt_Rsqr_abs.
Qed.

(** A comprehension of divisions by a non-zero number. *)
Lemma list_comp_truediv (f : R -> R) (m : R) (p : list R) :
  m <> 0 ->
  list_comp (fun x => truediv (f x) m) p = Ok (map (fun x => f x / m) p).
Proof.
  intro Hm. induction p as [| x xs IH]; cbn [list_comp map].
  - reflexivity.
  - rewrite truediv_nonzero by exact Hm. cbn [bind]. rewrite IH. reflexivity.
Qed.

Lemma normalize_point_rescales
  (self : trajectory_simulator.TrajectorySimulator) (point : list R) :
  magnitude_of point > trajectory_simulator.max_density self ->
  magnitude_of point <> 0 ->
  trajectory_simulator.normalize_point self point
  = Ok (scale_point (trajectory_simulator.max_density self
                     / magnitude_of point) point).
Proof.
  intros Hgt Hnz. unfold trajectory_simulator.normalize_point.
  replace (Rgtb _ _) with true by (symmetry; apply Rgtb_gt; exact Hgt).
  rewrite (list_comp_truediv
             (fun x => x * trajectory_simulator.max_density self)) by exact Hnz.
  f_equal. unfold scale_point. apply map_ext. intro x.
  unfold Rdiv. lra.
Qed.

Lemma normalize_point_keeps
  (self : trajectory_simulator.TrajectorySimulator) (point : list R) :
  magnitude_of point <= trajectory_simulator.max_density self ->
  trajectory_simulator.normalize_point self point = Ok point.
Proof.
  intro Hle. unfold trajectory_simulator.normalize_point.
  replace (Rgtb _ _) with false by (symmetry; apply Rgtb_le; exact Hle).
  reflexivity.
Qed.

(** C10, the claim at a concrete input: with the density bound -1 the
    point (1) has norm 1 > -1 and is rescaled to (-1): the result has
    norm 1, which is not the bound and exceeds it, and it points the
    other way. *)
Lemma normalize_point_negative_bound :
  trajectory_simulator.max_density negative_bound_simulator = -1 /\
  trajectory_simulator.normalize_point negative_bound_simulator [1]
  = Ok [-1] /\
  magnitude_of [-1] = 1 /\
  magnitude_of [-1] > trajectory_simulator.max_density negative_bound_simulator.
Proof.
  assert (H1 : magnitude_of [1] = 1).
  { rewrite magnitude_single. apply Rabs_pos_eq. lra. }
  assert (H2 : magnitude_of [-1] = 1).
  { rewrite magnitude_single. unfold Rabs. destruct (Rcase_abs _); lra. }
  split; [reflexivity |]. split; [| split; [exact H2 |]].
  - rewrite normalize_point_rescales.
    + rewrite H1. unfold scale_point. cbn [map]. f_equal. f_equal.
      simpl. lra.
    + rewrite H1. simpl. lra.
    + rewrite H1. lra.
  - rewrite H2. simpl. lra.
Qed.

(** The point (6, 8) of norm 10 under the default bound 5 becomes
    (3, 4). *)
Example normalize_point_demo :
  trajectory_simulator.normalize_point default_simulator [6; 8] = Ok [3; 4].
Proof.
  assert (H : magnitude_of [6; 8] = 10) by (apply magnitude_pair; lra).
  rewrite normalize_point_rescales.
  - rewrite H. unfold scale_point. cbn [map]. simpl.
    f_equal. f_equal; [lra |]. f_equal. lra.
  - rewrite H. simpl. lra.
  - rewrite H. lra.
Qed.

(* ================================================================= *)
(** ** Sampling (create_random_points, generate_polynomial_coefficients) *)
(* ================================================================= *)

Lemma advance_zero (s : rng_state) : advance s 0 = s.
Proof.
  destruct s as [f c]. unfold advance. simpl. f_equal. lia.
Qed.

Lemma advance_advance (s : rng_state) (n m : nat) :
  advance (advance s n) m = advance s (n + m).
Proof. unfold advance. simpl. f_equal. lia. Qed.

Lemma uniform_draws_length (a b : R) (s : rng_state) (n : nat) :
  length (uniform_draws a b s n) = n.
Proof. unfold uniform_draws. rewrite length_map, length_seq. reflexivity. Qed.

Lemma uniform_draws_succ (a b : R) (s : rng_state) (n : nat) :
  uniform_draws a b s (S n)
  = (a + (b - a) * samples s (cursor s)) :: uniform_draws a b (advance s 1) n.
Proof.
  unfold uniform_draws. cbn [seq map]. f_equal.
  - rewrite Nat.add_0_r. reflexivity.
  - rewrite <- (seq_shift n 0), map_map. apply map_ext. intro k.
    simpl. do 3 f_equal. lia.
Qed.

(** [n] calls of [uniform] never raise; they read the next [n]
    samples. *)
Lemma sample_list_uniform (a b : R) (n : nat) (s : rng_state) :
  sample_list n (uniform a b) s = Ok (uniform_draws a b s n, advance s n).
Proof.
  revert s. induction n as [| n IH]; intro s.
  - simpl. unfold retR. rewrite advance_zero. reflexivity.
  - rewrite uniform_draws_succ. cbn [sample_list].
    unfold bindR at 1. unfold uniform at 1. unfold bindR at 1.
    unfold random at 1. unfold retR at 1.
    assert (Hs : {| samples := samples s; cursor := S (cursor s) |}
                 = advance s 1).
    { unfold advance. f_equal. lia. }
    rewrite Hs. unfold bindR at 1. rewrite IH.
    unfold retR. rewrite advance_advance. reflexivity.
Qed.

(** A draw of [uniform(a, b)] with [a <= b] lies in [[a, b]]. *)
Lemma uniform_draws_between (a b : R) (s : rng_state) (n : nat) :
  unit_samples s -> a <= b ->
  Forall (fun x => a <= x <= b) (uniform_draws a b s n).
Proof.
  intros Hs Hab. unfold uniform_draws. apply Forall_map, Forall_forall.
  intros k _. specialize (Hs (cursor s + k)%nat). nra.
Qed.

(** What [generate_polynomial_coefficients] returns, for every
    simulator and generator: [coeffs_per_dim * dimensions] draws of
    [uniform(-param_max / 2, param_max / 2)], where [param_max] is the
    configuration's [max_systems]. *)
Lemma generate_polynomial_coefficients_run
  (self : trajectory_simulator.TrajectorySimulator) (s : rng_state) :
  let d := trajectory_simulator.dimensions self in
  let total := Z.to_nat ((1 + d + d * (d + 1) / 2) * d) in
  trajectory_simulator.generate_polynomial_coefficients self s
  = Ok (uniform_draws (- IZR (trajectory_simulator.param_max self) / 2)
                      (IZR (trajectory_simulator.param_max self) / 2)
                      s total,
        advance s total).
Proof.
  intros d total.
  unfold trajectory_simulator.generate_polynomial_coefficients.
  apply sample_list_uniform.
Qed.

(** The count of the coefficients is as claimed, and their range is
    [max_systems], not [coefficient_limit]. *)
Lemma generate_polynomial_coefficients_count_and_range
  (c : models.ChaoticSysFinderConfig) (s : rng_state) :
  unit_samples s -> (0 <= models.max_systems c)%Z ->
  exists coefficients s',
    trajectory_simulator.generate_polynomial_coefficients
      (trajectory_simulator.__init__ c) s = Ok (coefficients, s') /\
    Z.of_nat (length coefficients)
    = Z.max 0 ((1 + models.dimensions c
                + models.dimensions c * (models.dimensions c + 1) / 2)
               * models.dimensions c) /\
    Forall (fun x => - IZR (models.max_systems c) / 2 <= x
                     <= IZR (models.max_systems c) / 2) coefficients.
Proof.
  intros Hs Hmax.
  rewrite generate_polynomial_coefficients_run. do 2 eexists.
  split; [reflexivity |]. split.
  - rewrite uniform_draws_length. simpl. lia.
  - apply uniform_draws_between; [exact Hs |].
    simpl. apply IZR_le in Hmax. lra.
Qed.

(** C3 at a failing input: the default configuration
    ([coefficient_limit = 2.5], [max_systems = 10]) and a generator
    whose samples are 0.  The 30 coefficients are all -5, outside
    [[-1.25, 1.25]]. *)
Theorem coefficients_exceed_coefficient_limit :
  exists coefficients s',
    trajectory_simulator.generate_polynomial_coefficients
      default_simulator zero_rng = Ok (coefficients, s') /\
    length coefficients = 30%nat /\
    Forall (fun x => x = -5) coefficients /\
    models.coefficient_limit models.default_config = 2.5 /\
    -5 < - models.coefficient_limit models.default_config / 2.
Proof.
  rewrite generate_polynomial_coefficients_run. do 2 eexists.
  split; [reflexivity |]. split; [| split; [| split]].
  - rewrite uniform_draws_length. reflexivity.
  - unfold uniform_draws. apply Forall_map, Forall_forall.
    intros k _. simpl. lra.
  - reflexivity.
  - simpl. lra.
Qed.

(** The comprehension that moves each coordinate of the seed point. *)
Lemma perturb_comprehension (pts dirs : list R) (d0 m : R) :
  m <> 0 ->
  list_comp (fun '(p, d) => q <- truediv (d * d0) m ;; Ok (p + q))
            (combine pts dirs)
  = Ok (map (fun '(p, d) => p + d * d0 / m) (combine pts dirs)).
Proof.
  intro Hm. generalize (combine pts dirs). intro l.
  induction l as [| [p d] rest IH]; cbn [list_comp map].
  - reflexivity.
  - rewrite truediv_nonzero by exact Hm. cbn [bind]. rewrite IH. reflexivity.
Qed.

Lemma perturb_difference (pts dirs : list R) (d0 m : R) :
  length pts = length dirs ->
  difference (map (fun '(p, d) => p + d * d0 / m) (combine pts dirs)) pts
  = scale_point (d0 / m) dirs.
Proof.
  unfold difference, scale_point. revert dirs.
  induction pts as [| p pts IH]; intros [| d dirs] Hlen;
    try discriminate; cbn [combine map].
  - reflexivity.
  - f_equal; [unfold Rdiv; lra |]. apply IH. simpl in Hlen. lia.
Qed.

Section SeedPair.
Import trajectory_simulator.

Variable self : TrajectorySimulator.
Variable s : rng_state.

Let n : nat := Z.to_nat (dimensions self).
Let seed : list R :=
  uniform_draws (min_density self / 2) (max_density self / 2) s n.
Let direction : list R := uniform_draws (-1) 1 (advance s n) n.

(** [create_random_points], with the draws made explicit: only the
    divisions by the norm of the direction can raise. *)
Lemma create_random_points_run :
  create_random_points self s =
  match list_comp (fun '(p, d) =>
                     q <- truediv (d * lyap_norm_dist self)
                                  (magnitude_of direction) ;;
                     Ok (p + q))
                  (combine seed direction) with
  | Ok perturbed_ => Ok ((seed, perturbed_), advance s (n + n))
  | Raise e => Raise e
  end.
Proof.
  unfold create_random_points. fold n.
  unfold bindR at 1. rewrite sample_list_uniform. fold seed.
  unfold bindR at 1. rewrite sample_list_uniform. fold direction.
  unfold bindR, liftR.
  destruct (list_comp _ (combine seed direction)); [| reflexivity].
  unfold retR. rewrite advance_advance. reflexivity.
Qed.

(** A direction of norm zero: with at least one dimension the first
    division raises. *)
Lemma create_random_points_zero_direction :
  (1 <= dimensions self)%Z ->
  magnitude_of direction = 0 ->
  create_random_points self s = Raise ZeroDivisionError.
Proof.
  intros Hd Hzero. rewrite create_random_points_run. rewrite Hzero.
  assert (Hn : exists m, n = S m).
  { exists (Nat.pred n). subst n. lia. }
  destruct Hn as [m Hm].
  unfold seed, direction. rewrite Hm.
  rewrite !uniform_draws_succ. cbn [combine list_comp].
  rewrite truediv_zero by reflexivity. reflexivity.
Qed.

(** A direction of non-zero norm: the call returns the seed point and
    the seed point moved by the direction scaled by
    [initial_distance / norm]; in exact arithmetic the two are
    [|initial_distance|] apart. *)
Lemma create_random_points_separation :
  magnitude_of direction <> 0 ->
  exists perturbed_,
    create_random_points self s = Ok ((seed, perturbed_), advance s (n + n)) /\
    difference perturbed_ seed
    = scale_point (lyap_norm_dist self / magnitude_of direction) direction /\
    magnitude_of (difference perturbed_ seed) = Rabs (lyap_norm_dist self).
Proof.
  intro Hnz. rewrite create_random_points_run.
  assert (Hlen : length seed = length direction).
  { unfold seed, direction. rewrite !uniform_draws_length. reflexivity. }
  rewrite perturb_comprehension by exact Hnz.
  eexists. split; [reflexivity |].
  rewrite perturb_difference by exact Hlen.
  split; [reflexivity |].
  rewrite magnitude_scale.
  pose proof (magnitude_nonneg direction) as Hpos.
  unfold Rdiv. rewrite Rabs_mult, (Rabs_pos_eq (/ magnitude_of direction)).
  - field. exact Hnz.
  - left. apply Rinv_0_lt_compat. lra.
Qed.

End SeedPair.

Lemma magnitude_zeros (l : list R) :
  Forall (fun x => x = 0) l -> magnitude_of l = 0.
Proof.
  intro H. unfold magnitude_of.
  replace (py_sum _) with 0; [apply sqrt_0 |].
  induction H as [| x xs Hx _ IH]; cbn [map].
  - reflexivity.
  - rewrite py_sum_cons, <- IH, Hx. lra.
Qed.

(** C9 at a failing input: a generator whose samples are all 1/2, with
    the one-dimensional demonstration configuration and with the
    default, three-dimensional one.  Each component of the direction is
    [uniform(-1, 1) = -1 + 2 * 0.5 = 0], its norm is 0, and the call
    raises ZeroDivisionError instead of returning two points. *)
Theorem create_random_points_zero_direction_raises :
  (uniform_draws (-1) 1 (advance half_rng 1) 1 = [0] /\
   trajectory_simulator.create_random_points demo_simulator half_rng
   = Raise ZeroDivisionError) /\
  (uniform_draws (-1) 1 (advance half_rng 3) 3 = [0; 0; 0] /\
   trajectory_simulator.create_random_points default_simulator half_rng
   = Raise ZeroDivisionError).
Proof.
  assert (Hone : uniform_draws (-1) 1 (advance half_rng 1) 1 = [0]).
  { unfold uniform_draws. cbn [seq map]. simpl samples.
    repeat (apply f_equal2; [lra |]). reflexivity. }
  assert (Hdir : uniform_draws (-1) 1 (advance half_rng 3) 3 = [0; 0; 0]).
  { unfold uniform_draws. cbn [seq map]. simpl samples.
    repeat (apply f_equal2; [lra |]). reflexivity. }
  split; split; try assumption.
  - apply create_random_points_zero_direction.
    + simpl. lia.
    + change (Z.to_nat (trajectory_simulator.dimensions demo_simulator))
        with 1%nat.
      rewrite Hone. apply magnitude_zeros. repeat constructor.
  - apply create_random_points_zero_direction.
    + simpl. lia.
    + change (Z.to_nat (trajectory_simulator.dimensions default_simulator))
        with 3%nat.
      rewrite Hdir. apply magnitude_zeros. repeat constructor.
Qed.

(** For every other direction the call returns: with a positive
    [initial_distance] the two points are, in exact arithmetic, that
    far apart. *)
Lemma create_random_points_exact_distance
  (self : trajectory_simulator.TrajectorySimulator) (s : rng_state) :
  0 < trajectory_simulator.lyap_norm_dist self ->
  magnitude_of
    (uniform_draws (-1) 1
       (advance s (Z.to_nat (trajectory_simulator.dimensions self)))
       (Z.to_nat (trajectory_simulator.dimensions self))) <> 0 ->
  exists point perturbed s',
    trajectory_simulator.create_random_points self s
    = Ok ((point, perturbed), s') /\
    magnitude_of (difference perturbed point)
    = trajectory_simulator.lyap_norm_dist self.
Proof.
  intros Hd Hnz.
  destruct (create_random_points_separation self s Hnz)
    as [perturbed [Hrun [_ Hnorm]]].
  do 3 eexists. split; [exact Hrun |].
  rewrite Hnorm. apply Rabs_pos_eq. lra.
Qed.

(* ================================================================= *)
(** ** The trajectory loop (simulate)                                 *)
(* ================================================================= *)

(** A [return] that comes out of a loop was executed by its body. *)
Lemma for_return_returned {V S I : Type} (P : V -> Prop)
  (body : S -> I -> result (control V S)) :
  (forall s i v, body s i = Ok (Return v) -> P v) ->
  forall items s v, for_return body items s = Ok (Return v) -> P v.
Proof.
  intros Hbody items. induction items as [| i rest IH]; intros s v H.
  - discriminate.
  - cbn [for_return] in H. destruct (body s i) as [[w | s'] | e] eqn:E;
      cbn [bind] in H.
    + injection H as H. subst w. eapply Hbody. exact E.
    + eapply IH. exact H.
    + discriminate.
Qed.

(** Every [return] inside the loop body carries the sentinel. *)
Lemma simulate_body_returns_sentinel
  (self : trajectory_simulator.TrajectorySimulator) (coefficients : list R)
  (st : trajectory_simulator.sim_state) (i : Z)
  (v : trajectory_simulator.outcome) :
  trajectory_simulator.simulate_body self coefficients st i = Ok (Return v) ->
  fst (fst v) = NegInf.
Proof.
  unfold trajectory_simulator.simulate_body. intro H.
  destruct (trajectory_simulator.calculate_new_point self _ coefficients)
    as [new_point |]; cbn [bind] in H; [| discriminate].
  destruct (trajectory_simulator.check_convergence self new_point).
  { injection H as H. subst v. reflexivity. }
  destruct (trajectory_simulator.calculate_new_point self _ coefficients)
    as [new_perturbed |]; cbn [bind] in H; [| discriminate].
  destruct (trajectory_simulator.check_convergence self new_perturbed).
  { injection H as H. subst v. reflexivity. }
  destruct (pymod i _) as [m |]; cbn [bind] in H; [| discriminate].
  match type of H with
  | bind ?c _ = _ => destruct c; cbn [bind] in H; discriminate
  end.
Qed.

(** Whatever the configuration and the random draws, the exponent
    [simulate] returns is the sentinel: [LyapunovCalculator.calculate]
    is never consulted. *)
Lemma simulate_exponent_is_sentinel
  (self : trajectory_simulator.TrajectorySimulator) (s s' : rng_state)
  (v : trajectory_simulator.outcome) :
  trajectory_simulator.simulate self s = Ok (v, s') -> fst (fst v) = NegInf.
Proof.
  unfold trajectory_simulator.simulate, bindR. intro H.
  destruct (trajectory_simulator.create_random_points self s)
    as [[[point perturbed] s1] |]; [| discriminate].
  destruct (trajectory_simulator.generate_polynomial_coefficients self s1)
    as [[coefficients s2] |]; [| discriminate].
  unfold liftR, trajectory_simulator.simulate_loop in H.
  destruct (for_return _ _ _) as [[w | st] |] eqn:E; [| | discriminate].
  - unfold retR in H. injection H as H _. subst w.
    eapply (for_return_returned (fun v => fst (fst v) = NegInf));
      [| exact E].
    intros st i w. apply simulate_body_returns_sentinel.
  - unfold retR in H. injection H as H _. subst v. reflexivity.
Qed.

(** One step of the map in one dimension with three coefficients. *)
Lemma calculate_new_point_demo (x c0 c1 c2 : R) :
  trajectory_simulator.calculate_new_point demo_simulator [x] [c0; c1; c2]
  = trajectory_simulator.normalize_point demo_simulator
      [0 + c0 * 0.1 + c1 * x * 0.5 + c2 * x * x * 0.25].
Proof. reflexivity. Qed.

Lemma check_convergence_between
  (self : trajectory_simulator.TrajectorySimulator) (point : list R) :
  trajectory_simulator.convergence_threshold self <= magnitude_of point ->
  magnitude_of point <= trajectory_simulator.extreme_threshold self ->
  trajectory_simulator.check_convergence self point = false.
Proof.
  intros H1 H2. unfold trajectory_simulator.check_convergence.
  apply orb_false_iff. split; [apply Rgtb_le | apply Rltb_ge]; assumption.
Qed.

Lemma demo_seed_pair :
  trajectory_simulator.create_random_points demo_simulator demo_rng
  = Ok (([0], [1e-8]), advance demo_rng 2).
Proof.
  rewrite create_random_points_run.
  change (Z.to_nat (trajectory_simulator.dimensions demo_simulator))
    with 1%nat.
  assert (Hseed : uniform_draws
                    (trajectory_simulator.min_density demo_simulator / 2)
                    (trajectory_simulator.max_density demo_simulator / 2)
                    demo_rng 1 = [0]).
  { unfold uniform_draws. cbn [seq map]. simpl. f_equal. lra. }
  assert (Hdir : uniform_draws (-1) 1 (advance demo_rng 1) 1 = [0.5]).
  { unfold uniform_draws. cbn [seq map]. simpl. f_equal. lra. }
  rewrite Hseed, Hdir.
  assert (Hmag : magnitude_of [0.5] = 0.5).
  { rewrite magnitude_single. apply Rabs_pos_eq. lra. }
  rewrite Hmag. rewrite perturb_comprehension by lra.
  cbn [combine map]. do 4 f_equal. simpl. lra.
Qed.

Lemma demo_coefficients :
  trajectory_simulator.generate_polynomial_coefficients demo_simulator
    (advance demo_rng 2)
  = Ok ([4; 4; 0], advance demo_rng 5).
Proof.
  rewrite generate_polynomial_coefficients_run.
  change (Z.to_nat _) with 3%nat. rewrite advance_advance.
  f_equal. f_equal.
  unfold uniform_draws. cbn [seq map]. simpl.
  repeat (apply f_equal2; [lra |]). reflexivity.
Qed.

Lemma demo_reference_step :
  trajectory_simulator.calculate_new_point demo_simulator [0] [4; 4; 0]
  = Ok [0.4].
Proof.
  rewrite calculate_new_point_demo.
  replace (0 + 4 * 0.1 + 4 * 0 * 0.5 + 0 * 0 * 0 * 0.25) with 0.4 by lra.
  apply normalize_point_keeps. rewrite magnitude_single.
  rewrite Rabs_pos_eq by lra. simpl. lra.
Qed.

Lemma demo_perturbed_step :
  trajectory_simulator.calculate_new_point demo_simulator [1e-8] [4; 4; 0]
  = Ok [0.4 + 2e-8].
Proof.
  rewrite calculate_new_point_demo.
  replace (0 + 4 * 0.1 + 4 * 1e-8 * 0.5 + 0 * 1e-8 * 1e-8 * 0.25)
    with (0.4 + 2e-8) by lra.
  apply normalize_point_keeps. rewrite magnitude_single.
  rewrite Rabs_pos_eq by lra. simpl. lra.
Qed.

(** The loop of the demonstration run completes its single iteration:
    neither point is terminal. *)
Lemma demo_loop :
  trajectory_simulator.simulate_loop demo_simulator [0] [1e-8] [4; 4; 0]
  = Ok (Next demo_final_state).
Proof.
  unfold trajectory_simulator.simulate_loop.
  change (py_range (trajectory_simulator.iterations demo_simulator))
    with [0%Z].
  cbn [for_return]. unfold trajectory_simulator.simulate_body.
  cbn [trajectory_simulator.point trajectory_simulator.perturbed
       trajectory_simulator.reference_traj
       trajectory_simulator.perturbed_traj].
  rewrite demo_reference_step. cbn [bind].
  rewrite check_convergence_between.
  2:{ rewrite magnitude_single, Rabs_pos_eq by lra. simpl. lra. }
  2:{ rewrite magnitude_single, Rabs_pos_eq by lra. simpl. lra. }
  rewrite demo_perturbed_step. cbn [bind].
  rewrite check_convergence_between.
  2:{ rewrite magnitude_single, Rabs_pos_eq by lra. simpl. lra. }
  2:{ rewrite magnitude_single, Rabs_pos_eq by lra. simpl. lra. }
  reflexivity.
Qed.

(** C1 at a failing input: the demonstration run.  The loop completes
    all its iterations without a terminal point; the estimator applied
    to the two accumulated trajectories returns [ln 2 / 10]; and
    [simulate] returns the sentinel [-inf] with the coefficients and
    the reference trajectory. *)
Theorem simulate_discards_the_estimate :
  trajectory_simulator.create_random_points demo_simulator demo_rng
  = Ok (([0], [1e-8]), advance demo_rng 2) /\
  trajectory_simulator.generate_polynomial_coefficients demo_simulator
    (advance demo_rng 2) = Ok ([4; 4; 0], advance demo_rng 5) /\
  trajectory_simulator.simulate_loop demo_simulator [0] [1e-8] [4; 4; 0]
  = Ok (Next demo_final_state) /\
  lyapunov_calculator.calculate
    (lyapunov_calculator.__init__
       (trajectory_simulator.lyap_config demo_simulator))
    (trajectory_simulator.reference_traj demo_final_state)
    (trajectory_simulator.perturbed_traj demo_final_state)
  = Ok (Finite (ln 2 / 10)) /\
  trajectory_simulator.simulate demo_simulator demo_rng
  = Ok ((NegInf, [4; 4; 0], demo_reference), advance demo_rng 5).
Proof.
  split; [exact demo_seed_pair |].
  split; [exact demo_coefficients |].
  split; [exact demo_loop |].
  split; [exact demo_calculate |].
  unfold trajectory_simulator.simulate.
  unfold bindR at 1. rewrite demo_seed_pair.
  unfold bindR at 1. rewrite demo_coefficients.
  unfold bindR, liftR. rewrite demo_loop. reflexivity.
Qed.

(* ================================================================= *)
(** ** The polynomial map (compute_polynomial_terms, calculate_new_point) *)
(* ================================================================= *)


Lemma py_sum_app (xs ys : list R) : py_sum (xs ++ ys) = py_sum xs + py_sum ys.
Proof.
  induction xs as [| x xs IH]; simpl app.
  - rewrite py_sum_nil. lra.
  - rewrite !py_sum_cons, IH. lra.
Qed.












Lemma py_range_length (n : Z) : length (py_range n) = Z.to_nat n.
Proof. unfold py_range. rewrite length_map, length_seq. reflexivity. Qed.





Lemma py_slice_length {A : Type} (l : list A) (a c : Z) :
  (0 <= a)%Z -> (0 <= c)%Z -> (a + c <= Z.of_nat (length l))%Z ->
  length (py_slice l a (a + c)) = Z.to_nat c.
Proof.
  intros Ha Hc Hle. unfold py_slice.
  rewrite length_firstn, length_skipn. lia.
Qed.

Lemma list_comp_forall2 {A B : Type} (f : A -> result B) (l : list A)
  (l' : list B) :
  list_comp f l = Ok l' -> Forall2 (fun x y => f x = Ok y) l l'.
Proof.
  revert l'. induction l as [| x l IH]; intros l' H; cbn [list_comp] in H.
  - injection H as H. subst l'. constructor.
  - destruct (f x) as [y |] eqn:Hy; cbn [bind] in H; [| discriminate].
    destruct (list_comp f l) as [ys |]; cbn [bind] in H; [| discriminate].
    injection H as H. subst l'. constructor; [exact Hy | apply IH; reflexivity].
Qed.

Lemma list_comp_defined {A B : Type} (f : A -> result B) (l : list A) :
  (forall x, In x l -> exists y, f x = Ok y) ->
  exists l', list_comp f l = Ok l'.
Proof.
  induction l as [| x l IH]; intro H; cbn [list_comp].
  - eexists. reflexivity.
  - destruct (H x (or_introl eq_refl)) as [y Hy]. rewrite Hy. cbn [bind].
    destruct IH as [ys Hys]; [intros z Hz; apply H; right; exact Hz |].
    rewrite Hys. cbn [bind]. eexists. reflexivity.
Qed.




(** X7.  The exceptions of [calculate_new_point]: with [dimensions = 0]
    the division [len(coefficients) // dimensions] raises
    ZeroDivisionError; with at least one axis and fewer coefficients than
    axes every slice is empty and reading its constant term raises
    IndexError, which the handler for OverflowError in
    [compute_polynomial_terms] does not catch; with a negative
    [dimensions] the loop does not run and the result is the empty
    point. *)
Theorem calculate_new_point_exceptions :
  forall (self : trajectory_simulator.TrajectorySimulator)
         (point coefficients : list R),
    (trajectory_simulator.dimensions self = 0%Z ->
     trajectory_simulator.calculate_new_point self point coefficients
     = Raise ZeroDivisionError) /\
    ((1 <= trajectory_simulator.dimensions self)%Z ->
     (Z.of_nat (length coefficients)
      < trajectory_simulator.dimensions self)%Z ->
     trajectory_simulator.calculate_new_point self point coefficients
     = Raise IndexError) /\
    ((trajectory_simulator.dimensions self < 0)%Z ->
     trajectory_simulator.calculate_new_point self point coefficients
     = Ok []).
Proof.
  intros self point coefficients.
  unfold trajectory_simulator.calculate_new_point. repeat split.
  - intro H. rewrite H. reflexivity.
  - intros Hd Hfew. unfold floordiv.
    replace (trajectory_simulator.dimensions self =? 0)%Z with false
      by (symmetry; apply Z.eqb_neq; lia).
    cbn [bind]. rewrite Z.div_small by lia.
    unfold py_range.
    destruct (Z.to_nat (trajectory_simulator.dimensions self)) as [| k] eqn:E;
      [lia |].
    reflexivity.
  - intro Hneg. unfold floordiv.
    replace (trajectory_simulator.dimensions self =? 0)%Z with false
      by (symmetry; apply Z.eqb_neq; lia).
    cbn [bind]. unfold py_range.
    replace (Z.to_nat (trajectory_simulator.dimensions self)) with 0%nat by lia.
    cbn [seq map list_comp bind].
    unfold trajectory_simulator.normalize_point.
    destruct (Rgtb _ _); reflexivity.
Qed.

(* ================================================================= *)
(** ** The trajectories of simulate                                   *)
(* ================================================================= *)







Section Orbit.
Import trajectory_simulator.

Variable self : TrajectorySimulator.
Variable coefficients seed : list R.

Let F (p : list R) : result (list R) := calculate_new_point self p coefficients.


End Orbit.

(** X1.  Whatever the configuration and the random draws, the exponent
    that [simulate] returns is [float('-inf')]: every [return] of the
    function, the one after the loop included, carries the sentinel. *)
Theorem simulate_always_returns_sentinel :
  forall (self : trajectory_simulator.TrajectorySimulator) (s : rng_state),
    match trajectory_simulator.simulate self s with
    | Ok ((exponent, _, _), _) => exponent = NegInf
    | Raise _ => True
    end.
Proof.
  intros self s.
  destruct (trajectory_simulator.simulate self s)
    as [[[[exponent coefficients] reference] s'] |] eqn:E; [| exact I].
  exact (simulate_exponent_is_sentinel self s s' _ E).
Qed.


(* ================================================================= *)
(** ** The search loop (search)                                       *)
(* ================================================================= *)

(** One attempt never reaches [add_system]: the exponent is the
    sentinel and [-inf > threshold] is false. *)
Lemma search_attempt_idle (fs : storage_manager.file_system)
  (gfx : visualizer.backend) (now : string)
  (self : chaotic_system_finder.ChaoticSystemFinder) (s : rng_state) :
  chaotic_system_finder.search_attempt fs gfx now self s =
  match trajectory_simulator.simulate
          (chaotic_system_finder.simulator self) s with
  | Ok (_, s') => (Ok s', self)
  | Raise e => (Raise e, self)
  end.
Proof.
  unfold chaotic_system_finder.search_attempt.
  destruct (trajectory_simulator.simulate _ s)
    as [[[[exponent coefficients] reference] s'] |] eqn:E; [| reflexivity].
  apply simulate_exponent_is_sentinel in E. simpl in E. subst exponent.
  reflexivity.
Qed.

(** X2.  [search] never changes the finder and never calls its
    collaborators: for every number of attempts the object afterwards
    is the object before (its best set included), and what the call
    returns or raises is the same whatever the file system, the plotting
    library and the clock are. *)
Theorem search_never_admits :
  forall (fs : storage_manager.file_system) (gfx : visualizer.backend)
         (clock : Z -> string)
         (self : chaotic_system_finder.ChaoticSystemFinder)
         (num_attempts : option Z) (s : rng_state),
    snd (chaotic_system_finder.search fs gfx clock self num_attempts s)
    = self /\
    forall (fs' : storage_manager.file_system) (gfx' : visualizer.backend)
           (clock' : Z -> string),
      chaotic_system_finder.search fs' gfx' clock' self num_attempts s
      = chaotic_system_finder.search fs gfx clock self num_attempts s.
Proof.
  intros fs gfx clock self num_attempts s.
  unfold chaotic_system_finder.search.
  generalize (py_range
                (models.arg
                   (models.max_attempts (chaotic_system_finder.config self))
                   num_attempts)).
  intro attempts. revert s.
  induction attempts as [| attempt rest IH]; intro s.
  - split; [reflexivity | intros; reflexivity].
  - cbn [chaotic_system_finder.search_loop].
    rewrite search_attempt_idle.
    destruct (trajectory_simulator.simulate _ s) as [[v s'] |] eqn:E.
    + destruct (IH s') as [Hsame Hindep]. split; [exact Hsame |].
      intros fs' gfx' clock'. rewrite search_attempt_idle, E. apply Hindep.
    + split; [reflexivity |].
      intros fs' gfx' clock'. rewrite search_attempt_idle, E. reflexivity.
Qed.

(* ================================================================= *)
(** ** More on the estimator (LyapunovCalculator.calculate)           *)
(* ================================================================= *)

Lemma getitem_outside {A : Type} (l : list A) (i : nat) :
  (length l <= i)%nat -> getitem l (Z.of_nat i) = Raise IndexError.
Proof.
  intro H. unfold getitem.
  replace (Z.of_nat i <? 0)%Z with false by (symmetry; apply Z.ltb_ge; lia).
  replace (Z.of_nat i <? Z.of_nat (length l))%Z with false
    by (symmetry; apply Z.ltb_ge; lia).
  rewrite andb_false_r. reflexivity.
Qed.

Lemma for_loop_app {S I : Type} (body : S -> I -> result S)
  (l1 l2 : list I) (s : S) :
  for_loop body (l1 ++ l2) s
  = (s' <- for_loop body l1 s ;; for_loop body l2 s').
Proof.
  revert s. induction l1 as [| i l1 IH]; intro s; cbn [app for_loop bind].
  - reflexivity.
  - destruct (body s i) as [s' |]; cbn [bind]; [apply IH | reflexivity].
Qed.

Lemma for_loop_ext {S I : Type} (body body' : S -> I -> result S)
  (l : list I) (s : S) :
  (forall s i, In i l -> body s i = body' s i) ->
  for_loop body l s = for_loop body' l s.
Proof.
  revert s. induction l as [| i l IH]; intros s H; cbn [for_loop].
  - reflexivity.
  - rewrite (H s i) by (left; reflexivity).
    destruct (body' s i) as [s' |]; cbn [bind]; [| reflexivity].
    apply IH. intros s0 j Hj. apply H. right. exact Hj.
Qed.

(** The range of indices [calculate] loops over, for a non-negative
    number of steps to skip. *)
Lemma calculate_range (skip : Z) (n : nat) :
  (0 <= skip)%Z ->
  exists start : nat,
    (start <= n)%nat /\ (n = 0%nat \/ start < n)%nat /\
    py_range2 (Z.min skip (Z.of_nat n / 4)) (Z.of_nat n)
    = map Z.of_nat (seq start (n - start)).
Proof.
  intro Hskip.
  assert (Hq : (0 <= Z.of_nat n / 4)%Z) by (apply Z.div_pos; lia).
  assert (Hq' : (n = 0%nat) \/ (Z.of_nat n / 4 < Z.of_nat n)%Z).
  { destruct n as [| n]; [left; reflexivity | right].
    apply Z.div_lt_upper_bound; lia. }
  assert (Hle : (Z.of_nat n / 4 <= Z.of_nat n)%Z)
    by (apply Z.div_le_upper_bound; lia).
  exists (Z.to_nat (Z.min skip (Z.of_nat n / 4))).
  split; [lia |].
  split; [destruct Hq'; [left; assumption | right; lia] |].
  rewrite <- py_range2_nat. f_equal. lia.
Qed.

(** X8 at a concrete input: the default calculator and the
    demonstration reference trajectory against itself. *)
Lemma identical_trajectories_sentinel_witness :
  lyapunov_calculator.calculate default_calculator demo_reference
    demo_reference = Ok NegInf.
Proof.
  apply identical_trajectories_sentinel.
  - simpl. lia.
  - simpl. lra.
  - simpl. lia.
Defined.

(* ================================================================= *)
(** ** More on sampling                                               *)
(* ================================================================= *)

(** X11.  For samples in [[0, 1)] and a non-negative [max_systems],
    [generate_polynomial_coefficients] returns
    [(1 + d + d (d + 1) // 2) * d] coefficients ([d] the number of
    dimensions; none when that number is negative), each between
    [-max_systems / 2] and [max_systems / 2], and draws exactly one
    sample per coefficient. *)
Theorem generated_coefficients_count_and_range :
  forall (c : models.ChaoticSysFinderConfig) (s : rng_state),
    unit_samples s -> (0 <= models.max_systems c)%Z ->
    exists coefficients,
      trajectory_simulator.generate_polynomial_coefficients
        (trajectory_simulator.__init__ c) s
      = Ok (coefficients, advance s (length coefficients)) /\
      Z.of_nat (length coefficients)
      = Z.max 0 ((1 + models.dimensions c
                  + models.dimensions c * (models.dimensions c + 1) / 2)
                 * models.dimensions c) /\
      Forall (fun x => - IZR (models.max_systems c) / 2 <= x
                       <= IZR (models.max_systems c) / 2) coefficients.
Proof.
  intros c s Hs Hmax.
  rewrite generate_polynomial_coefficients_run. eexists.
  split; [rewrite uniform_draws_length; reflexivity |]. split.
  - rewrite uniform_draws_length. simpl. lia.
  - apply uniform_draws_between; [exact Hs |].
    simpl. apply IZR_le in Hmax. lra.
Qed.

Lemma zero_rng_unit : unit_samples zero_rng.
Proof. intro k. simpl. lra. Qed.

(** X11 at a concrete input: the default configuration and samples that
    are all 0. *)
Lemma generated_coefficients_count_and_range_witness :
  exists coefficients,
    trajectory_simulator.generate_polynomial_coefficients
      (trajectory_simulator.__init__ models.default_config) zero_rng
    = Ok (coefficients, advance zero_rng (length coefficients)) /\
    Z.of_nat (length coefficients) = 30%Z.
Proof.
  destruct (generated_coefficients_count_and_range models.default_config
              zero_rng zero_rng_unit) as [coefficients [Hrun [Hlen _]]].
  - simpl. lia.
  - exists coefficients. split; [exact Hrun |]. rewrite Hlen. reflexivity.
Defined.

Lemma combinations_count (l : list Z) :
  (2 * length (trajectory_simulator.combinations_with_replacement_2 l)
   = length l * (length l + 1))%nat.
Proof.
  induction l as [| x rest IH];
    cbn [trajectory_simulator.combinations_with_replacement_2].
  - reflexivity.
  - rewrite length_app, length_map. cbn [length]. lia.
Qed.

Lemma monomials_length (d : Z) (point : list R) :
  (0 <= d)%Z ->
  Z.of_nat (length (monomials d point)) = (1 + d + d * (d + 1) / 2)%Z.
Proof.
  intro Hd. unfold monomials. cbn [length].
  rewrite length_app, !length_map, py_range_length.
  pose proof (combinations_count (py_range d)) as H.
  rewrite py_range_length in H.
  set (k := length (trajectory_simulator.combinations_with_replacement_2
                      (py_range d))) in *.
  assert (Hk : (2 * Z.of_nat k = d * (d + 1))%Z) by nia.
  assert (Hdiv : (d * (d + 1) / 2 = Z.of_nat k)%Z).
  { rewrite <- Hk. rewrite Z.mul_comm. apply Z.div_mul. lia. }
  lia.
Qed.

(** X12.  The coefficient vector [generate_polynomial_coefficients]
    sizes and the slices [calculate_new_point] cuts fit together: with
    [d >= 1] dimensions and [(1 + d + d (d + 1) // 2) * d] coefficients,
    every axis' slice holds [1 + d + d (d + 1) // 2] coefficients,
    exactly as many as there are monomials, so that no coefficient is
    ignored and no monomial goes without one. *)
Theorem coefficient_slices_match_monomials :
  forall (self : trajectory_simulator.TrajectorySimulator)
         (point coefficients : list R) (dim : Z),
    let d := trajectory_simulator.dimensions self in
    let per := (Z.of_nat (length coefficients) / d)%Z in
    (1 <= d)%Z ->
    Z.of_nat (length coefficients) = ((1 + d + d * (d + 1) / 2) * d)%Z ->
    (0 <= dim < d)%Z ->
    per = (1 + d + d * (d + 1) / 2)%Z /\
    length (py_slice coefficients (dim * per) (dim * per + per))
    = length (monomials d point).
Proof.
  intros self point coefficients dim d per Hd Hlen Hdim.
  assert (Hper : per = (1 + d + d * (d + 1) / 2)%Z).
  { subst per. rewrite Hlen. apply Z.div_mul. lia. }
  split; [exact Hper |].
  assert (Hpos : (0 <= d * (d + 1) / 2)%Z) by (apply Z.div_pos; nia).
  rewrite py_slice_length by nia.
  apply Nat2Z.inj. rewrite monomials_length by lia. lia.
Qed.

(** X12 at a concrete input: one dimension and the three coefficients
    of the demonstration run. *)
Lemma coefficient_slices_match_monomials_witness :
  length (py_slice [4; 4; 0] 0 3) = length (monomials 1 [0]).
Proof.
  destruct (coefficient_slices_match_monomials demo_simulator [0] [4; 4; 0] 0)
    as [_ H].
  - simpl. lia.
  - reflexivity.
  - simpl. lia.
  - exact H.
Defined.

(** X13.  For samples in [[0, 1)], density bounds with [MIN <= MAX] and
    a sampled direction whose computed norm is not zero,
    [create_random_points] returns two points of [dimensions]
    coordinates each, the first with every coordinate between [MIN / 2]
    and [MAX / 2]; it draws two samples per dimension. *)
Theorem create_random_points_shape :
  forall (self : trajectory_simulator.TrajectorySimulator) (s : rng_state),
    let n := Z.to_nat (trajectory_simulator.dimensions self) in
    unit_samples s ->
    trajectory_simulator.min_density self
    <= trajectory_simulator.max_density self ->
    magnitude_of (uniform_draws (-1) 1 (advance s n) n) <> 0 ->
    exists point perturbed,
      trajectory_simulator.create_random_points self s
      = Ok ((point, perturbed), advance s (n + n)) /\
      length point = n /\ length perturbed = n /\
      Forall (fun x => trajectory_simulator.min_density self / 2 <= x
                       <= trajectory_simulator.max_density self / 2) point.
Proof.
  intros self s n Hs Hbounds Hnz.
  rewrite create_random_points_run. fold n.
  rewrite perturb_comprehension by exact Hnz.
  set (seed := uniform_draws (trajectory_simulator.min_density self / 2)
                 (trajectory_simulator.max_density self / 2) s n).
  set (direction := uniform_draws (-1) 1 (advance s n) n) in *.
  assert (Hseed : length seed = n) by apply uniform_draws_length.
  assert (Hdir : length direction = n) by apply uniform_draws_length.
  do 2 eexists. split; [reflexivity |].
  split; [exact Hseed |]. split.
  - rewrite length_map, length_combine. lia.
  - apply uniform_draws_between; [exact Hs | lra].
Qed.

Lemma demo_rng_unit : unit_samples demo_rng.
Proof.
  intro k. simpl. unfold demo_samples.
  destruct k as [| [| [| [| k]]]]; lra.
Qed.

(** X13 at a concrete input: the demonstration simulator and
    generator. *)
Lemma create_random_points_shape_witness :
  exists point perturbed,
    trajectory_simulator.create_random_points demo_simulator demo_rng
    = Ok ((point, perturbed), advance demo_rng 2) /\
    length point = 1%nat /\ length perturbed = 1%nat.
Proof.
  destruct (create_random_points_shape demo_simulator demo_rng)
    as [point [perturbed [Hrun [Hpoint [Hperturbed _]]]]].
  - exact demo_rng_unit.
  - simpl. lra.
  - change (Z.to_nat (trajectory_simulator.dimensions demo_simulator))
      with 1%nat.
    unfold uniform_draws. cbn [seq map]. rewrite magnitude_single.
    simpl. unfold Rabs. destruct (Rcase_abs _); lra.
  - exists point, perturbed. split; [exact Hrun |].
    split; [exact Hpoint | exact Hperturbed].
Defined.

(* ================================================================= *)
(** ** More on the best set                                           *)
(* ================================================================= *)

Lemma least_exponent_below (m : efloat)
  (l : list attractor_system.AttractorSystem) (x : efloat) :
  least_exponent m l -> In x (map attractor_system.lyapunov l) -> ele m x.
Proof.
  intros [_ Hlow] Hin. apply in_map_iff in Hin.
  destruct Hin as [s [Hs Hin]]. subst x.
  rewrite Forall_forall in Hlow. apply Hlow. exact Hin.
Qed.

(** X14.  [add_system] never degrades the best set, whatever state it
    is in: the set never gets shorter; every member afterwards is an
    old member or the system just built; and when the set was at (or
    over) capacity, every member afterwards has an exponent at least
    the least exponent there was before. *)
Theorem add_system_never_degrades :
  forall (fs : storage_manager.file_system) (gfx : visualizer.backend)
         (self : chaotic_system_finder.ChaoticSystemFinder)
         (coefficients : list R) (e : efloat) (points : list (list R))
         (now : string),
    let before := chaotic_system_finder.best_systems self in
    let after :=
      chaotic_system_finder.best_systems
        (snd (chaotic_system_finder.add_system fs gfx self coefficients e
                points now)) in
    (length before <= length after)%nat /\
    (forall s, In s after ->
               In s before \/ s = candidate self coefficients e points now) /\
    (forall least,
        least_exponent least before ->
        (models.max_systems (chaotic_system_finder.config self)
         <= Z.of_nat (length before))%Z ->
        Forall (fun s => ele least (attractor_system.lyapunov s)) after).
Proof.
  intros fs gfx self coefficients e points now before after.
  subst before after. rewrite add_system_state.
  pose proof (ranked_length self e coefficients points now) as Hlen.
  pose proof (ranked_nonempty self e coefficients points now) as Hne.
  pose proof (sort_permutation
                (chaotic_system_finder.best_systems self
                 ++ [candidate self coefficients e points now])) as Hperm.
  set (fresh := candidate self coefficients e points now) in *.
  set (ranked := chaotic_system_finder.sort_by_lyapunov_reverse
                   (chaotic_system_finder.best_systems self ++ [fresh])) in *.
  assert (Hmember : forall s, In s ranked ->
            In s (chaotic_system_finder.best_systems self) \/ s = fresh).
  { intros s Hs. apply (Permutation_in _ Hperm) in Hs.
    apply in_app_or in Hs. destruct Hs as [Hs | [Hs | []]];
      [left; exact Hs | right; symmetry; exact Hs]. }
  destruct (chaotic_system_finder.is_system_worthy self e)
    as [[|] | err] eqn:Hworthy.
  - destruct (worthy_true self e Hworthy) as [Hthr Hroom].
    cbn [chaotic_system_finder.best_systems
         chaotic_system_finder.set_best_systems].
    pose proof (removelast_length ranked Hne) as Hrl.
    pose proof (split_last ranked fresh Hne) as Hsplit.
    rewrite Z.gtb_ltb.
    destruct (Z.ltb_spec
                (models.max_systems (chaotic_system_finder.config self))
                (Z.of_nat (length ranked))) as [Hover | Hfits].
    + split; [lia |]. split.
      * intros s Hs. apply Hmember. rewrite Hsplit.
        apply in_or_app. left. exact Hs.
      * intros least Hleast Hfull.
        destruct Hroom as [Hroom | [_ Hex]]; [lia |].
        destruct (dropped_is_least self e coefficients points now Hex)
          as [_ [Hfront [Hdropped _]]].
        fold fresh in Hfront, Hdropped. fold ranked in Hfront, Hdropped.
        eapply Forall_impl; [| exact Hfront].
        intros s Hs. eapply ele_trans; [| exact Hs].
        apply (least_exponent_below least
                 (chaotic_system_finder.best_systems self)); [exact Hleast |].
        destruct Hdropped as [Hin _]. exact Hin.
    + split; [lia |]. split; [exact Hmember |].
      intros least Hleast Hfull. lia.
  - split; [lia |]. split; [intros s Hs; left; exact Hs |].
    intros least [_ Hlow] _. exact Hlow.
  - split; [lia |]. split; [intros s Hs; left; exact Hs |].
    intros least [_ Hlow] _. exact Hlow.
Qed.

(** Inserting a system that no head outranks puts it in front. *)
Lemma insert_desc_front (x : attractor_system.AttractorSystem)
  (l : list attractor_system.AttractorSystem) :
  match l with
  | [] => True
  | y :: _ => ranked_desc x y
  end ->
  chaotic_system_finder.insert_desc x l = x :: l.
Proof.
  destruct l as [| y rest]; intro H; simpl; [reflexivity |].
  apply eltb_ele in H. rewrite H. reflexivity.
Qed.

Lemma ele_elt_trans (a b c : efloat) : ele a b -> elt b c -> elt a c.
Proof. destruct a, b, c; simpl; try tauto. lra. Qed.

Lemma filter_everything {A : Type} (p : A -> bool) (l : list A) :
  Forall (fun a => p a = true) l ->
  filter p l = l /\ filter (fun a => negb (p a)) l = [].
Proof.
  induction 1 as [| a l Ha _ [IH1 IH2]]; simpl; [split; reflexivity |].
  rewrite Ha. simpl. rewrite IH1, IH2. split; reflexivity.
Qed.

(** X15.  The ranking is stable.  A list that is already in descending
    order of exponent is left as it is, and a system appended to such a
    list is placed behind every member whose exponent is at least its
    own (ties included, in their old order) and in front of every member
    whose exponent is smaller. *)
Theorem ranking_places_newcomer_after_ties :
  forall (l : list attractor_system.AttractorSystem)
         (x : attractor_system.AttractorSystem),
    StronglySorted ranked_desc l ->
    let below y :=
      eltb (attractor_system.lyapunov y) (attractor_system.lyapunov x) in
    chaotic_system_finder.sort_by_lyapunov_reverse l = l /\
    chaotic_system_finder.sort_by_lyapunov_reverse (l ++ [x])
    = filter (fun y => negb (below y)) l ++ x :: filter below l.
Proof.
  intros l x Hsorted below.
  induction Hsorted as [| y rest Hrest [IHsame IHnew] Hy].
  - split; reflexivity.
  - assert (Hhead : match rest with
                    | [] => True
                    | z :: _ => ranked_desc y z
                    end).
    { destruct rest as [| z rest']; [exact I |].
      apply Forall_inv in Hy. exact Hy. }
    split.
    + simpl. rewrite IHsame. apply insert_desc_front. exact Hhead.
    + change (chaotic_system_finder.sort_by_lyapunov_reverse
                ((y :: rest) ++ [x]))
        with (chaotic_system_finder.insert_desc y
                (chaotic_system_finder.sort_by_lyapunov_reverse
                   (rest ++ [x]))).
      rewrite IHnew. simpl filter.
      destruct (below y) eqn:Ebelow; simpl negb; cbv iota.
      * assert (Hall : Forall (fun z => below z = true) rest).
        { eapply Forall_impl; [| exact Hy].
          intros z Hz. apply eltb_elt.
          eapply ele_elt_trans; [exact Hz |].
          apply eltb_elt. exact Ebelow. }
        destruct (filter_everything below rest Hall) as [Hkeep Hnone].
        rewrite Hkeep, Hnone. simpl.
        unfold below in Ebelow. rewrite Ebelow.
        rewrite (insert_desc_front y rest Hhead). reflexivity.
      * apply insert_desc_front.
        destruct (filter (fun z => negb (below z)) rest) as [| a front]
          eqn:Hfront; simpl.
        -- apply eltb_ele. exact Ebelow.
        -- assert (Hin : In a rest).
           { assert (Hin' : In a (filter (fun z => negb (below z)) rest))
               by (rewrite Hfront; left; reflexivity).
             apply filter_In in Hin'. tauto. }
           rewrite Forall_forall in Hy. apply Hy. exact Hin.
Qed.

(** X15 at a concrete input: a newcomer that ties with the second of
    three ranked systems goes behind it and in front of the third. *)
Lemma ranking_places_newcomer_after_ties_witness :
  chaotic_system_finder.sort_by_lyapunov_reverse
    ([system_with 0.5 "a"; system_with 0.3 "b"; system_with 0.1 "c"]
     ++ [system_with 0.3 "d"])
  = [system_with 0.5 "a"; system_with 0.3 "b"; system_with 0.3 "d";
     system_with 0.1 "c"].
Proof.
  destruct (ranking_places_newcomer_after_ties
              [system_with 0.5 "a"; system_with 0.3 "b"; system_with 0.1 "c"]
              (system_with 0.3 "d")) as [_ Hnew].
  - repeat constructor; unfold ranked_desc; simpl; lra.
  - rewrite Hnew. simpl. decide_Rltb. reflexivity.
Defined.

(** X16.  [add_system] on an empty best set.  An exponent below the
    threshold changes nothing.  An exponent at or above the threshold
    makes the new system the only member when [max_systems] is at least
    one; when [max_systems] is zero or negative the call raises
    [ValueError] (the minimum of an empty set) and changes nothing. *)
Theorem add_system_on_empty_set :
  forall (fs : storage_manager.file_system) (gfx : visualizer.backend)
         (self : chaotic_system_finder.ChaoticSystemFinder)
         (coefficients : list R) (e : efloat) (points : list (list R))
         (now : string),
    chaotic_system_finder.best_systems self = [] ->
    let threshold :=
      Finite (models.lyapunov_threshold
                (chaotic_system_finder.lyap_config self)) in
    let capacity := models.max_systems (chaotic_system_finder.config self) in
    let call :=
      chaotic_system_finder.add_system fs gfx self coefficients e points now in
    (elt e threshold -> call = (Ok tt, self)) /\
    (ele threshold e -> (1 <= capacity)%Z ->
     chaotic_system_finder.best_systems (snd call)
     = [candidate self coefficients e points now]) /\
    (ele threshold e -> (capacity <= 0)%Z ->
     call = (Raise ValueError, self)).
Proof.
  intros fs gfx self coefficients e points now Hempty threshold capacity call.
  subst call. unfold chaotic_system_finder.add_system,
    chaotic_system_finder.is_system_worthy.
  fold threshold. fold capacity. rewrite Hempty.
  change (Z.of_nat (length (@nil attractor_system.AttractorSystem)))
    with 0%Z.
  split; [| split].
  - intro Hlow. apply eltb_elt in Hlow. rewrite Hlow. reflexivity.
  - intros Hhigh Hslot. apply eltb_ele in Hhigh. rewrite Hhigh.
    replace (0 <? capacity)%Z with true by (symmetry; apply Z.ltb_lt; lia).
    cbn [snd chaotic_system_finder.best_systems
         chaotic_system_finder.set_best_systems app
         chaotic_system_finder.sort_by_lyapunov_reverse fold_right
         chaotic_system_finder.insert_desc length Z.of_nat Pos.of_succ_nat].
    replace (1 >? capacity)%Z with false
      by (symmetry; rewrite Z.gtb_ltb; apply Z.ltb_ge; lia).
    reflexivity.
  - intros Hhigh Hnone. apply eltb_ele in Hhigh. rewrite Hhigh.
    replace (0 <? capacity)%Z with false by (symmetry; apply Z.ltb_ge; lia).
    reflexivity.
Qed.

(** X16 at a concrete input: an empty best set with room for two
    systems and the exponent 0.4. *)
Lemma add_system_on_empty_set_witness :
  chaotic_system_finder.best_systems
    (snd (chaotic_system_finder.add_system fresh_file_system drawing_backend
            (finder_with two_systems_config []) [] (Finite 0.4) []
            "20250101_000002"))
  = [candidate (finder_with two_systems_config []) [] (Finite 0.4) []
       "20250101_000002"].
Proof.
  destruct (add_system_on_empty_set fresh_file_system drawing_backend
              (finder_with two_systems_config []) [] (Finite 0.4) []
              "20250101_000002" eq_refl) as [_ [Hone _]].
  apply Hone.
  - simpl. lra.
  - simpl. lia.
Defined.

Lemma full_finder_worthy :
  chaotic_system_finder.is_system_worthy full_finder (Finite 0.4) = Ok true.
Proof.
  unfold chaotic_system_finder.is_system_worthy, egtb. simpl.
  decide_Rltb. simpl. decide_Rltb. reflexivity.
Qed.

(** X17.  [add_system] does not roll back.  For a worthy system the
    best set in memory contains the new system after the call, whatever
    saving and plotting do, and is the same whatever they do.  An error
    of saving is raised as the error of the call, without the plot
    being attempted; after a successful save an error of plotting is
    raised; the call returns when both succeed. *)
Theorem add_system_failure_keeps_update :
  forall (fs : storage_manager.file_system) (gfx : visualizer.backend)
         (self : chaotic_system_finder.ChaoticSystemFinder)
         (coefficients : list R) (e : efloat) (points : list (list R))
         (now : string),
    chaotic_system_finder.is_system_worthy self e = Ok true ->
    let fresh := candidate self coefficients e points now in
    let call :=
      chaotic_system_finder.add_system fs gfx self coefficients e points now in
    let after := chaotic_system_finder.best_systems (snd call) in
    let file :=
      storage_manager.systems_file
        (chaotic_system_finder.storage_manager_ self) in
    In fresh after /\
    (forall fs' gfx',
        snd (chaotic_system_finder.add_system fs' gfx' self coefficients e
               points now) = snd call) /\
    (forall err, storage_manager.save fs file after = Some err ->
                 fst call = Raise err) /\
    (forall err, storage_manager.save fs file after = None ->
                 visualizer.render gfx fresh = Some err ->
                 fst call = Raise err) /\
    (storage_manager.save fs file after = None ->
     visualizer.render gfx fresh = None -> fst call = Ok tt).
Proof.
  intros fs gfx self coefficients e points now Hworthy fresh call after file.
  assert (Hin : In fresh after).
  { subst after call. rewrite add_system_state, Hworthy.
    cbn [chaotic_system_finder.best_systems
         chaotic_system_finder.set_best_systems].
    pose proof (ranked_length self e coefficients points now) as Hlen.
    fold fresh in Hlen. fold fresh.
    destruct (worthy_true self e Hworthy) as [_ [Hroom | [Hfull Hex]]].
    - replace (_ >? _)%Z with false
        by (symmetry; rewrite Z.gtb_ltb; apply Z.ltb_ge; lia).
      apply (Permutation_in _
               (Permutation_sym (sort_permutation _))).
      apply in_or_app. right. left. reflexivity.
    - replace (_ >? _)%Z with true
        by (symmetry; rewrite Z.gtb_ltb; apply Z.ltb_lt; lia).
      destruct (dropped_is_least self e coefficients points now Hex)
        as [_ [_ [_ Hstays]]].
      exact Hstays. }
  split; [exact Hin |].
  split.
  { intros fs' gfx'. subst call. rewrite !add_system_state. reflexivity. }
  subst after call file fresh.
  unfold chaotic_system_finder.add_system. rewrite Hworthy.
  cbn [fst snd chaotic_system_finder.best_systems
       chaotic_system_finder.set_best_systems
       chaotic_system_finder.storage_manager_
       chaotic_system_finder.visualizer_].
  unfold storage_manager.save_systems, visualizer.plot_system, candidate.
  split; [| split].
  - intros err Hsave. rewrite Hsave. reflexivity.
  - intros err Hsave Hplot. rewrite Hsave. simpl. rewrite Hplot. reflexivity.
  - intros Hsave Hplot. rewrite Hsave. simpl. rewrite Hplot. reflexivity.
Qed.

(** X17 at a concrete input: the full set of the scenario on a
    read-only file system. *)
Lemma add_system_failure_keeps_update_witness :
  chaotic_system_finder.is_system_worthy full_finder (Finite 0.4) = Ok true /\
  In (candidate full_finder [] (Finite 0.4) [] "20250101_000002")
     (chaotic_system_finder.best_systems
        (snd (chaotic_system_finder.add_system read_only_file_system
                drawing_backend full_finder [] (Finite 0.4) []
                "20250101_000002"))) /\
  fst (chaotic_system_finder.add_system read_only_file_system
         drawing_backend full_finder [] (Finite 0.4) [] "20250101_000002")
  = Raise (OSError "PermissionError").
Proof.
  split; [exact full_finder_worthy |].
  destruct (add_system_failure_keeps_update read_only_file_system
              drawing_backend full_finder [] (Finite 0.4) []
              "20250101_000002" full_finder_worthy)
    as [Hin [_ [Hsave _]]].
  split; [exact Hin |].
  apply Hsave. reflexivity.
Defined.

(* ================================================================= *)
(** ** The estimator over a float arithmetic (calculate)              *)
(* ================================================================= *)

Lemma squared_differences_combine {F : Type} (a : floats.arithmetic F)
  (x y : list F) :
  squared_differences a x y
  = list_comp (fun '(r, p) => floats.fpow2 a (floats.fsub a r p))
              (combine x y).
Proof.
  revert y. induction x as [| xi x IH]; intros [| yi y];
    cbn [squared_differences combine list_comp]; try reflexivity.
  rewrite IH. reflexivity.
Qed.

(** The separation the code computes is the Euclidean separation of the
    specification. *)
Lemma separation_of_euclidean {F : Type} (a : floats.arithmetic F)
  (x y : list F) :
  floats.separation_of a x y = euclidean_separation a x y.
Proof.
  unfold floats.separation_of, euclidean_separation.
  rewrite squared_differences_combine. reflexivity.
Qed.

Lemma skipn_head {A : Type} (l : list A) (k : nat) (x : A) (rest : list A) :
  skipn k l = x :: rest -> nth_error l k = Some x /\ skipn (S k) l = rest.
Proof.
  revert l. induction k as [| k IH]; intros [| y l] H; simpl in H;
    try discriminate.
  - injection H as Hx Hrest. subst. split; reflexivity.
  - apply IH. exact H.
Qed.

Lemma nth_error_combine {A B : Type} (l1 : list A) (l2 : list B) (k : nat)
  (x : A) (y : B) :
  nth_error (combine l1 l2) k = Some (x, y) ->
  nth_error l1 k = Some x /\ nth_error l2 k = Some y.
Proof.
  revert l1 l2. induction k as [| k IH]; intros [| a1 l1] [| b1 l2] H;
    simpl in H; try discriminate.
  - injection H as Hx Hy. subst. split; reflexivity.
  - apply IH. exact H.
Qed.

Lemma getitem_nth_error {A : Type} (l : list A) (k : nat) (x : A) :
  nth_error l k = Some x -> getitem l (Z.of_nat k) = Ok x.
Proof.
  intro H.
  assert (Hk : (k < length l)%nat) by (apply nth_error_Some; congruence).
  unfold getitem.
  replace (Z.of_nat k <? 0)%Z with false by (symmetry; apply Z.ltb_ge; lia).
  replace (0 <=? Z.of_nat k)%Z with true by (symmetry; apply Z.leb_le; lia).
  replace (Z.of_nat k <? Z.of_nat (length l))%Z with true
    by (symmetry; apply Z.ltb_lt; lia).
  cbn [andb]. rewrite Nat2Z.id, H. reflexivity.
Qed.

Section Refinement.

Context {F : Type} (a : floats.arithmetic F).
Variable self : floats.LyapunovCalculator F.
Variables reference_traj perturbed_traj : list (list F).

(** One pass of the loop body at an index both trajectories have. *)
Lemma calculate_body_at_pair (acc : floats.accumulators F) (k : nat)
  (r p : list F) :
  nth_error (combine reference_traj perturbed_traj) k = Some (r, p) ->
  floats.calculate_body a self reference_traj perturbed_traj acc (Z.of_nat k)
  = (s <- euclidean_separation a r p ;;
     if in_range a self s then
       l <- log_ratio a self s ;;
       Ok {| floats.lyap_sum := floats.fadd a (floats.lyap_sum acc) l;
             floats.valid_points := (floats.valid_points acc + 1)%Z |}
     else Ok acc).
Proof.
  intro H. apply nth_error_combine in H. destruct H as [Hr Hp].
  unfold floats.calculate_body.
  rewrite (getitem_nth_error _ _ _ Hr), (getitem_nth_error _ _ _ Hp).
  cbn [bind]. rewrite separation_of_euclidean.
  destruct (euclidean_separation a r p) as [s | e]; cbn [bind];
    [| reflexivity].
  unfold in_range, log_ratio.
  destruct (_ && _); [| reflexivity].
  destruct (floats.fdiv a s _); reflexivity.
Qed.

(** The loop over the indices of a suffix of the paired trajectories:
    it raises when a separation or a logarithm of the estimate raises,
    and otherwise adds the logarithms, left to right, and counts
    them. *)
Lemma calculate_loop_estimate (suffix : list (list F * list F)) :
  forall (k : nat) (acc : floats.accumulators F),
    skipn k (combine reference_traj perturbed_traj) = suffix ->
    match list_comp (fun '(r, p) => euclidean_separation a r p) suffix with
    | Raise _ =>
        exists e,
          for_loop (floats.calculate_body a self reference_traj
                      perturbed_traj)
                   (map Z.of_nat (seq k (length suffix))) acc = Raise e
    | Ok separations =>
        match list_comp (log_ratio a self)
                        (filter (in_range a self) separations) with
        | Raise _ =>
            exists e,
              for_loop (floats.calculate_body a self reference_traj
                          perturbed_traj)
                       (map Z.of_nat (seq k (length suffix))) acc = Raise e
        | Ok logs =>
            for_loop (floats.calculate_body a self reference_traj
                        perturbed_traj)
                     (map Z.of_nat (seq k (length suffix))) acc
            = Ok {| floats.lyap_sum :=
                      fold_left (floats.fadd a) logs (floats.lyap_sum acc);
                    floats.valid_points :=
                      (floats.valid_points acc
                       + Z.of_nat (length (filter (in_range a self)
                                                  separations)))%Z |}
        end
    end.
Proof.
  induction suffix as [| [r p] rest IH]; intros k acc Hskip.
  - cbn. destruct acc as [s v]. cbn. rewrite Z.add_0_r. reflexivity.
  - apply skipn_head in Hskip. destruct Hskip as [Hnth Hrest].
    cbn [length seq map for_loop list_comp].
    rewrite (calculate_body_at_pair acc k r p Hnth).
    destruct (euclidean_separation a r p) as [s | e]; cbn [bind];
      [| exists e; reflexivity].
    destruct (in_range a self s) eqn:Hin.
    + destruct (log_ratio a self s) as [l | e] eqn:Hlog; cbn [bind].
      * specialize (IH (S k)
                       {| floats.lyap_sum :=
                            floats.fadd a (floats.lyap_sum acc) l;
                          floats.valid_points :=
                            (floats.valid_points acc + 1)%Z |} Hrest).
        destruct (list_comp _ rest) as [separations | e]; cbn [bind];
          [| exact IH].
        cbn [filter]. rewrite Hin. cbn [list_comp]. rewrite Hlog.
        cbn [bind].
        destruct (list_comp (log_ratio a self) _) as [logs | e];
          cbn [bind]; [| exact IH].
        rewrite IH.
        cbn [fold_left length floats.lyap_sum floats.valid_points].
        f_equal. f_equal. lia.
      * destruct (list_comp _ rest) as [separations | e0]; cbn [bind];
          [| exists e; reflexivity].
        cbn [filter]. rewrite Hin. cbn [list_comp]. rewrite Hlog.
        cbn [bind]. exists e. reflexivity.
    + specialize (IH (S k) acc Hrest).
      destruct (list_comp _ rest) as [separations | e]; cbn [bind];
        [| exact IH].
      cbn [filter]. rewrite Hin. exact IH.
Qed.

End Refinement.

(** The real-number reading of the modules above is the [exact]
    arithmetic. *)
Lemma separation_of_exact (x y : list R) :
  floats.separation_of floats.exact x y
  = Ok (lyapunov_calculator.separation_of x y).
Proof.
  unfold floats.separation_of, lyapunov_calculator.separation_of.
  assert (H : forall l : list (R * R),
            list_comp (fun '(r, p) =>
                         floats.fpow2 floats.exact
                           (floats.fsub floats.exact r p)) l
            = Ok (map (fun '(r, p) => (r - p) ^ 2) l)).
  { induction l as [| [r p] l IH]; cbn [list_comp map]; [reflexivity |].
    rewrite IH. reflexivity. }
  rewrite H. reflexivity.
Qed.

Lemma calculate_body_exact (self : lyapunov_calculator.LyapunovCalculator)
  (reference_traj perturbed_traj : list (list R))
  (acc : lyapunov_calculator.accumulators) (i : Z) :
  floats.calculate_body floats.exact (calculator_of self) reference_traj
    perturbed_traj (accumulators_of acc) i
  = match lyapunov_calculator.calculate_body self reference_traj
            perturbed_traj acc i with
    | Ok acc' => Ok (accumulators_of acc')
    | Raise e => Raise e
    end.
Proof.
  unfold floats.calculate_body, lyapunov_calculator.calculate_body.
  destruct (getitem reference_traj i) as [r |]; cbn [bind]; [| reflexivity].
  destruct (getitem perturbed_traj i) as [p |]; cbn [bind]; [| reflexivity].
  rewrite separation_of_exact. cbn [bind]. unfold Rgtb.
  cbn [floats.fltb floats.fzero floats.exact floats.extreme_threshold
       calculator_of].
  destruct (_ && _); [| reflexivity].
  cbn [floats.fdiv floats.flog floats.fadd floats.exact
       floats.lyap_norm_dist calculator_of].
  destruct (truediv _ _) as [q |]; cbn [bind]; [| reflexivity].
  destruct (math_log q); reflexivity.
Qed.

Lemma calculate_exact (self : lyapunov_calculator.LyapunovCalculator)
  (reference_traj perturbed_traj : list (list R)) :
  floats.calculate floats.exact (calculator_of self) reference_traj
    perturbed_traj
  = match lyapunov_calculator.calculate self reference_traj
            perturbed_traj with
    | Ok e => Ok (exponent_of e)
    | Raise x => Raise x
    end.
Proof.
  unfold floats.calculate, lyapunov_calculator.calculate.
  cbn [floats.lyap_skip_steps calculator_of].
  generalize (py_range2
                (Z.min (lyapunov_calculator.lyap_skip_steps self)
                       (Z.of_nat (length reference_traj) / 4))
                (Z.of_nat (length reference_traj))).
  intro indices.
  change {| floats.lyap_sum := floats.fzero floats.exact;
            floats.valid_points := 0 |}
    with (accumulators_of {| lyapunov_calculator.lyap_sum := 0;
                             lyapunov_calculator.valid_points := 0 |}).
  generalize {| lyapunov_calculator.lyap_sum := 0;
                lyapunov_calculator.valid_points := 0 |}.
  induction indices as [| i rest IH]; intro acc; cbn [for_loop].
  - cbn [bind accumulators_of floats.valid_points floats.lyap_sum].
    destruct (lyapunov_calculator.valid_points acc =? 0)%Z; [reflexivity |].
    cbn [floats.fdiv_int floats.exact floats.lyap_renorm_steps calculator_of].
    destruct (truediv _ _); reflexivity.
  - rewrite calculate_body_exact.
    destruct (lyapunov_calculator.calculate_body _ _ _ acc i) as [acc' |];
      cbn [bind]; [apply IH | reflexivity].
Qed.

Lemma euclidean_separation_single (x y : R) :
  euclidean_separation floats.exact [x] [y] = Ok (Rabs (x - y)).
Proof.
  rewrite <- separation_of_euclidean, separation_of_exact.
  rewrite separation_single. reflexivity.
Qed.

(** C6, the claim at concrete inputs, in double precision and with the
    default settings.  The origin and the double nearest to 1e-200 are
    two points whose Euclidean separation lies strictly between 0 and
    the extreme threshold: the estimate of the claim is
    [ln(1e-200 / 1e-8) / 10], but the square of the difference
    underflows, the computed separation is 0.0 and [calculate] returns
    the sentinel.  The double nearest to 1e200 and the origin are farther
    apart than the extreme threshold: the estimate of the claim is the
    sentinel, but the square of the difference overflows and
    [calculate] raises OverflowError.  Both hold whatever the C
    library's logarithm is. *)
Lemma calculate_binary64_range :
  (forall libm_log,
      floats.calculate (floats.binary64 libm_log) binary64_calculator
        binary64_origin binary64_tiny = Ok floats.MinusInfinity) /\
  spec_estimate floats.exact (calculator_of default_calculator)
    [[0]] [[1e-200]]
  = Ok (floats.Value (ln (1e-200 / 1e-8) / 10)) /\
  (forall libm_log,
      floats.calculate (floats.binary64 libm_log) binary64_calculator
        binary64_huge binary64_origin = Raise OverflowError) /\
  spec_estimate floats.exact (calculator_of default_calculator)
    [[1e200]] [[0]]
  = Ok floats.MinusInfinity.
Proof.
  split; [intro libm_log; vm_compute; reflexivity |].
  split; [| split; [intro libm_log; vm_compute; reflexivity |]].
  - unfold spec_estimate.
    change (Z.to_nat _) with 0%nat. cbn [skipn combine list_comp].
    rewrite euclidean_separation_single. cbn [bind].
    replace (Rabs (0 - 1e-200)) with 1e-200
      by (unfold Rabs; destruct (Rcase_abs _); lra).
    unfold in_range. cbn [filter floats.fltb floats.fzero floats.exact
                          floats.extreme_threshold calculator_of
                          default_calculator lyapunov_calculator.__init__
                          lyapunov_calculator.extreme_threshold
                          models.extreme_threshold models.default_LyapConfig].
    replace (Rltb 0 1e-200) with true by (symmetry; apply Rltb_lt; lra).
    replace (Rltb 1e-200 1e10) with true by (symmetry; apply Rltb_lt; lra).
    cbn [andb list_comp]. unfold log_ratio.
    cbn [floats.fdiv floats.flog floats.exact floats.lyap_norm_dist
         calculator_of default_calculator lyapunov_calculator.__init__
         lyapunov_calculator.lyap_norm_dist models.initial_distance
         models.default_LyapConfig].
    rewrite truediv_nonzero by lra. cbn [bind].
    rewrite math_log_pos by lra. cbn [bind fold_left length].
    cbn [floats.fdiv_int floats.fadd floats.fzero floats.exact
         floats.lyap_renorm_steps calculator_of default_calculator
         lyapunov_calculator.__init__ lyapunov_calculator.lyap_renorm_steps
         models.renorm_steps models.default_LyapConfig].
    change (Z.of_nat 1 * 10)%Z with 10%Z.
    rewrite truediv_nonzero by lra. cbn [bind]. f_equal. f_equal. lra.
  - unfold spec_estimate.
    change (Z.to_nat _) with 0%nat. cbn [skipn combine list_comp].
    rewrite euclidean_separation_single. cbn [bind].
    replace (Rabs (1e200 - 0)) with 1e200
      by (unfold Rabs; destruct (Rcase_abs _); lra).
    unfold in_range. cbn [filter floats.fltb floats.fzero floats.exact
                          floats.extreme_threshold calculator_of
                          default_calculator lyapunov_calculator.__init__
                          lyapunov_calculator.extreme_threshold
                          models.extreme_threshold models.default_LyapConfig].
    replace (Rltb 1e200 1e10) with false by (symmetry; apply Rltb_ge; lra).
    rewrite andb_false_r. reflexivity.
Qed.

(** C6, amended: for every float arithmetic, every calculator with
    [0 <= transient_skip_steps] and every pair of trajectories of equal
    length, [calculate] returns a value exactly when the estimate of
    section 4.4, computed in that arithmetic, is defined, and then it
    returns that estimate: from [skip = min(transient_skip_steps,
    length // 4)] on, the logarithms [ln(s_i / initial_distance)] are
    added up for exactly the indices whose computed separation [s_i]
    satisfies [0 < s_i < extreme_threshold]; the result is the sentinel
    when no index qualifies and otherwise the sum divided by the number
    of qualifying indices times [renorm_steps]. *)
Theorem calculate_refines_estimate :
  forall (F : Type) (a : floats.arithmetic F)
         (self : floats.LyapunovCalculator F)
         (reference_traj perturbed_traj : list (list F)),
    (0 <= floats.lyap_skip_steps self)%Z ->
    length perturbed_traj = length reference_traj ->
    forall v,
      floats.calculate a self reference_traj perturbed_traj = Ok v
      <-> spec_estimate a self reference_traj perturbed_traj = Ok v.
Proof.
  intros F a self reference_traj perturbed_traj Hskip Hlen v.
  unfold floats.calculate, spec_estimate.
  set (n := length reference_traj).
  assert (Hq : (0 <= Z.of_nat n / 4 <= Z.of_nat n)%Z).
  { split; [apply Z.div_pos; lia | apply Z.div_le_upper_bound; lia]. }
  remember (Z.min (floats.lyap_skip_steps self) (Z.of_nat n / 4))
    as start eqn:Hstart.
  assert (Hs : start = Z.of_nat (Z.to_nat start)) by lia.
  assert (Hsn : (Z.to_nat start <= n)%nat) by lia.
  rewrite Hs at 1. rewrite py_range2_nat.
  pose proof (calculate_loop_estimate a self reference_traj perturbed_traj
                (skipn (Z.to_nat start)
                       (combine reference_traj perturbed_traj))
                (Z.to_nat start)
                {| floats.lyap_sum := floats.fzero a;
                   floats.valid_points := 0 |} eq_refl) as Hloop.
  rewrite length_skipn, length_combine, Hlen, Nat.min_id in Hloop.
  fold n in Hloop.
  destruct (list_comp _ (skipn _ _)) as [separations | e]; cbn [bind].
  2:{ destruct Hloop as [e' Hloop]. rewrite Hloop. cbn [bind].
      split; intro H; discriminate. }
  destruct (list_comp (log_ratio a self) _) as [logs | e]; cbn [bind].
  2:{ destruct Hloop as [e' Hloop]. rewrite Hloop. cbn [bind].
      split; intro H; discriminate. }
  rewrite Hloop. cbn [bind floats.lyap_sum floats.valid_points].
  rewrite Z.add_0_l.
  destruct (filter (in_range a self) separations) as [| s valid].
  - cbn [length Z.of_nat]. rewrite Z.eqb_refl. reflexivity.
  - replace (Z.of_nat (length (s :: valid)) =? 0)%Z with false
      by (symmetry; apply Z.eqb_neq; cbn [length]; lia).
    reflexivity.
Qed.

(** C6 at a concrete input: the exact arithmetic, the default calculator
    and the demonstration pair of one-point trajectories, twice the
    initial distance apart. *)
Lemma calculate_refines_estimate_witness :
  spec_estimate floats.exact (calculator_of default_calculator)
    demo_reference demo_perturbed
  = Ok (floats.Value (ln 2 / 10)).
Proof.
  apply (calculate_refines_estimate R floats.exact
           (calculator_of default_calculator) demo_reference demo_perturbed).
  - simpl. lia.
  - reflexivity.
  - rewrite calculate_exact, demo_calculate. reflexivity.
Defined.

(* ================================================================= *)
(** ** The clamp over a float arithmetic (normalize_point)            *)
(* ================================================================= *)

(** The real-number reading of [normalize_point] is the [exact]
    arithmetic. *)
Lemma normalize_point_exact (self : trajectory_simulator.TrajectorySimulator)
  (point : list R) :
  floats.normalize_point floats.exact
    (trajectory_simulator.max_density self) point
  = trajectory_simulator.normalize_point self point.
Proof. reflexivity. Qed.

Lemma close_lower (u e c : R) : close u e c -> 0 <= e -> (1 - u) * e <= c.
Proof.
  unfold close. intros H He. rewrite (Rabs_pos_eq e He) in H.
  unfold Rabs in H. destruct (Rcase_abs (c - e)); lra.
Qed.

Lemma close_upper (u e c : R) : close u e c -> 0 <= e -> c <= (1 + u) * e.
Proof.
  unfold close. intros H He. rewrite (Rabs_pos_eq e He) in H.
  unfold Rabs in H. destruct (Rcase_abs (c - e)); lra.
Qed.

Lemma close_abs_upper (u e c : R) :
  close u e c -> Rabs c <= (1 + u) * Rabs e.
Proof.
  unfold close. intro H.
  replace c with (e + (c - e)) at 1 by lra.
  pose proof (Rabs_triang e (c - e)). lra.
Qed.

Lemma close_abs_lower (u e c : R) :
  close u e c -> (1 - u) * Rabs e <= Rabs c.
Proof.
  unfold close. intro H.
  pose proof (Rabs_triang c (e - c)) as Ht.
  replace (c + (e - c)) with e in Ht by lra.
  rewrite (Rabs_minus_sym e c) in Ht. lra.
Qed.

Lemma py_sum_map_le {A : Type} (f g : A -> R) (l : list A) :
  Forall (fun x => f x <= g x) l -> py_sum (map f l) <= py_sum (map g l).
Proof.
  induction 1 as [| x l Hx _ IH]; cbn [map].
  - lra.
  - rewrite !py_sum_cons. lra.
Qed.

Lemma py_sum_map_scale {A : Type} (c : R) (f : A -> R) (l : list A) :
  py_sum (map (fun x => c * f x) l) = c * py_sum (map f l).
Proof.
  induction l as [| x l IH]; cbn [map].
  - rewrite py_sum_nil. lra.
  - rewrite !py_sum_cons, IH. lra.
Qed.

(** The norm grows with the absolute values of the coordinates. *)
Lemma magnitude_le (xs ys : list R) :
  Forall2 (fun x y => Rabs x <= Rabs y) xs ys ->
  magnitude_of xs <= magnitude_of ys.
Proof.
  intro H. unfold magnitude_of. apply sqrt_le_1_alt.
  induction H as [| x y xs ys Hxy _ IH]; cbn [map].
  - lra.
  - rewrite !py_sum_cons.
    apply Rsqr_le_abs_1 in Hxy. unfold Rsqr in Hxy. lra.
Qed.

Lemma sqrt_above_unit (t : R) : 0 <= t <= 1 -> t <= sqrt t.
Proof.
  intros [H0 H1].
  assert (Hs : 0 <= sqrt t) by apply sqrt_pos.
  assert (Hsq : sqrt t * sqrt t = t) by (apply sqrt_sqrt; exact H0).
  assert (Hle : sqrt t <= 1).
  { rewrite <- sqrt_1. apply sqrt_le_1_alt. exact H1. }
  nra.
Qed.

Lemma sqrt_below_unit (t : R) : 1 <= t -> sqrt t <= t.
Proof.
  intro H1.
  assert (Hsq : sqrt t * sqrt t = t) by (apply sqrt_sqrt; lra).
  assert (Hge : 1 <= sqrt t).
  { rewrite <- sqrt_1. apply sqrt_le_1_alt. exact H1. }
  nra.
Qed.

Lemma pow_unit_interval (x : R) (n : nat) : 0 <= x <= 1 -> 0 <= x ^ n <= 1.
Proof.
  intros [H0 H1]. split; [apply pow_le; exact H0 |].
  induction n as [| n IH]; simpl; [lra |].
  assert (0 <= x ^ n) by (apply pow_le; exact H0). nra.
Qed.

Section Tolerance.

Variable a : floats.arithmetic R.
Variables u M : R.
Variable point : list R.
Hypothesis unit_roundoff : 0 <= u < 1.
Hypothesis rounding : rounds_within u a M point.

Let n : nat := length point.
Let norm : R := magnitude_of point.
Let computed : R := floats.magnitude_of a point.

(** The norm the code computes is the norm, up to [n + 2] roundings. *)
Lemma computed_magnitude_bounds :
  (1 - u) ^ (n + 2) * norm <= computed <= (1 + u) ^ (n + 2) * norm.
Proof.
  destruct rounding as [Hsq [Hsum [Hroot _]]].
  set (squares := map (fun x => floats.fmul a x x) point) in *.
  set (total := floats.fsum a squares) in *.
  set (S := py_sum (map (fun x => x * x) point)).
  assert (HS : 0 <= S) by apply sum_squares_nonneg.
  assert (Hlow : (1 - u) * S <= py_sum squares).
  { unfold S. rewrite <- py_sum_map_scale. apply py_sum_map_le.
    eapply Forall_impl; [| exact Hsq].
    intros x Hx. apply close_lower; [exact Hx | nra]. }
  assert (Hhigh : py_sum squares <= (1 + u) * S).
  { unfold S. rewrite <- py_sum_map_scale. apply py_sum_map_le.
    eapply Forall_impl; [| exact Hsq].
    intros x Hx. apply close_upper; [exact Hx | nra]. }
  fold n in Hsum.
  assert (Hd : 0 <= (1 - u) ^ n <= 1) by (apply pow_unit_interval; lra).
  assert (Hd1 : 0 <= (1 - u) ^ (n + 1) <= 1)
    by (apply pow_unit_interval; lra).
  assert (Hu : 1 <= (1 + u) ^ n) by (apply pow_R1_Rle; lra).
  assert (Hu1 : 1 <= (1 + u) ^ (n + 1)) by (apply pow_R1_Rle; lra).
  assert (Htot_low : (1 - u) ^ (n + 1) * S <= total).
  { replace (n + 1)%nat with (Datatypes.S n) by lia. simpl pow.
    destruct Hsum as [Hsum _].
    apply Rle_trans with ((1 - u) ^ n * py_sum squares); [| exact Hsum].
    replace ((1 - u) * (1 - u) ^ n * S) with ((1 - u) ^ n * ((1 - u) * S))
      by lra.
    apply Rmult_le_compat_l; [lra | exact Hlow]. }
  assert (Htot_high : total <= (1 + u) ^ (n + 1) * S).
  { replace (n + 1)%nat with (Datatypes.S n) by lia. simpl pow.
    destruct Hsum as [_ Hsum].
    apply Rle_trans with ((1 + u) ^ n * py_sum squares); [exact Hsum |].
    replace ((1 + u) * (1 + u) ^ n * S) with ((1 + u) ^ n * ((1 + u) * S))
      by lra.
    apply Rmult_le_compat_l; [lra | exact Hhigh]. }
  assert (Hnorm : norm = sqrt S) by reflexivity.
  assert (Hn0 : 0 <= norm) by apply magnitude_nonneg.
  assert (Hroot_low : (1 - u) ^ (n + 1) * norm <= sqrt total).
  { apply Rle_trans with (sqrt ((1 - u) ^ (n + 1) * S)).
    - rewrite sqrt_mult_alt by lra. rewrite <- Hnorm.
      apply Rmult_le_compat_r; [exact Hn0 |].
      apply sqrt_above_unit. exact Hd1.
    - apply sqrt_le_1_alt. exact Htot_low. }
  assert (Hroot_high : sqrt total <= (1 + u) ^ (n + 1) * norm).
  { apply Rle_trans with (sqrt ((1 + u) ^ (n + 1) * S)).
    - apply sqrt_le_1_alt. exact Htot_high.
    - rewrite sqrt_mult_alt by lra. rewrite <- Hnorm.
      apply Rmult_le_compat_r; [exact Hn0 |].
      apply sqrt_below_unit. exact Hu1. }
  assert (Hst : 0 <= sqrt total) by apply sqrt_pos.
  change computed with (floats.fsqrt a total).
  replace (n + 2)%nat with (Datatypes.S (n + 1)) by lia. simpl pow.
  split.
  - apply Rle_trans with ((1 - u) * sqrt total).
    + rewrite Rmult_assoc. apply Rmult_le_compat_l; [lra | exact Hroot_low].
    + apply close_lower; [exact Hroot | exact Hst].
  - apply Rle_trans with ((1 + u) * sqrt total).
    + apply close_upper; [exact Hroot | exact Hst].
    + rewrite Rmult_assoc. apply Rmult_le_compat_l; [lra | exact Hroot_high].
Qed.

End Tolerance.

Lemma Forall2_with {A B : Type} (P : A -> Prop) (R Q : A -> B -> Prop)
  (l : list A) (l' : list B) :
  Forall P l -> Forall2 R l l' ->
  (forall x y, P x -> R x y -> Q x y) -> Forall2 Q l l'.
Proof.
  intros HP HR Himp. induction HR as [| x y l l' Hxy _ IH].
  - constructor.
  - inversion HP as [| ? ? Hx Hl]; subst.
    constructor; [apply Himp; assumption | apply IH; exact Hl].
Qed.

Lemma magnitude_scaled_above (c : R) (xs ys : list R) :
  Forall2 (fun x y => Rabs y <= Rabs (x * c)) xs ys ->
  magnitude_of ys <= Rabs c * magnitude_of xs.
Proof.
  intro H. rewrite <- magnitude_scale. apply magnitude_le.
  unfold scale_point. induction H as [| x y xs ys Hxy _ IH]; cbn [map];
    constructor; assumption.
Qed.

Lemma magnitude_scaled_below (c : R) (xs ys : list R) :
  Forall2 (fun x y => Rabs (x * c) <= Rabs y) xs ys ->
  Rabs c * magnitude_of xs <= magnitude_of ys.
Proof.
  intro H. rewrite <- magnitude_scale. apply magnitude_le.
  unfold scale_point. induction H as [| x y xs ys Hxy _ IH]; cbn [map];
    constructor; assumption.
Qed.

(** One coordinate of a rescaled point: the product with the bound and
    the division by the computed norm are two roundings away from the
    exact quotient. *)
Lemma rescaled_coordinate (u M m x p y : R) :
  0 <= u < 1 -> 0 <= M -> 0 < m ->
  close u (x * M) p -> close u (p / m) y ->
  Rabs y <= Rabs (x * ((1 + u) ^ 2 * (M / m))) /\
  Rabs (x * ((1 - u) ^ 2 * (M / m))) <= Rabs y.
Proof.
  intros Hu HM Hm Hp Hy.
  assert (Hk : 0 < / m) by (apply Rinv_0_lt_compat; exact Hm).
  assert (Ht : 0 <= M / m) by (apply Rmult_le_pos; lra).
  pose proof (close_abs_upper _ _ _ Hp) as Hp1.
  pose proof (close_abs_lower _ _ _ Hp) as Hp2.
  pose proof (close_abs_upper _ _ _ Hy) as Hy1.
  pose proof (close_abs_lower _ _ _ Hy) as Hy2.
  assert (Hq : Rabs (p / m) = Rabs p * / m).
  { unfold Rdiv. rewrite Rabs_mult, (Rabs_pos_eq (/ m)) by lra. reflexivity. }
  assert (Hx : Rabs (x * M) = Rabs x * M).
  { rewrite Rabs_mult, (Rabs_pos_eq M) by exact HM. reflexivity. }
  rewrite Hq in Hy1, Hy2. rewrite Hx in Hp1, Hp2.
  assert (Ha : 0 <= Rabs x) by apply Rabs_pos.
  assert (Hup : Rabs x * ((1 + u) ^ 2 * (M / m))
                = (1 + u) * ((1 + u) * (Rabs x * M) * / m))
    by (unfold Rdiv; ring).
  assert (Hdn : Rabs x * ((1 - u) ^ 2 * (M / m))
                = (1 - u) * ((1 - u) * (Rabs x * M) * / m))
    by (unfold Rdiv; ring).
  assert (Hcu : 0 <= (1 + u) ^ 2 * (M / m)).
  { apply Rmult_le_pos; [apply pow_le; lra | exact Ht]. }
  assert (Hcl : 0 <= (1 - u) ^ 2 * (M / m)).
  { apply Rmult_le_pos; [apply pow_le; lra | exact Ht]. }
  rewrite (Rabs_mult x ((1 + u) ^ 2 * (M / m))), (Rabs_pos_eq _ Hcu), Hup.
  rewrite (Rabs_mult x ((1 - u) ^ 2 * (M / m))), (Rabs_pos_eq _ Hcl), Hdn.
  split.
  - apply Rle_trans with ((1 + u) * (Rabs p * / m)); [exact Hy1 |].
    apply Rmult_le_compat_l; [lra |].
    apply Rmult_le_compat_r; [lra | exact Hp1].
  - apply Rle_trans with ((1 - u) * (Rabs p * / m)); [| exact Hy2].
    apply Rmult_le_compat_l; [lra |].
    apply Rmult_le_compat_r; [lra | exact Hp2].
Qed.

(** The exact arithmetic rounds within 0. *)
Lemma close_exact (x : R) : close 0 x x.
Proof.
  unfold close. replace (x - x) with 0 by lra. rewrite Rabs_R0. lra.
Qed.

Lemma exact_real_floats : real_floats floats.exact.
Proof.
  split; [reflexivity |].
  intros x y Hy. exists (x / y). apply truediv_nonzero. exact Hy.
Qed.

Lemma exact_rounds_within (M : R) (point : list R) :
  rounds_within 0 floats.exact M point.
Proof.
  unfold rounds_within. cbn [floats.fmul floats.fsum floats.fsqrt
                             floats.fdiv floats.exact].
  split; [apply Forall_forall; intros; apply close_exact |].
  split; [rewrite Rminus_0_r, Rplus_0_r, pow1; lra |].
  split; [apply close_exact |].
  apply Forall_forall. intros x _. split; [apply close_exact |].
  intros q Hq. unfold truediv in Hq.
  destruct (Req_dec_T _ 0); [discriminate |].
  injection Hq as Hq. subst q. apply close_exact.
Qed.

Lemma py_sum_nonneg (l : list R) : Forall (fun x => 0 <= x) l -> 0 <= py_sum l.
Proof.
  induction 1 as [| x l Hx _ IH]; [rewrite py_sum_nil; lra |].
  rewrite py_sum_cons. lra.
Qed.

(** Adding [n] non-negative numbers from left to right, each addition
    rounded within [u]. *)
Lemma rounded_sum_bounds (u : R) (rnd : R -> R) (l : list R) :
  0 <= u <= 1 -> (forall x, close u x (rnd x)) ->
  Forall (fun x => 0 <= x) l ->
  forall acc, 0 <= acc ->
    (1 - u) ^ length l * (acc + py_sum l)
    <= fold_left (fun acc x => rnd (acc + x)) l acc
    <= (1 + u) ^ length l * (acc + py_sum l).
Proof.
  intros Hu Hrnd Hl. induction Hl as [| x l Hx Hl IH]; intros acc Hacc.
  - cbn [length fold_left pow]. rewrite py_sum_nil. lra.
  - cbn [length fold_left pow]. rewrite py_sum_cons.
    pose proof (py_sum_nonneg l Hl) as Hsum.
    assert (Hin : 0 <= acc + x) by lra.
    pose proof (close_lower _ _ _ (Hrnd (acc + x)) Hin) as H1.
    pose proof (close_upper _ _ _ (Hrnd (acc + x)) Hin) as H2.
    assert (Hacc' : 0 <= rnd (acc + x)) by nra.
    destruct (IH (rnd (acc + x)) Hacc') as [IH1 IH2].
    assert (Hd : 0 <= (1 - u) ^ length l) by (apply pow_le; lra).
    assert (Hp : 0 <= (1 + u) ^ length l) by (apply pow_le; lra).
    assert (Hus : 0 <= u * py_sum l) by (apply Rmult_le_pos; lra).
    split.
    + apply Rle_trans
        with ((1 - u) ^ length l * (rnd (acc + x) + py_sum l));
        [| exact IH1].
      rewrite Rmult_assoc. rewrite (Rmult_comm (1 - u)).
      rewrite Rmult_assoc. apply Rmult_le_compat_l; [exact Hd |]. lra.
    + apply Rle_trans
        with ((1 + u) ^ length l * (rnd (acc + x) + py_sum l));
        [exact IH2 |].
      rewrite (Rmult_comm (1 + u)).
      rewrite Rmult_assoc. apply Rmult_le_compat_l; [exact Hp |]. lra.
Qed.

(** An arithmetic that rounds every exact result within [u] (the
    standard model of floating-point arithmetic) rounds within [u] on
    every call of [normalize_point]. *)
Lemma rounded_rounds_within (u : R) (rnd : R -> R) (M : R) (point : list R) :
  0 <= u <= 1 -> (forall x, close u x (rnd x)) ->
  real_floats (floats.rounded rnd) /\
  rounds_within u (floats.rounded rnd) M point.
Proof.
  intros Hu Hrnd. split.
  - split; [reflexivity |].
    intros x y Hy. cbn [floats.fdiv floats.rounded].
    rewrite truediv_nonzero by exact Hy. eexists. reflexivity.
  - unfold rounds_within. cbn [floats.fmul floats.fsum floats.fsqrt
                               floats.fdiv floats.rounded].
    split; [apply Forall_forall; intros; apply Hrnd |].
    split; [| split; [apply Hrnd |]].
    + assert (Hnonneg : Forall (fun s => 0 <= s)
                               (map (fun x => rnd (x * x)) point)).
      { apply Forall_forall. intros s Hs. apply in_map_iff in Hs.
        destruct Hs as [x [Hs _]]. subst s.
        assert (Hx : 0 <= x * x) by nra.
        pose proof (close_lower _ _ _ (Hrnd (x * x)) Hx). nra. }
      pose proof (rounded_sum_bounds u rnd _ Hu Hrnd Hnonneg 0 (Rle_refl 0))
        as Hsum.
      rewrite length_map, Rplus_0_l in Hsum. exact Hsum.
    + apply Forall_forall. intros x _. split; [apply Hrnd |].
      intros q Hq. unfold truediv in Hq.
      destruct (Req_dec_T _ 0); cbn [bind] in Hq; [discriminate |].
      injection Hq as Hq. subst q. apply Hrnd.
Qed.

(** Double precision on the point (1, 5) under the bound 5: the point
    has computed norm [sqrt 26] and is rescaled, and the computed norm
    of the result is the double next above 5 (it prints as
    5.000000000000001): the bound itself is exceeded, by one rounding
    error. *)
Example normalize_point_binary64_excess :
  forall libm_log,
  exists clamped,
    floats.normalize_point (floats.binary64 libm_log) binary64_bound
      binary64_point = Ok clamped /\
    floats.magnitude_of (floats.binary64 libm_log) clamped
    = binary64_above_bound /\
    PrimFloat.ltb binary64_bound binary64_above_bound = true.
Proof.
  intro libm_log. eexists. split; [lazy; reflexivity |].
  split; lazy; reflexivity.
Qed.

(** C10, amended: for every density bound [M >= 0] and every point,
    [normalize_point] returns; it returns the point unchanged when the
    norm it computes does not exceed [M], and otherwise every coordinate
    multiplied by [M] and divided by the computed norm.  Whenever the
    operations of the call round within the unit roundoff [u] (double
    precision without overflow or underflow: [u = 2^-53]), the
    Euclidean norm of a rescaled point is [M] up to rounding, between
    [M (1 - u)^2 / (1 + u)^(n + 2)] and [M (1 + u)^2 / (1 - u)^(n + 2)]
    for [n] coordinates, and in both cases the norm of the result does
    not exceed [M (1 + u)^2 / (1 - u)^(n + 2)]; in exact arithmetic
    ([u = 0]) that is [M]. *)
Theorem normalize_point_within_tolerance :
  forall (a : floats.arithmetic R) (u M : R) (point : list R),
    0 <= u < 1 -> 0 <= M -> real_floats a -> rounds_within u a M point ->
    exists clamped,
      floats.normalize_point a M point = Ok clamped /\
      (floats.magnitude_of a point <= M -> clamped = point) /\
      (M < floats.magnitude_of a point ->
       Forall2 (fun x y =>
                  floats.fdiv a (floats.fmul a x M)
                              (floats.magnitude_of a point) = Ok y)
               point clamped /\
       M * tolerance_below u (length point) <= magnitude_of clamped) /\
      magnitude_of clamped <= M * tolerance_above u (length point).
Proof.
  intros a u M point Hu HM [Hcmp Hdiv] Hround.
  destruct (computed_magnitude_bounds a u M point Hu Hround) as [Hlow Hhigh].
  destruct Hround as [_ [_ [_ Hops]]].
  change (floats.fsqrt a (floats.fsum a
            (map (fun x => floats.fmul a x x) point)))
    with (floats.magnitude_of a point) in Hops.
  set (n := length point) in *.
  set (m := floats.magnitude_of a point) in *.
  set (norm := magnitude_of point) in *.
  set (D := (1 - u) ^ (n + 2)) in *.
  set (U := (1 + u) ^ (n + 2)) in *.
  assert (HD : 0 < D) by (apply pow_lt; lra).
  assert (HU : 0 < U) by (apply pow_lt; lra).
  assert (Hone : 1 <= (1 + u) ^ 2) by (simpl; nra).
  assert (Hsq : 0 <= (1 - u) ^ 2) by (apply pow_le; lra).
  assert (Hnorm_up : norm <= m * / D).
  { apply Rmult_le_reg_l with D; [exact HD |].
    replace (D * (m * / D)) with m by (field; lra). exact Hlow. }
  assert (Hnorm_dn : m * / U <= norm).
  { apply Rmult_le_reg_l with U; [exact HU |].
    replace (U * (m * / U)) with m by (field; lra).
    rewrite (Rmult_comm U). rewrite Rmult_comm in Hhigh. lra. }
  unfold floats.normalize_point. fold m. rewrite Hcmp.
  unfold tolerance_above, tolerance_below. fold n. fold D. fold U.
  destruct (Rlt_dec M m) as [Hgt | Hle].
  - replace (Rltb M m) with true by (symmetry; apply Rltb_lt; exact Hgt).
    assert (Hm : 0 < m) by lra.
    destruct (list_comp_defined
                (fun x => floats.fdiv a (floats.fmul a x M) m) point)
      as [clamped Hrun].
    { intros x _. apply Hdiv. lra. }
    pose proof (list_comp_forall2 _ _ _ Hrun) as Hall.
    assert (Hcoord :
      Forall2 (fun x y =>
                 Rabs y <= Rabs (x * ((1 + u) ^ 2 * (M / m))) /\
                 Rabs (x * ((1 - u) ^ 2 * (M / m))) <= Rabs y)
              point clamped).
    { apply (Forall2_with _ _ _ _ _ Hops Hall).
      intros x y [Hp Hq] Hy.
      apply (rescaled_coordinate u M m x (floats.fmul a x M) y);
        try assumption.
      apply Hq. exact Hy. }
    assert (Ht : 0 <= M / m).
    { apply Rmult_le_pos; [exact HM |]. left. apply Rinv_0_lt_compat, Hm. }
    assert (Habove : magnitude_of clamped
                     <= (1 + u) ^ 2 * (M / m) * norm).
    { rewrite <- (Rabs_pos_eq ((1 + u) ^ 2 * (M / m)))
        by (apply Rmult_le_pos; [lra | exact Ht]).
      apply magnitude_scaled_above.
      eapply Forall2_impl; [| exact Hcoord]. intros x y [H _]. exact H. }
    assert (Hbelow : (1 - u) ^ 2 * (M / m) * norm
                     <= magnitude_of clamped).
    { rewrite <- (Rabs_pos_eq ((1 - u) ^ 2 * (M / m)))
        by (apply Rmult_le_pos; [exact Hsq | exact Ht]).
      apply magnitude_scaled_below.
      eapply Forall2_impl; [| exact Hcoord]. intros x y [_ H]. exact H. }
    exists clamped. split; [exact Hrun |].
    split; [intro; lra |]. split.
    + intros _. split; [exact Hall |].
      apply Rle_trans with ((1 - u) ^ 2 * (M / m) * norm); [| exact Hbelow].
      replace (M * ((1 - u) ^ 2 / U))
        with ((1 - u) ^ 2 * (M / m) * (m * / U)) by (field; lra).
      apply Rmult_le_compat_l; [| exact Hnorm_dn].
      apply Rmult_le_pos; [exact Hsq | exact Ht].
    + apply Rle_trans with ((1 + u) ^ 2 * (M / m) * norm); [exact Habove |].
      replace (M * ((1 + u) ^ 2 / D))
        with ((1 + u) ^ 2 * (M / m) * (m * / D)) by (field; lra).
      apply Rmult_le_compat_l; [| exact Hnorm_up].
      apply Rmult_le_pos; [lra | exact Ht].
  - replace (Rltb M m) with false by (symmetry; apply Rltb_ge; lra).
    exists point. split; [reflexivity |].
    split; [intro; reflexivity |]. split; [intro; lra |].
    fold norm.
    assert (HiD : 0 < / D) by (apply Rinv_0_lt_compat; exact HD).
    apply Rle_trans with (m * / D); [exact Hnorm_up |].
    apply Rle_trans with (M * / D).
    + apply Rmult_le_compat_r; lra.
    + unfold Rdiv. rewrite <- Rmult_assoc.
      apply Rmult_le_compat_r; [lra |]. nra.
Qed.

(** C10 at a concrete input: the exact arithmetic, the default bound 5
    and the point (6, 8) of norm 10; with [u = 0] the tolerance is 1 and
    the norm of the result is at most 5. *)
Lemma normalize_point_within_tolerance_witness :
  exists clamped,
    trajectory_simulator.normalize_point default_simulator [6; 8]
    = Ok clamped /\
    magnitude_of clamped <= 5.
Proof.
  destruct (normalize_point_within_tolerance floats.exact 0 5 [6; 8])
    as [clamped [Hrun [_ [_ Hbound]]]].
  - lra.
  - lra.
  - exact exact_real_floats.
  - apply exact_rounds_within.
  - exists clamped. split.
    + rewrite <- normalize_point_exact. exact Hrun.
    + unfold tolerance_above in Hbound. simpl in Hbound. lra.
Defined.

(* ================================================================= *)
(** ** Trajectories of different lengths (calculate)                  *)
(* ================================================================= *)

Section Lengths.

Context {F : Type} (a : floats.arithmetic F).
Variable self : floats.LyapunovCalculator F.
Variables reference_traj perturbed_traj : list (list F).
Hypothesis skip_nonneg : (0 <= floats.lyap_skip_steps self)%Z.

Let start : Z :=
  Z.min (floats.lyap_skip_steps self)
        (Z.of_nat (length reference_traj) / 4).
Let init : floats.accumulators F :=
  {| floats.lyap_sum := floats.fzero a; floats.valid_points := 0 |}.

(** A perturbed trajectory that is shorter than the reference one: the
    loop runs over the indices the perturbed trajectory has and then
    raises IndexError. *)
Lemma calculate_shorter :
  (length perturbed_traj < length reference_traj)%nat ->
  floats.calculate a self reference_traj perturbed_traj
  = (_ <- for_loop (floats.calculate_body a self reference_traj
                      perturbed_traj)
                   (py_range2 start (Z.of_nat (length perturbed_traj)))
                   init ;;
     Raise IndexError).
Proof.
  intro Hshort. unfold floats.calculate. fold start. fold init.
  set (n := length reference_traj) in *.
  set (m := length perturbed_traj) in *.
  assert (Hq : (0 <= Z.of_nat n / 4)%Z) by (apply Z.div_pos; lia).
  assert (Hlt : (Z.of_nat n / 4 < Z.of_nat n)%Z)
    by (apply Z.div_lt_upper_bound; lia).
  assert (Hs : start = Z.of_nat (Z.to_nat start)) by (subst start; lia).
  assert (Hsn : (Z.to_nat start < n)%nat) by (subst start; lia).
  rewrite Hs, !py_range2_nat.
  set (s := Z.to_nat start) in *.
  set (b := Nat.max s m).
  replace (n - s)%nat with ((b - s) + (n - b))%nat by lia.
  replace (m - s)%nat with (b - s)%nat by lia.
  rewrite seq_app, map_app, for_loop_app.
  replace (s + (b - s))%nat with b by lia.
  destruct (for_loop _ (map Z.of_nat (seq s (b - s))) init) as [acc |];
    cbn [bind]; [| reflexivity].
  destruct (n - b)%nat as [| k] eqn:Hk; [lia |].
  cbn [seq map for_loop].
  unfold floats.calculate_body at 1.
  rewrite (getitem_nat reference_traj b []) by (fold n; lia).
  cbn [bind].
  rewrite (getitem_outside perturbed_traj b) by (fold m; lia).
  reflexivity.
Qed.

(** Of a perturbed trajectory that is at least as long as the reference
    one only the first [len(reference_traj)] points are read. *)
Lemma calculate_longer :
  (length reference_traj <= length perturbed_traj)%nat ->
  floats.calculate a self reference_traj perturbed_traj
  = floats.calculate a self reference_traj
      (firstn (length reference_traj) perturbed_traj).
Proof.
  intro Hlong. unfold floats.calculate. fold start.
  destruct (calculate_range (floats.lyap_skip_steps self)
              (length reference_traj) skip_nonneg)
    as [s [Hs [_ Hrange]]].
  fold start in Hrange. rewrite Hrange.
  rewrite (for_loop_ext
             (floats.calculate_body a self reference_traj perturbed_traj)
             (floats.calculate_body a self reference_traj
                (firstn (length reference_traj) perturbed_traj))).
  - reflexivity.
  - intros acc i Hi. apply in_map_iff in Hi.
    destruct Hi as [j [Hj Hin]]. subst i. apply in_seq in Hin.
    unfold floats.calculate_body.
    rewrite (getitem_nat reference_traj j []) by lia. cbn [bind].
    rewrite (getitem_nat perturbed_traj j []) by lia.
    rewrite (getitem_nat (firstn (length reference_traj) perturbed_traj)
               j []) by (rewrite length_firstn; lia).
    rewrite nth_firstn.
    replace (j <? length reference_traj)%nat with true
      by (symmetry; apply Nat.ltb_lt; lia).
    reflexivity.
Qed.

End Lengths.

(** X10.  [calculate] takes its number of points from the reference
    trajectory and indexes both trajectories with it, in every float
    arithmetic and for [0 <= transient_skip_steps].  With a perturbed
    trajectory that is shorter than the reference one the call never
    returns: it raises IndexError at the first index the perturbed
    trajectory lacks, unless an earlier index raised (an arithmetic
    exception of [(r - p) ** 2], of the division or of the logarithm);
    it is not cut to the common length.  Of a longer perturbed
    trajectory only the first [len(reference_traj)] points are read. *)
Theorem calculate_trajectory_lengths :
  forall (F : Type) (a : floats.arithmetic F)
         (self : floats.LyapunovCalculator F)
         (reference_traj perturbed_traj : list (list F)),
    (0 <= floats.lyap_skip_steps self)%Z ->
    ((length perturbed_traj < length reference_traj)%nat ->
     (exists e,
         floats.calculate a self reference_traj perturbed_traj = Raise e) /\
     floats.calculate a self reference_traj perturbed_traj
     = (_ <- for_loop (floats.calculate_body a self reference_traj
                         perturbed_traj)
                      (py_range2
                         (Z.min (floats.lyap_skip_steps self)
                                (Z.of_nat (length reference_traj) / 4))
                         (Z.of_nat (length perturbed_traj)))
                      {| floats.lyap_sum := floats.fzero a;
                         floats.valid_points := 0 |} ;;
        Raise IndexError)) /\
    ((length reference_traj <= length perturbed_traj)%nat ->
     floats.calculate a self reference_traj perturbed_traj
     = floats.calculate a self reference_traj
         (firstn (length reference_traj) perturbed_traj)).
Proof.
  intros F a self reference_traj perturbed_traj Hskip. split.
  - intro Hshort.
    pose proof (calculate_shorter a self reference_traj perturbed_traj
                  Hskip Hshort) as H.
    split; [| exact H].
    rewrite H.
    destruct (for_loop _ _ _) as [acc | e]; cbn [bind];
      eexists; reflexivity.
  - apply calculate_longer. exact Hskip.
Qed.

(** X10 at a concrete input: the exact arithmetic, the default
    calculator, the demonstration reference trajectory and no perturbed
    point at all. *)
Lemma calculate_trajectory_lengths_witness :
  floats.calculate floats.exact (calculator_of default_calculator)
    demo_reference [] = Raise IndexError.
Proof.
  destruct (calculate_trajectory_lengths R floats.exact
              (calculator_of default_calculator) demo_reference [])
    as [Hshort _].
  - simpl. lia.
  - destruct Hshort as [_ H]; [simpl; lia |]. rewrite H. reflexivity.
Defined.

(** Double precision, the default settings, a perturbed trajectory of
    one point against a reference trajectory of two.  From the origin
    throughout, the call raises IndexError; when the first reference
    point is the double nearest to 1e200, the square of the difference
    at index 0 overflows first. *)
Example calculate_binary64_shorter :
  forall libm_log,
    floats.calculate (floats.binary64 libm_log) binary64_calculator
      (binary64_origin ++ binary64_origin) binary64_origin
    = Raise IndexError /\
    floats.calculate (floats.binary64 libm_log) binary64_calculator
      (binary64_huge ++ binary64_origin) binary64_origin
    = Raise OverflowError.
Proof.
  intro libm_log. split; vm_compute; reflexivity.
Qed.
